(** * Okta user-origin report: a shallow embedding of [okta-soruce.py]

    The script fetches the Okta users and the application users of the
    "bob" application through a paginated REST API, and classifies every
    user as imported or manual.  The embedding keeps the dynamic typing of
    the script: API bodies are JSON values, and every operation that
    Python would reject at run time raises the corresponding exception. *)

From Stdlib Require Import Bool List ZArith Lia Ascii String DecimalString.
Import ListNotations.

Set Warnings "-register-all".

Open Scope string_scope.
Open Scope Z_scope.

(** ** Python strings *)

Module PyStr.

(** [sub in s]. *)
Fixpoint contains (sub s : string) : bool :=
  if String.prefix sub s then true
  else match s with
       | EmptyString => false
       | String _ s' => contains sub s'
       end.

(** [s.find(c)] for a one-character needle: the index of the first
    occurrence, [-1] when there is none. *)
Fixpoint find (c : ascii) (s : string) : Z :=
  match s with
  | EmptyString => -1
  | String d s' =>
      if Ascii.eqb c d then 0
      else let r := find c s' in if r <? 0 then -1 else r + 1
  end.

(** An index of a slice, as Python normalises it: a negative index counts
    from the end, and everything is clamped to [0, len]. *)
Definition clamp (len i : Z) : Z :=
  if i <? 0 then Z.max (len + i) 0 else Z.min i len.

(** [s[a:b]]. *)
Definition slice (s : string) (a b : Z) : string :=
  let len := Z.of_nat (String.length s) in
  let a' := clamp len a in
  let b' := clamp len b in
  if a' <? b' then String.substring (Z.to_nat a') (Z.to_nat (b' - a')) s
  else EmptyString.

(** [s.split(sep)] for a non-empty separator: the occurrences are found
    from left to right and do not overlap.  [skip] counts the characters
    of a separator that has been recognised and is still to be passed;
    [cur] is the piece being read. *)
Fixpoint split_go (sep : string) (skip : nat) (cur s : string) : list string :=
  match s with
  | EmptyString => [cur]
  | String c s' =>
      match skip with
      | S k => split_go sep k cur s'
      | O =>
          if String.prefix sep s
          then cur :: split_go sep (Nat.pred (String.length sep)) EmptyString s'
          else split_go sep O (cur ++ String c EmptyString) s'
      end
  end.

Definition split (sep s : string) : list string := split_go sep O EmptyString s.

(** [l[-1]] on the result of a split, which is never empty. *)
Definition last_piece (l : list string) : string := List.last l EmptyString.

(** [s.startswith(p)]. *)
Definition startswith (p s : string) : bool := String.prefix p s.

(** [c.isdigit()] on a character of a header value.  Header values reach
    the script decoded as Latin-1, so a character is one byte; besides
    the ten decimal digits, Python counts the superscripts ¹ (185),
    ² (178) and ³ (179) as digits. *)
Definition isdigit_char (c : ascii) : bool :=
  let n := Z.of_nat (nat_of_ascii c) in
  ((48 <=? n) && (n <=? 57)) || (n =? 178) || (n =? 179) || (n =? 185).

Definition all_chars (p : ascii -> bool) (s : string) : bool :=
  forallb p (list_ascii_of_string s).

(** [s.isdigit()]: no character fails the test and there is at least one. *)
Definition isdigit (s : string) : bool :=
  negb (String.eqb s EmptyString) && all_chars isdigit_char s.

Definition decimal_char (c : ascii) : option Z :=
  let n := Z.of_nat (nat_of_ascii c) in
  if (48 <=? n) && (n <=? 57) then Some (n - 48) else None.

Fixpoint decimal_go (acc : Z) (s : string) : option Z :=
  match s with
  | EmptyString => Some acc
  | String c s' =>
      match decimal_char c with
      | Some d => decimal_go (10 * acc + d) s'
      | None => None
      end
  end.

(** [str(n)] for an integer. *)
Definition of_int (n : Z) : string := NilEmpty.string_of_int (Z.to_int n).

(** The longest numeral [int] converts: the interpreter's default for
    [sys.get_int_max_str_digits()]. *)
Definition int_max_str_digits : Z := 4300.

(** The number of decimal digits [s] starts with. *)
Fixpoint leading_digits (s : string) : Z :=
  match s with
  | EmptyString => 0
  | String c s' =>
      match decimal_char c with
      | Some _ => 1 + leading_digits s'
      | None => 0
      end
  end.

(** [int(s)] on a string that passed [isdigit]: the number it spells in
    base ten, [None] (Python's [ValueError]) when it starts with more
    digits than the interpreter converts, or when a character is not a
    decimal digit. *)
Definition to_int (s : string) : option Z :=
  match s with
  | EmptyString => None
  | _ => if int_max_str_digits <? leading_digits s then None else decimal_go 0 s
  end.

(** The message of the [ValueError] that [int(s)] raises. *)
Definition int_error (s : string) : string :=
  if int_max_str_digits <? leading_digits s
  then "Exceeds the limit (4300 digits) for integer string conversion: value has "
       ++ of_int (leading_digits s)
       ++ " digits; use sys.set_int_max_str_digits() to increase the limit"
  else "invalid literal for int() with base 10: '" ++ s ++ "'".

(** [sub] occurs in [s], as a proposition. *)
Definition Occurs (sub s : string) : Prop :=
  exists p q, s = p ++ sub ++ q.

End PyStr.

(** ** JSON values, as [resp.json()] returns them *)

(** A JSON number is modelled as a Python [int] (numbers with a fraction
    are left out); an object keeps its keys in order, and [lookup]
    returns the first binding of a key. *)
Inductive json : Type :=
| JNull
| JBool (b : bool)
| JInt (n : Z)
| JStr (s : string)
| JList (xs : list json)
| JDict (kv : list (string * json)).

(** ** Exceptions and results *)

Inductive exn : Type :=
| AttributeError
| TypeError
| KeyError (key : string)
| ValueError (msg : string)
| JSONDecodeError
| ConnectionError (url : string)
| Exception (msg : string).

Inductive result (A : Type) : Type :=
| Ok (a : A)
| Raise (e : exn).
Arguments Ok {A} a.
Arguments Raise {A} e.

Definition rbind {A B} (r : result A) (k : A -> result B) : result B :=
  match r with
  | Ok a => k a
  | Raise e => Raise e
  end.

Declare Scope result_scope.
Delimit Scope result_scope with res.
Notation "x <- r ;; k" := (rbind r (fun x => k))
  (at level 61, r at next level, right associativity) : result_scope.

(** ** The Python operations the script applies to JSON values *)

Module Py.

Fixpoint lookup (k : string) (kv : list (string * json)) : option json :=
  match kv with
  | [] => None
  | (k', v) :: rest => if String.eqb k k' then Some v else lookup k rest
  end.

(** [bool(v)]. *)
Definition truthy (v : json) : bool :=
  match v with
  | JNull => false
  | JBool b => b
  | JInt n => negb (n =? 0)
  | JStr s => negb (String.eqb s EmptyString)
  | JList xs => match xs with [] => false | _ => true end
  | JDict kv => match kv with [] => false | _ => true end
  end.

(** [a or b]. *)
Definition or_ (a b : json) : json := if truthy a then a else b.

(** [d.get(k)] and [d.get(k, default)].  Only a dict has [get]. *)
Definition get_default (d : json) (k : string) (default : json) : result json :=
  match d with
  | JDict kv => Ok (match lookup k kv with Some v => v | None => default end)
  | _ => Raise AttributeError
  end.

Definition get (d : json) (k : string) : result json := get_default d k JNull.

(** [d[k]] on a dict. *)
Definition getitem (d : json) (k : string) : result json :=
  match d with
  | JDict kv => match lookup k kv with Some v => Ok v | None => Raise (KeyError k) end
  | _ => Raise TypeError
  end.

Definition is_dict (v : json) : bool := match v with JDict _ => true | _ => false end.
Definition is_list (v : json) : bool := match v with JList _ => true | _ => false end.
Definition is_str (v : json) : bool := match v with JStr _ => true | _ => false end.

(** [v == "s"] for a string literal [s]. *)
Definition eq_str (v : json) (s : string) : bool :=
  match v with
  | JStr t => String.eqb t s
  | _ => false
  end.

(** [hash(v)] succeeds: lists and dicts are not hashable. *)
Definition hashable (v : json) : bool :=
  match v with
  | JList _ | JDict _ => false
  | _ => true
  end.

Definition num_of (v : json) : option Z :=
  match v with
  | JBool b => Some (if b then 1 else 0)
  | JInt n => Some n
  | _ => None
  end.

(** [a == b] on hashable values: [True] and [False] are the numbers 1
    and 0. *)
Definition eq_atom (a b : json) : bool :=
  match a, b with
  | JNull, JNull => true
  | JStr s, JStr t => String.eqb s t
  | _, _ =>
      match num_of a, num_of b with
      | Some x, Some y => x =? y
      | _, _ => false
      end
  end.

(** A Python [set] of hashable values: its elements, none equal to another.
    The script only adds to the set and tests membership. *)
Definition pyset : Type := list json.

Definition set_mem (x : json) (s : pyset) : bool := existsb (eq_atom x) s.

(** [x in s]. *)
Definition set_contains (x : json) (s : pyset) : result bool :=
  if hashable x then Ok (set_mem x s) else Raise TypeError.

(** [s.add(x)]. *)
Definition set_add (x : json) (s : pyset) : result pyset :=
  if hashable x then Ok (if set_mem x s then s else (s ++ [x])%list)
  else Raise TypeError.

(** ["s" in v] for a string literal [s]: a substring test on a string, an
    element test on a list, a key test on a dict. *)
Definition str_in (s : string) (v : json) : result bool :=
  match v with
  | JStr t => Ok (PyStr.contains s t)
  | JList xs => Ok (existsb (fun x => eq_str x s) xs)
  | JDict kv => Ok (existsb (fun p => String.eqb (fst p) s) kv)
  | _ => Raise TypeError
  end.

(** [v.split(sep)[-1]]. *)
Definition split_last (sep : string) (v : json) : result json :=
  match v with
  | JStr t => Ok (JStr (PyStr.last_piece (PyStr.split sep t)))
  | _ => Raise AttributeError
  end.

(** The elements a [for] loop over [v] visits. *)
Definition iter (v : json) : result (list json) :=
  match v with
  | JList xs => Ok xs
  | JDict kv => Ok (map (fun p => JStr (fst p)) kv)
  | JStr s => Ok (map (fun c => JStr (String c EmptyString)) (list_ascii_of_string s))
  | _ => Raise TypeError
  end.

End Py.

(** One row of the report. *)
Record Row : Type := {
  user_id : json;
  first_name : json;
  last_name : json;
  email : json;
  origin : string;
  okta_configuration_status : json
}.

(** What the script takes from Python's libraries and the interpreter:
    [str.lower], [urllib.parse.quote], the text [str()] gives for a list
    or a dict, and, of the export of pandas, the exception that
    [df.to_excel] raises for the rows, if it raises, and the file it
    leaves then, given the file there was. *)
Class Builtins : Type := {
  str_lower : string -> string;
  url_quote : string -> string;
  repr_container : json -> string;
  excel_error : list Row -> option exn;
  excel_leaves : list Row -> option (list Row) -> option (list Row)
}.

(** [f"{v}"]. *)
Definition fmt `{Builtins} (v : json) : string :=
  match v with
  | JStr s => s
  | JInt n => PyStr.of_int n
  | JNull => "None"
  | JBool true => "True"
  | JBool false => "False"
  | _ => repr_container v
  end.

(** [v.lower()]. *)
Definition lower `{Builtins} (v : json) : result string :=
  match v with
  | JStr s => Ok (str_lower s)
  | _ => Raise AttributeError
  end.

(** ** The world the script runs in *)

(** An HTTP response: [body] is what [resp.json()] returns, [None] when
    the text is not JSON. *)
Record Response : Type := {
  status_code : Z;
  headers : list (string * string);
  text : string;
  body : option json
}.

(** The backend is the sequence of responses it is going to give,
    [pending]; when it is exhausted the backend no longer answers and a
    request raises [ConnectionError].  [clock] is [int(time.time())];
    [requested] and [slept] record the requests made and the sleeps taken;
    [report] is the content of the spreadsheet file, if it exists. *)
Record World : Type := {
  clock : Z;
  pending : list Response;
  requested : list string;
  slept : list Z;
  report : option (list Row)
}.

(** The settings read from the environment; [OKTA_DOMAIN] is the
    normalised domain. *)
Record Config : Type := {
  OKTA_DOMAIN : string;
  BOB_APP_ID : option string;
  BOB_APP_LABEL : option string
}.

(** A computation that reads and changes the world and may raise. *)
Definition M (A : Type) : Type := World -> result A * World.

Definition ret {A} (a : A) : M A := fun w => (Ok a, w).
Definition raise {A} (e : exn) : M A := fun w => (Raise e, w).
Definition lift {A} (r : result A) : M A := fun w => (r, w).

Definition bind {A B} (m : M A) (k : A -> M B) : M B :=
  fun w =>
    match m w with
    | (Ok a, w') => k a w'
    | (Raise e, w') => (Raise e, w')
    end.

Declare Scope io_scope.
Delimit Scope io_scope with io.
Notation "x <- m ;; k" := (bind m (fun x => k))
  (at level 61, m at next level, right associativity) : io_scope.

(** [SESSION.get(url)] answered by [resp], the script that remains being
    [rest]. *)
Definition answered (url : string) (rest : list Response) (w : World) : World :=
  {| clock := clock w; pending := rest;
     requested := (requested w ++ [url])%list;
     slept := slept w; report := report w |}.

(** [time.sleep(s)] when the call returns: the clock moves by [s].  The
    durations the platform refuses (more than about 9.2e9 seconds, for
    which the call raises [OverflowError]) are left out. *)
Definition sleep (s : Z) (w : World) : World :=
  {| clock := clock w + s; pending := pending w;
     requested := requested w;
     slept := (slept w ++ [s])%list; report := report w |}.

(** [df.to_excel(output_file)]: the file is replaced, unless the export
    raises. *)
Definition to_excel `{Builtins} (rows : list Row) : M unit :=
  fun w =>
    match excel_error rows with
    | None =>
        (Ok tt,
         {| clock := clock w; pending := pending w;
            requested := requested w; slept := slept w;
            report := Some rows |})
    | Some e =>
        (Raise e,
         {| clock := clock w; pending := pending w;
            requested := requested w; slept := slept w;
            report := excel_leaves rows (report w) |})
    end.

Definition double_quote : string := String (ascii_of_nat 34) EmptyString.

(** The marker [rel="next"] of a link header. *)
Definition rel_next : string := "rel=" ++ double_quote ++ "next" ++ double_quote.

Section Script.

Context `{Builtins}.

(** [resp.headers.get(name)]: the names of headers compare without case. *)
Fixpoint headers_get (name : string) (hs : list (string * string)) : option string :=
  match hs with
  | [] => None
  | (k, v) :: rest =>
      if String.eqb (str_lower k) (str_lower name) then Some v
      else headers_get name rest
  end.

Definition truthy_header (h : option string) : bool :=
  match h with
  | Some s => negb (String.eqb s EmptyString)
  | None => false
  end.

(** The number of seconds [_sleep_for_rate_limit] decides to sleep. *)
Definition sleep_seconds (now : Z) (resp : Response) : result Z :=
  let reset := headers_get "x-rate-limit-reset" (headers resp) in
  match reset with
  | Some r =>
      if truthy_header reset && PyStr.isdigit r then
        match PyStr.to_int r with
        | Some n => Ok (Z.max (n - now + 1) 2)
        | None => Raise (ValueError (PyStr.int_error r))
        end
      else Ok 2
  | None => Ok 2
  end.

Definition _sleep_for_rate_limit (resp : Response) : M bool :=
  fun w =>
    if negb (status_code resp =? 429) then (Ok false, w)
    else
      match sleep_seconds (clock w) resp with
      | Ok sleep_s => (Ok true, sleep sleep_s w)
      | Raise e => (Raise e, w)
      end.

(** [_get(url)]: the loop runs once for each response the backend gives,
    so it is written by recursion on the responses to come. *)
Fixpoint _get_from (url : string) (script : list Response) (w : World)
  : result Response * World :=
  match script with
  | [] => (Raise (ConnectionError url), answered url [] w)
  | resp :: rest =>
      let w1 := answered url rest w in
      if status_code resp =? 429 then
        match _sleep_for_rate_limit resp w1 with
        | (Ok true, w2) => _get_from url rest w2
        | (Ok false, w2) => (Ok resp, w2)
        | (Raise e, w2) => (Raise e, w2)
        end
      else (Ok resp, w1)
  end.

Definition _get (url : string) : M Response :=
  fun w => _get_from url (pending w) w.

(** The first part of the link header that carries [rel="next"] gives
    the continuation, the text between its [<] and its [>]. *)
Fixpoint first_next (parts : list string) : option string :=
  match parts with
  | [] => None
  | part :: rest =>
      if PyStr.contains rel_next part
      then Some (PyStr.slice part (PyStr.find "<" part + 1) (PyStr.find ">" part))
      else first_next rest
  end.

Definition link_header (resp : Response) : option string :=
  let l := headers_get "link" (headers resp) in
  if truthy_header l then l else headers_get "Link" (headers resp).

Definition next_url (resp : Response) : option string :=
  let link := link_header resp in
  match link with
  | Some l => if truthy_header link then first_next (PyStr.split "," l) else None
  | None => None
  end.

(** [while url:] *)
Definition truthy_url (url : option string) : bool := truthy_header url.

Definition api_error (url : string) (resp : Response) : exn :=
  Exception ("GET " ++ url ++ " -> " ++ PyStr.of_int (status_code resp) ++ " " ++ text resp).

(** [resp.json()]. *)
Definition json_of (resp : Response) : result json :=
  match body resp with
  | Some data => Ok data
  | None => Raise JSONDecodeError
  end.

(** [items.extend(data)] or [items.append(data)]. *)
Definition accumulate (items : list json) (data : json) : list json :=
  match data with
  | JList xs => (items ++ xs)%list
  | _ => (items ++ [data])%list
  end.

(** The loop of [_get_paginated].  Every turn takes at least one response
    from the backend, so [fuel] above the number of pending responses is
    never used up. *)
Fixpoint _get_paginated_loop (fuel : nat) (url : option string) (items : list json)
  : M (list json) :=
  fun w =>
    match url with
    | Some u =>
        if truthy_url url then
          match fuel with
          | O => (Raise (ConnectionError u), w)
          | S fuel' =>
              match _get u w with
              | (Raise e, w1) => (Raise e, w1)
              | (Ok resp, w1) =>
                  if negb (status_code resp =? 200) then (Raise (api_error u resp), w1)
                  else
                    match json_of resp with
                    | Raise e => (Raise e, w1)
                    | Ok data =>
                        _get_paginated_loop fuel' (next_url resp) (accumulate items data) w1
                    end
              end
          end
        else (Ok items, w)
    | None => (Ok items, w)
    end.

Definition _get_paginated (url : string) : M (list json) :=
  fun w => _get_paginated_loop (S (List.length (pending w))) (Some url) [] w.

(** *** The application resolver *)

(** [if s:] on a setting of the environment. *)
Definition setting (s : option string) : option string :=
  match s with
  | Some v => if String.eqb v EmptyString then None else Some v
  | None => None
  end.

(** The first loop of [resolve_bob_app_id]: the id of the first
    application whose lowered label is the lowered [label]. *)
Fixpoint exact_match (label : string) (apps : list json) : result (option json) :=
  match apps with
  | [] => Ok None
  | app :: rest =>
      (l <- Py.get_default app "label" (JStr EmptyString) ;;
       low <- lower l ;;
       if String.eqb low (str_lower label)
       then (id <- Py.getitem app "id" ;; Ok (Some id))
       else exact_match label rest)%res
  end.

(** The second loop: the id of the first application whose lowered label
    contains [bob]. *)
Fixpoint bob_match (apps : list json) : result (option json) :=
  match apps with
  | [] => Ok None
  | app :: rest =>
      (l <- Py.get_default app "label" (JStr EmptyString) ;;
       low <- lower l ;;
       if PyStr.contains "bob" low
       then (id <- Py.getitem app "id" ;; Ok (Some id))
       else bob_match rest)%res
  end.

Definition no_label_error : exn :=
  ValueError "Set BOB_APP_ID or BOB_APP_LABEL in your .env to identify the 'bob' app".

Definition not_found_error (label : string) : exn :=
  ValueError ("Could not find a bob app by label '" ++ label ++ "'. "
              ++ "Set BOB_APP_ID to the exact application ID.").

Definition pick_app (label : string) (apps : list json) : result json :=
  (e <- exact_match label apps ;;
   match e with
   | Some id => Ok id
   | None =>
       b <- bob_match apps ;;
       match b with
       | Some id => Ok id
       | None => Raise (not_found_error label)
       end
   end)%res.

Definition resolve_bob_app_id (cfg : Config) : M json :=
  match setting (BOB_APP_ID cfg) with
  | Some id => ret (JStr id)
  | None =>
      match setting (BOB_APP_LABEL cfg) with
      | None => raise no_label_error
      | Some label =>
          let q := url_quote label in
          let url := OKTA_DOMAIN cfg ++ "/api/v1/apps?q=" ++ q ++ "&limit=200" in
          (apps <- _get_paginated url ;;
           lift (pick_app label apps))%io
      end
  end.

(** *** The collectors *)

Definition collect_okta_users (cfg : Config) : M (list json) :=
  _get_paginated (OKTA_DOMAIN cfg ++ "/api/v1/users?limit=200").

(** [user_link] of a membership item, [None] being [JNull]. *)
Definition user_link_of (item : json) : result json :=
  (links <- Py.get_default item "_links" (JDict []) ;;
   lu <- Py.get links "user" ;;
   if Py.is_dict lu then Py.get lu "href"
   else if Py.is_list lu && Py.truthy lu then
     match lu with
     | JList (first :: _) => Py.get first "href"
     | _ => Ok JNull
     end
   else Ok JNull)%res.

(** First strategy: the text after [/users/] in the link. *)
Definition link_user_id (user_link : json) : result json :=
  if Py.truthy user_link then
    (inside <- Py.str_in "/users/" user_link ;;
     if inside then Py.split_last "/users/" user_link else Ok JNull)%res
  else Ok JNull.

(** Second strategy: the id of the embedded user. *)
Definition embedded_user_id (item : json) : result json :=
  (embedded <- Py.get_default item "_embedded" (JDict []) ;;
   eu <- Py.get embedded "user" ;;
   Py.get (Py.or_ eu (JDict [])) "id")%res.

(** Third strategy: the id of the item when it looks like a user id;
    otherwise [user_id] keeps its value. *)
Definition self_user_id (user_id item : json) : result json :=
  (maybe <- Py.get item "id" ;;
   match maybe with
   | JStr s => if PyStr.startswith "00u" s then Ok maybe else Ok user_id
   | _ => Ok user_id
   end)%res.

(** The value of [user_id] when the body of the loop reaches
    [if user_id:]. *)
Definition item_user_id (item : json) : result json :=
  (user_link <- user_link_of item ;;
   user_id <- link_user_id user_link ;;
   user_id <- (if negb (Py.truthy user_id) then embedded_user_id item else Ok user_id) ;;
   if negb (Py.truthy user_id) then self_user_id user_id item else Ok user_id)%res.

(** One turn of [for item in items]. *)
Definition add_item (user_ids : Py.pyset) (item : json) : result Py.pyset :=
  (user_id <- item_user_id item ;;
   if Py.truthy user_id then Py.set_add user_id user_ids else Ok user_ids)%res.

Fixpoint add_items (user_ids : Py.pyset) (items : list json) : result Py.pyset :=
  match items with
  | [] => Ok user_ids
  | item :: rest => (s <- add_item user_ids item ;; add_items s rest)%res
  end.

(** What one page does to the set. *)
Definition add_page (user_ids : Py.pyset) (resp : Response) : result Py.pyset :=
  (data <- json_of resp ;;
   items <- Py.iter data ;;
   add_items user_ids items)%res.

(** The loop of [collect_bob_user_ids], with fuel as in
    [_get_paginated_loop]. *)
Fixpoint collect_loop (fuel : nat) (url : option string) (user_ids : Py.pyset)
  : M Py.pyset :=
  fun w =>
    match url with
    | Some u =>
        if truthy_url url then
          match fuel with
          | O => (Raise (ConnectionError u), w)
          | S fuel' =>
              match _get u w with
              | (Raise e, w1) => (Raise e, w1)
              | (Ok resp, w1) =>
                  if negb (status_code resp =? 200) then (Raise (api_error u resp), w1)
                  else
                    match add_page user_ids resp with
                    | Raise e => (Raise e, w1)
                    | Ok s => collect_loop fuel' (next_url resp) s w1
                    end
              end
          end
        else (Ok user_ids, w)
    | None => (Ok user_ids, w)
    end.

Definition collect_bob_user_ids (cfg : Config) (bob_app_id : json) : M Py.pyset :=
  fun w =>
    let url := OKTA_DOMAIN cfg ++ "/api/v1/apps/" ++ fmt bob_app_id ++ "/users?limit=200" in
    collect_loop (S (List.length (pending w))) (Some url) [] w.

(** *** The rows *)

(** [creds], the provider descriptor of a user. *)
Definition provider_of (user : json) : result json :=
  (c <- Py.get_default user "credentials" (JDict []) ;;
   p <- Py.get_default (Py.or_ c (JDict [])) "provider" (JDict []) ;;
   Ok (Py.or_ p (JDict [])))%res.

Definition provider_status_of (provider_type provider_name : json) : json :=
  if Py.eq_str provider_type "OKTA" then JStr "Manual (OKTA)"
  else if Py.eq_str provider_type "FEDERATION" || Py.eq_str provider_type "IMPORT"
       then JStr ("Provisioned (" ++ fmt provider_name ++ ")")
       else provider_name.

(** The body of [for user in users]. *)
Definition transform_row (bob_user_ids : Py.pyset) (user : json) : result Row :=
  (uid <- Py.get user "id" ;;
   p <- Py.get_default user "profile" (JDict []) ;;
   let profile := Py.or_ p (JDict []) in
   creds <- provider_of user ;;
   provider_type <- Py.get_default creds "type" (JStr "UNKNOWN") ;;
   provider_name <- Py.get_default creds "name" (JStr "UNKNOWN") ;;
   let provider_status := provider_status_of provider_type provider_name in
   imported <- Py.set_contains uid bob_user_ids ;;
   let o := if imported then "Imported (bob)" else "Manual (OKTA)" in
   let st := if imported then JStr "Imported (bob)" else provider_status in
   fn <- Py.get_default profile "firstName" (JStr EmptyString) ;;
   ln <- Py.get_default profile "lastName" (JStr EmptyString) ;;
   em <- Py.get_default profile "email" (JStr EmptyString) ;;
   Ok {| user_id := uid; first_name := fn; last_name := ln; email := em;
         origin := o; okta_configuration_status := st |})%res.

Fixpoint transform (bob_user_ids : Py.pyset) (users : list json) : result (list Row) :=
  match users with
  | [] => Ok []
  | user :: rest =>
      (row <- transform_row bob_user_ids user ;;
       rows <- transform bob_user_ids rest ;;
       Ok (row :: rows))%res
  end.

(** *** The script, from the first request to the report *)

Definition main (cfg : Config) : M (list Row) :=
  (bob_app_id <- resolve_bob_app_id cfg ;;
   users <- collect_okta_users cfg ;;
   bob_user_ids <- collect_bob_user_ids cfg bob_app_id ;;
   rows <- lift (transform bob_user_ids users) ;;
   _ <- to_excel rows ;;
   ret rows)%io.

End Script.

(** ** Notions the properties are stated with *)

(** [v] is a string and is not empty. *)
Definition nonempty_str (v : json) : bool :=
  match v with
  | JStr s => negb (String.eqb s EmptyString)
  | _ => false
  end.

(** The text after [/users/] in a link. *)
Definition after_users (link : string) : string :=
  PyStr.last_piece (PyStr.split "/users/" link).

(** The first strategy on an item: the link, then the text after
    [/users/]. *)
Definition link_strategy (item : json) : result json :=
  rbind (user_link_of item) link_user_id.

(** The script consults the embedded user of the item: the first
    strategy gave nothing. *)
Definition consults_embedded (item : json) : bool :=
  match link_strategy item with
  | Ok lv => negb (Py.truthy lv)
  | Raise _ => false
  end.

(** The embedded user of the item, when the script consults it, has an id
    that is a string or is falsy. *)
Definition embedded_id_typed (item : json) : bool :=
  negb (consults_embedded item)
  || match embedded_user_id item with
     | Ok v => negb (Py.truthy v) || Py.is_str v
     | Raise _ => true
     end.

(** The membership items of a response: those the loop visits when the
    response is a page, none otherwise. *)
Definition members_of (resp : Response) : list json :=
  if status_code resp =? 200 then
    match body resp with
    | Some data =>
        match Py.iter data with
        | Ok items => items
        | Raise _ => []
        end
    | None => []
    end
  else [].

(** The same for every item of a page. *)
Definition page_typed (resp : Response) : bool :=
  forallb embedded_id_typed (members_of resp).

(** [maybe] is a string that starts with [00u]. *)
Definition looks_like_user_id (maybe : json) : bool :=
  match maybe with
  | JStr s => PyStr.startswith "00u" s
  | _ => false
  end.

Definition falsy_or_dict (v : json) : bool := negb (Py.truthy v) || Py.is_dict v.

Definition absent_or (p : json -> bool) (v : option json) : bool :=
  match v with
  | Some x => p x
  | None => true
  end.

(** A user record the row loop accepts: an object whose id, if any, is
    hashable, and whose profile, credentials and provider, if any, are
    objects or falsy. *)
Definition record_shape (user : json) : bool :=
  match user with
  | JDict kv =>
      absent_or Py.hashable (Py.lookup "id" kv)
      && absent_or falsy_or_dict (Py.lookup "profile" kv)
      && absent_or (fun c =>
           negb (Py.truthy c)
           || match c with
              | JDict ckv => absent_or falsy_or_dict (Py.lookup "provider" ckv)
              | _ => false
              end) (Py.lookup "credentials" kv)
  | _ => false
  end.


(** The id of a user record, [None] when it has none. *)
Definition record_id (kv : list (string * json)) : json :=
  match Py.lookup "id" kv with
  | Some v => v
  | None => JNull
  end.

(** The provider of a user record: the object at ["credentials"],
    ["provider"], the empty object when the record has none. *)
Definition provider_descriptor (kv : list (string * json)) : list (string * json) :=
  match Py.lookup "credentials" kv with
  | Some (JDict ckv) =>
      match Py.lookup "provider" ckv with
      | Some (JDict pkv) => pkv
      | _ => []
      end
  | _ => []
  end.

(** The name of the provider, ["UNKNOWN"] when it has none. *)
Definition provider_name (kv : list (string * json)) : json :=
  match Py.lookup "name" (provider_descriptor kv) with
  | Some name => name
  | None => JStr "UNKNOWN"
  end.

Section RowDefs.
Context `{Builtins}.

(** The users and the cross-reference set a run of the script works
    with. *)
Definition Fetched (cfg : Config) (w : World) (users : list json) (ids : Py.pyset) : Prop :=
  exists bob_app_id w1 w2 w3,
    resolve_bob_app_id cfg w = (Ok bob_app_id, w1) /\
    collect_okta_users cfg w1 = (Ok users, w2) /\
    collect_bob_user_ids cfg bob_app_id w2 = (Ok ids, w3).

(** The origin of a row follows membership of the user's id in the set. *)
Definition Classified (ids : Py.pyset) (user : json) (row : Row) : Prop :=
  Py.get user "id" = Ok (user_id row) /\
  (origin row = "Imported (bob)" <-> Py.set_mem (user_id row) ids = true) /\
  (Py.set_mem (user_id row) ids = false -> origin row = "Manual (OKTA)") /\
  (forall s, user_id row = JStr s -> (origin row = "Imported (bob)" <-> In (JStr s) ids)).

(** The configuration status of a row: the override for a member of the
    set, the status the provider reports for the others.  The provider is
    the object found in the record at ["credentials"], ["provider"]; the
    name is written in the status as it is when it is a string, and as
    Python prints it otherwise. *)
Definition StatusRule (ids : Py.pyset) (user : json) (row : Row) : Prop :=
  exists kv,
    user = JDict kv /\
    user_id row = record_id kv /\
    provider_of user = Ok (JDict (provider_descriptor kv)) /\
    (forall s, record_id kv = JStr s ->
               (Py.set_mem (record_id kv) ids = true <-> In (JStr s) ids)) /\
    let ptype := Py.lookup "type" (provider_descriptor kv) in
    let pname := provider_name kv in
    (Py.set_mem (record_id kv) ids = true ->
     okta_configuration_status row = JStr "Imported (bob)") /\
    (Py.set_mem (record_id kv) ids = false ->
     (ptype = Some (JStr "OKTA") ->
      okta_configuration_status row = JStr "Manual (OKTA)") /\
     (ptype = Some (JStr "FEDERATION") \/ ptype = Some (JStr "IMPORT") ->
      okta_configuration_status row = JStr ("Provisioned (" ++ fmt pname ++ ")") /\
      (forall name, pname = JStr name ->
         okta_configuration_status row = JStr ("Provisioned (" ++ name ++ ")")) /\
      (pname = JNull -> okta_configuration_status row = JStr "Provisioned (None)") /\
      (forall n, pname = JInt n ->
         okta_configuration_status row = JStr ("Provisioned (" ++ PyStr.of_int n ++ ")")) /\
      (forall b, pname = JBool b ->
         okta_configuration_status row
         = JStr (if b then "Provisioned (True)" else "Provisioned (False)"))) /\
     (ptype <> Some (JStr "OKTA") -> ptype <> Some (JStr "FEDERATION") ->
      ptype <> Some (JStr "IMPORT") ->
      okta_configuration_status row = pname)).

End RowDefs.

(** An application whose label, if it has one, is a string. *)
Definition labelled (app : json) : bool :=
  match app with
  | JDict kv => absent_or Py.is_str (Py.lookup "label" kv)
  | _ => false
  end.

(** The label of such an application, empty when it has none. *)
Definition label_of (app : json) : string :=
  match app with
  | JDict kv =>
      match Py.lookup "label" kv with
      | Some (JStr s) => s
      | _ => EmptyString
      end
  | _ => EmptyString
  end.

Section ResolverDefs.
Context `{Builtins}.

Definition search_url (cfg : Config) (label : string) : string :=
  OKTA_DOMAIN cfg ++ "/api/v1/apps?q=" ++ url_quote label ++ "&limit=200".

(** The label is the wanted one, up to case. *)
Definition same_label (label : string) (app : json) : bool :=
  String.eqb (str_lower (label_of app)) (str_lower label).

(** The label contains [bob], up to case. *)
Definition bob_label (app : json) : bool :=
  PyStr.contains "bob" (str_lower (label_of app)).

(** The applications the resolver inspects: those up to the first whose
    label is the wanted one, all of them when there is none. *)
Fixpoint inspected (label : string) (apps : list json) : list json :=
  match apps with
  | [] => []
  | app :: rest =>
      if labelled app && same_label label app then [app]
      else app :: inspected label rest
  end.

End ResolverDefs.

(** The items a page contributes: the elements of a sequence, or the
    single object. *)
Definition page_items (resp : Response) : list json :=
  match body resp with
  | Some (JList xs) => xs
  | Some data => [data]
  | None => []
  end.

Definition has_body (resp : Response) : bool :=
  match body resp with
  | Some _ => true
  | None => false
  end.

(** A successful page. *)
Definition is_page (resp : Response) : bool :=
  (status_code resp =? 200) && has_body resp.

Section PageDefs.
Context `{Builtins}.

(** The link header has a segment marked [rel="next"]. *)
Definition has_next_segment (resp : Response) : bool :=
  match link_header resp with
  | Some l => existsb (PyStr.contains rel_next) (PyStr.split "," l)
  | None => false
  end.

(** The loop goes on after this page. *)
Definition continues (resp : Response) : bool := truthy_url (next_url resp).

(** A 429 response that [_sleep_for_rate_limit] handles. *)
Definition retry_ok (resp : Response) : bool :=
  (status_code resp =? 429)
  && match sleep_seconds 0 resp with
     | Ok _ => true
     | Raise _ => false
     end.

(** A page with the rate-limit responses that precede it. *)
Definition Block : Type := (list Response * Response)%type.

Definition block_ok (more : bool) (b : Block) : bool :=
  forallb retry_ok (fst b) && is_page (snd b) && Bool.eqb (continues (snd b)) more.

(** The responses of a traversal, in the order the backend gives them. *)
Definition exchange (blocks : list Block) : list Response :=
  flat_map (fun b => (fst b ++ [snd b])%list) blocks.

Definition pages (blocks : list Block) : list Response := map snd blocks.

(** The requests of a traversal that starts at [url]. *)
Fixpoint urls_requested (url : string) (blocks : list Block) : list string :=
  match blocks with
  | [] => []
  | b :: rest =>
      (repeat url (Datatypes.S (List.length (fst b)))
       ++ match next_url (snd b) with
          | Some u => urls_requested u rest
          | None => []
          end)%list
  end.

(** The URL a traversal that starts at [url] requests after the pages of
    [blocks]: the continuation of the last of them. *)
Fixpoint page_url (url : string) (blocks : list Block) : string :=
  match blocks with
  | [] => url
  | b :: rest =>
      match next_url (snd b) with
      | Some u => page_url u rest
      | None => url
      end
  end.

(** The first request of [collect_okta_users]. *)
Definition users_url (cfg : Config) : string :=
  OKTA_DOMAIN cfg ++ "/api/v1/users?limit=200".

End PageDefs.

(** The set after the pages of members, taken in order. *)
Fixpoint add_pages (user_ids : Py.pyset) (ps : list Response) : result Py.pyset :=
  match ps with
  | [] => Ok user_ids
  | p :: rest => (s <- add_page user_ids p ;; add_pages s rest)%res
  end.

(** ** Inputs the properties single out *)

(** A membership item whose link ends with [/users/], and which embeds
    its user. *)
Definition empty_segment_item : json :=
  JDict [("id", JStr "0ua1");
         ("_links", JDict [("user", JDict [("href", JStr "https://x.okta.com/api/v1/users/")])]);
         ("_embedded", JDict [("user", JDict [("id", JStr "00uEMB")])])].

(** A membership item without link, whose embedded user has a number
    for id. *)
Definition numeric_embedded_id : json :=
  JDict [("id", JStr "0ua1"); ("_embedded", JDict [("user", JDict [("id", JInt 7)])])].

(** A membership item with a link, whose embedded user has a number for
    id. *)
Definition linked_numeric_embedded : json :=
  JDict [("id", JStr "0ua2");
         ("_links", JDict [("user", JDict [("href", JStr "https://x.okta.com/api/v1/users/00u2")])]);
         ("_embedded", JDict [("user", JDict [("id", JInt 7)])])].

(** An application whose label is [null]. *)
Definition null_label_app : json :=
  JDict [("id", JStr "0oa5"); ("label", JNull)].

(** The one-character header value [²], as Latin-1 decodes byte 178. *)
Definition superscript_two : string := String (ascii_of_nat 178) EmptyString.

(** A rate-limit response with that header. *)
Definition superscript_reset : Response :=
  {| status_code := 429;
     headers := [("x-rate-limit-reset", superscript_two)];
     text := "rate limited";
     body := None |}.

(** ** Properties of computations *)

(** The computation leaves the report file as it is. *)
Definition KeepsReport {A} (m : M A) : Prop :=
  forall w, report (snd (m w)) = report w.

(** The result of the computation and the responses it leaves depend on
    the responses of the backend only: not on the clock, on the requests
    and sleeps recorded, or on an earlier report. *)
Definition Stable {A} (m : M A) : Prop :=
  forall w1 w2,
    pending w1 = pending w2 ->
    fst (m w1) = fst (m w2) /\ pending (snd (m w1)) = pending (snd (m w2)).

(** ** An instance of the builtins for ASCII text *)

Module Ascii7.

Definition lower_char (c : ascii) : ascii :=
  let n := nat_of_ascii c in
  if (Nat.leb 65 n && Nat.leb n 90)%bool then ascii_of_nat (n + 32) else c.

Fixpoint lower (s : string) : string :=
  match s with
  | EmptyString => EmptyString
  | String c s' => String (lower_char c) (lower s')
  end.

Definition hex_digit (n : nat) : ascii :=
  if Nat.ltb n 10 then ascii_of_nat (48 + n) else ascii_of_nat (55 + n).

(** The characters [quote] leaves alone: letters, digits and [_.-~/]. *)
Definition unreserved (c : ascii) : bool :=
  let n := nat_of_ascii c in
  ((Nat.leb 65 n && Nat.leb n 90) || (Nat.leb 97 n && Nat.leb n 122)
   || (Nat.leb 48 n && Nat.leb n 57)
   || Nat.eqb n 95 || Nat.eqb n 46 || Nat.eqb n 45 || Nat.eqb n 126
   || Nat.eqb n 47)%bool.

Fixpoint quote (s : string) : string :=
  match s with
  | EmptyString => EmptyString
  | String c s' =>
      if unreserved c then String c (quote s')
      else
        let n := nat_of_ascii c in
        String "%" (String (hex_digit (Nat.div n 16))
                      (String (hex_digit (Nat.modulo n 16)) (quote s')))
  end.

Definition join (sep : string) (l : list string) : string :=
  match l with
  | [] => EmptyString
  | x :: rest => fold_left (fun acc y => acc ++ sep ++ y) rest x
  end.

(** [repr(v)], for strings that need no escape. *)
Fixpoint repr (v : json) : string :=
  match v with
  | JNull => "None"
  | JBool true => "True"
  | JBool false => "False"
  | JInt n => PyStr.of_int n
  | JStr s => "'" ++ s ++ "'"
  | JList xs => "[" ++ join ", " (map repr xs) ++ "]"
  | JDict kv =>
      "{" ++ join ", " (map (fun p => "'" ++ fst p ++ "': " ++ repr (snd p)) kv) ++ "}"
  end.

End Ascii7.

(** The export succeeds in this instance. *)
#[export] Instance ascii_builtins : Builtins := {
  str_lower := Ascii7.lower;
  url_quote := Ascii7.quote;
  repr_container := Ascii7.repr;
  excel_error := fun _ => None;
  excel_leaves := fun _ file => file
}.

(** ** Sample data *)

Module Sample.

Definition dict (kv : list (string * json)) : json := JDict kv.

Definition page (link : option string) (data : json) : Response :=
  {| status_code := 200;
     headers := match link with Some l => [("Link", l)] | None => [] end;
     text := EmptyString;
     body := Some data |}.

Definition too_many (reset : option string) : Response :=
  {| status_code := 429;
     headers := match reset with
                | Some r => [("X-Rate-Limit-Reset", r)]
                | None => []
                end;
     text := "rate limited";
     body := None |}.

Definition failure (code : Z) (msg : string) : Response :=
  {| status_code := code; headers := []; text := msg; body := None |}.

Definition next_to (url : string) : string := "<" ++ url ++ ">; " ++ rel_next.

Definition world (now : Z) (script : list Response) : World :=
  {| clock := now; pending := script; requested := []; slept := []; report := None |}.

Definition by_label (label : string) : Config :=
  {| OKTA_DOMAIN := "https://x.okta.com"; BOB_APP_ID := None; BOB_APP_LABEL := Some label |}.

Definition by_id (id : string) : Config :=
  {| OKTA_DOMAIN := "https://x.okta.com"; BOB_APP_ID := Some id; BOB_APP_LABEL := None |}.

Definition app (label id : string) : json :=
  dict [("id", JStr id); ("label", JStr label)].

Definition user (id provider_type : string) : json :=
  dict [("id", JStr id);
        ("profile", dict [("firstName", JStr "Ada"); ("email", JStr "ada@x.org")]);
        ("credentials", dict [("provider", dict [("type", JStr provider_type);
                                                 ("name", JStr provider_type)])])].

Definition member (href : string) : json :=
  dict [("id", JStr "0ua1"); ("_links", dict [("user", dict [("href", JStr href)])])].

(** A user record without id. *)
Definition anonymous : json :=
  dict [("profile", dict [("firstName", JStr "Eve")])].

Definition cfg : Config := by_id "0oa1".

(** Two pages of users, the second after a rate-limit response, then one
    page of members of the application. *)
Definition script : list Response :=
  [ page (Some (next_to "https://x.okta.com/api/v1/users?after=1"))
      (JList [user "00u1" "OKTA"]);
    too_many (Some "105");
    page None (JList [user "00u2" "IMPORT"; user "00u3" "FEDERATION"]);
    page None (JList [member "https://x.okta.com/api/v1/users/00u2"]) ].

(** The second page of users is an error. *)
Definition failing_script : list Response :=
  [ page (Some (next_to "https://x.okta.com/api/v1/users?after=1"))
      (JList [user "00u1" "OKTA"]);
    failure 500 "boom";
    page None (JList [member "https://x.okta.com/api/v1/users/00u2"]) ].

(** An earlier run left a report and a trace. *)
Definition later_world (now : Z) (script : list Response) : World :=
  {| clock := now; pending := script;
     requested := ["https://x.okta.com/api/v1/users?limit=200"];
     slept := [2]; report := Some [] |}.

End Sample.

(** ** The settings of a run *)

(** [os.getenv] once [load_dotenv()] has run. *)
Definition Env : Type := string -> option string.

(** [s.rstrip(c)] for a one-character [c]. *)
Fixpoint rstrip (c : ascii) (s : string) : string :=
  match s with
  | EmptyString => EmptyString
  | String d s' =>
      match rstrip c s' with
      | EmptyString => if Ascii.eqb d c then EmptyString else String d EmptyString
      | r => String d r
      end
  end.

(** [s.endswith(c)] for a one-character [c]. *)
Fixpoint endswith_char (c : ascii) (s : string) : bool :=
  match s with
  | EmptyString => false
  | String d EmptyString => Ascii.eqb d c
  | String _ s' => endswith_char c s'
  end.

(** The header value is a non-empty string of decimal digits. *)
Definition decimal_string (r : string) : bool :=
  negb (String.eqb r EmptyString)
  && PyStr.all_chars (fun c => match PyStr.decimal_char c with
                               | Some _ => true
                               | None => false
                               end) r.

Section Settings.

(** [str.strip()], taken from Python. *)
Variable str_strip : string -> string.
Context `{Builtins}.

Definition missing_settings_error : exn :=
  ValueError "Missing OKTA_DOMAIN or OKTA_API_TOKEN in .env file".

(** [os.getenv("OKTA_DOMAIN", "").strip().rstrip("/")]. *)
Definition stripped_domain (env : Env) : string :=
  rstrip "/" (str_strip (match env "OKTA_DOMAIN" with
                         | Some d => d
                         | None => EmptyString
                         end)).

(** The domain with its scheme. *)
Definition with_scheme (domain : string) : string :=
  if negb (PyStr.startswith "http://" domain) && negb (PyStr.startswith "https://" domain)
  then "https://" ++ domain
  else domain.

(** The module-level setup: the settings are read, checked and
    normalised. *)
Definition load_settings (env : Env) : result Config :=
  let domain := stripped_domain env in
  let token := env "OKTA_API_TOKEN" in
  if negb (truthy_header (Some domain)) || negb (truthy_header token)
  then Raise missing_settings_error
  else Ok {| OKTA_DOMAIN := with_scheme domain;
             BOB_APP_ID := env "BOB_APP_ID";
             BOB_APP_LABEL := env "BOB_APP_LABEL" |}.

(** The whole script: the setup, then the run. *)
Definition script (env : Env) : M (list Row) :=
  (cfg <- lift (load_settings env) ;; main cfg)%io.

End Settings.

(** When the computation returns, it has taken the responses it used from
    the front of the pending ones, has made one request for each of them,
    and has not put the clock back. *)
Definition Orderly {A} (m : M A) : Prop :=
  forall w a w',
    m w = (Ok a, w') ->
    exists consumed,
      pending w = (consumed ++ pending w')%list /\
      List.length (requested w') = (List.length (requested w) + List.length consumed)%nat /\
      clock w <= clock w'.

(** ** Link headers, as a server writes them *)

(** [c in s] for a character. *)
Definition has_char (c : ascii) (s : string) : bool :=
  existsb (Ascii.eqb c) (list_ascii_of_string s).

(** [",".join(parts)]. *)
Fixpoint comma_join (parts : list string) : string :=
  match parts with
  | [] => EmptyString
  | [p] => p
  | p :: rest => p ++ "," ++ comma_join rest
  end.

(** A segment of a link header: the target between angle brackets, with
    what precedes (blanks) and what follows (the parameters). *)
Definition link_segment (pre target post : string) : string :=
  pre ++ "<" ++ target ++ ">" ++ post.

(** ** Pages of members *)

(** A response that, if it is a page, has a JSON array for body. *)
Definition list_body (resp : Response) : bool :=
  negb (status_code resp =? 200)
  || match body resp with
     | Some (JList _) => true
     | _ => false
     end.

(** No two elements of the set are equal. *)
Fixpoint distinct (s : Py.pyset) : bool :=
  match s with
  | [] => true
  | x :: rest => negb (Py.set_mem x rest) && distinct rest
  end.

Section MemberDefs.
Context `{Builtins}.

(** The first request of [collect_bob_user_ids]. *)
Definition members_url (cfg : Config) (bob_app_id : json) : string :=
  OKTA_DOMAIN cfg ++ "/api/v1/apps/" ++ fmt bob_app_id ++ "/users?limit=200".

End MemberDefs.

(** ** The cells of a row *)

(** The profile of a user record: its ["profile"] object, the empty
    object when the record has none or a falsy one. *)
Definition profile_of (kv : list (string * json)) : list (string * json) :=
  match Py.lookup "profile" kv with
  | Some (JDict p) => p
  | _ => []
  end.

(** [profile.get(key, "")]. *)
Definition profile_cell (profile : list (string * json)) (key : string) : json :=
  match Py.lookup key profile with
  | Some v => v
  | None => JStr EmptyString
  end.

(** ** More sample data *)

(** An environment with a domain to normalise and the application id. *)
Definition sample_env : Env :=
  fun k =>
    if String.eqb k "OKTA_DOMAIN" then Some "acme.okta.com//"
    else if String.eqb k "OKTA_API_TOKEN" then Some "00token"
    else if String.eqb k "BOB_APP_ID" then Some "0oa1"
    else None.

(** An environment without application id and label. *)
Definition sample_env_without_app : Env :=
  fun k =>
    if String.eqb k "OKTA_DOMAIN" then Some "acme.okta.com"
    else if String.eqb k "OKTA_API_TOKEN" then Some "00token"
    else None.

(** An environment without token. *)
Definition sample_env_without_token : Env :=
  fun k => if String.eqb k "OKTA_DOMAIN" then Some "acme.okta.com" else None.

(** A link header as Okta writes it: the page itself, then the next. *)
Definition okta_link_header : string :=
  comma_join [ link_segment EmptyString "https://x.okta.com/api/v1/users?limit=200"
                 ("; rel=" ++ double_quote ++ "self" ++ double_quote);
               link_segment " " "https://x.okta.com/api/v1/users?after=00u1&limit=200"
                 ("; " ++ rel_next) ].

(** Two pages of members, the second after a rate-limit response; one
    user is a member on both. *)
Definition members_script : list Response :=
  [ Sample.page (Some (Sample.next_to "https://x.okta.com/api/v1/apps/0oa1/users?after=1"))
      (JList [Sample.member "https://x.okta.com/api/v1/users/00u2"]);
    Sample.too_many None;
    Sample.page None
      (JList [Sample.member "https://x.okta.com/api/v1/users/00u5";
              Sample.member "https://x.okta.com/api/v1/users/00u2"]) ].

(** A page of users, then two pages of members, of which the second,
    after a rate-limit response, is an error. *)
Definition failing_members_script : list Response :=
  [ Sample.page None (JList [Sample.user "00u1" "OKTA"]);
    Sample.page (Some (Sample.next_to "https://x.okta.com/api/v1/apps/0oa1/users?after=1"))
      (JList [Sample.member "https://x.okta.com/api/v1/users/00u1"]);
    Sample.too_many None;
    Sample.failure 403 "forbidden";
    Sample.page None (JList []) ].

(** A member whose link is given in a list and whose embedded user is
    not an object. *)
Definition listed_link_member : json :=
  JDict [ ("id", JStr "0ua9");
          ("_links",
           JDict [ ("user",
                    JList [ JDict [ ("href",
                              JStr ("https://x.okta.com/api/v1" ++ "/users/" ++ "00u7?expand=x")) ] ]) ]);
          ("_embedded", JDict [ ("user", JStr "broken") ]) ].

(** ** Tactics *)

(** Inversion of a successful sequence of binds. *)
Ltac rinv H :=
  repeat match type of H with
  | rbind ?r _ = Ok _ =>
      let E := fresh "E" in
      destruct r eqn:E; cbn [rbind] in H; [ | discriminate H ]
  end.

(** * Properties *)

(** ** Python strings on examples *)

Example split_does_not_overlap :
  PyStr.split "/users/" "a/users/users/b" = ["a"; "users/b"]
  /\ PyStr.split "/users/" "/users/users/" = [EmptyString; "users/"]
  /\ PyStr.split "," "a,b,,c" = ["a"; "b"; EmptyString; "c"].
Proof. repeat split. Qed.

Example slice_of_link_segment :
  let part := Sample.next_to "https://x.okta.com/api/v1/users?after=2" in
  PyStr.slice part (PyStr.find "<" part + 1) (PyStr.find ">" part)
  = "https://x.okta.com/api/v1/users?after=2".
Proof. reflexivity. Qed.

Example slice_without_brackets :
  PyStr.slice rel_next (PyStr.find "<" rel_next + 1) (PyStr.find ">" rel_next)
  = "rel=" ++ double_quote ++ "next".
Proof. reflexivity. Qed.

Example isdigit_and_int :
  PyStr.isdigit "1730000000" = true /\ PyStr.to_int "1730000000" = Some 1730000000
  /\ PyStr.isdigit "12a" = false /\ PyStr.isdigit EmptyString = false
  /\ PyStr.isdigit superscript_two = true /\ PyStr.to_int superscript_two = None.
Proof. repeat split. Qed.

Example str_of_status : PyStr.of_int 500 = "500" /\ PyStr.of_int 0 = "0".
Proof. split; reflexivity. Qed.

(** ** Rows *)

Lemma set_mem_str (s : string) (S : Py.pyset) :
  Py.set_mem (JStr s) S = true <-> In (JStr s) S.
Proof.
  unfold Py.set_mem. rewrite existsb_exists. split.
  - intros [x [Hin Heq]]. destruct x; cbn in Heq; try discriminate.
    apply String.eqb_eq in Heq. subst. exact Hin.
  - intros Hin. exists (JStr s). split; [exact Hin | cbn; apply String.eqb_refl].
Qed.

Section Rows.
Context `{Builtins}.

Lemma transform_row_classified S user row :
  transform_row S user = Ok row ->
  Py.get user "id" = Ok (user_id row) /\
  (origin row = "Imported (bob)" <-> Py.set_mem (user_id row) S = true) /\
  (Py.set_mem (user_id row) S = false -> origin row = "Manual (OKTA)").
Proof.
  unfold transform_row. intros H0. rinv H0.
  unfold Py.set_contains in E4. destruct (Py.hashable a) eqn:Hh; [ | discriminate ].
  injection E4 as <-. injection H0 as <-. cbn.
  split; [ reflexivity | ].
  destruct (Py.set_mem a S); split; try split; intros; try reflexivity; try discriminate.
Qed.

Lemma transform_rows S users rows :
  transform S users = Ok rows ->
  Forall2 (fun user row => transform_row S user = Ok row) users rows.
Proof.
  revert rows. induction users as [ | u us IH]; intros rows Hr; cbn in Hr.
  - injection Hr as <-. constructor.
  - rinv Hr. injection Hr as <-. constructor; auto.
Qed.

End Rows.

(** ** Requests *)

Section Http.
Context `{Builtins}.

Lemma _sleep_for_rate_limit_429 resp w :
  status_code resp = 429 ->
  _sleep_for_rate_limit resp w =
    match sleep_seconds (clock w) resp with
    | Ok s => (Ok true, sleep s w)
    | Raise e => (Raise e, w)
    end.
Proof.
  intros E. unfold _sleep_for_rate_limit. rewrite E. reflexivity.
Qed.

(** What a successful [_get] took from the backend: some 429 responses,
    then the response it returns, which is not a 429. *)
Lemma _get_from_consumes url script :
  forall w resp w1,
    _get_from url script w = (Ok resp, w1) ->
    exists retries,
      script = (retries ++ resp :: pending w1)%list /\
      Forall (fun r => status_code r = 429) retries /\
      status_code resp <> 429.
Proof.
  induction script as [ | r rest IH]; intros w resp w1 Hg; cbn [_get_from] in Hg.
  - discriminate.
  - destruct (status_code r =? 429) eqn:E.
    + apply Z.eqb_eq in E. rewrite (_sleep_for_rate_limit_429 _ _ E) in Hg.
      destruct (sleep_seconds _ r) as [s | e]; [ | discriminate ].
      apply IH in Hg. destruct Hg as [retries [Hs [Hall Hne]]].
      exists (r :: retries). cbn. rewrite <- Hs. repeat split; auto.
    + injection Hg as <- <-. exists []. cbn. apply Z.eqb_neq in E.
      repeat split; auto.
Qed.

Lemma _get_consumes url w resp w1 :
  _get url w = (Ok resp, w1) ->
  exists retries,
    pending w = (retries ++ resp :: pending w1)%list /\
    Forall (fun r => status_code r = 429) retries /\
    status_code resp <> 429.
Proof. apply _get_from_consumes. Qed.

Lemma _get_shortens url w resp w1 :
  _get url w = (Ok resp, w1) ->
  (List.length (pending w1) < List.length (pending w))%nat.
Proof.
  intros Hg. apply _get_consumes in Hg. destruct Hg as [retries [E _]].
  rewrite E, length_app. cbn. lia.
Qed.

(** The fuel of [_get_paginated] is never used up: any amount above the
    number of pending responses gives the same result. *)
Lemma _get_paginated_loop_fuel fuel1 :
  forall fuel2 url items w,
    (List.length (pending w) < fuel1)%nat ->
    (List.length (pending w) < fuel2)%nat ->
    _get_paginated_loop fuel1 url items w = _get_paginated_loop fuel2 url items w.
Proof.
  induction fuel1 as [ | f1 IH]; intros fuel2 url items w H1 H2; [ lia | ].
  destruct fuel2 as [ | f2]; [ lia | ].
  cbn [_get_paginated_loop].
  destruct url as [u | ]; [ | reflexivity ].
  destruct (truthy_url (Some u)); [ | reflexivity ].
  destruct (_get u w) as [[resp | e] w1] eqn:Hg; [ | reflexivity ].
  destruct (negb (status_code resp =? 200)); [ reflexivity | ].
  destruct (json_of resp); [ | reflexivity ].
  apply _get_shortens in Hg. apply IH; lia.
Qed.

(** The same for [collect_bob_user_ids]. *)
Lemma collect_loop_fuel fuel1 :
  forall fuel2 url s w,
    (List.length (pending w) < fuel1)%nat ->
    (List.length (pending w) < fuel2)%nat ->
    collect_loop fuel1 url s w = collect_loop fuel2 url s w.
Proof.
  induction fuel1 as [ | f1 IH]; intros fuel2 url s w H1 H2; [ lia | ].
  destruct fuel2 as [ | f2]; [ lia | ].
  cbn [collect_loop].
  destruct url as [u | ]; [ | reflexivity ].
  destruct (truthy_url (Some u)); [ | reflexivity ].
  destruct (_get u w) as [[resp | e] w1] eqn:Hg; [ | reflexivity ].
  destruct (negb (status_code resp =? 200)); [ reflexivity | ].
  destruct (add_page s resp); [ | reflexivity ].
  apply _get_shortens in Hg. apply IH; lia.
Qed.

End Http.

(** ** Membership items and the cross-reference set *)

Lemma add_items_app s a :
  forall b, add_items s (a ++ b) = rbind (add_items s a) (fun s1 => add_items s1 b).
Proof.
  revert s. induction a as [ | x a IH]; intros s b; cbn [app add_items rbind]; [ reflexivity | ].
  destruct (add_item s x) as [s1 | e]; cbn [rbind]; [ apply IH | reflexivity ].
Qed.

Section Items.
Context `{Builtins}.

Lemma link_user_id_str user_link v :
  link_user_id user_link = Ok v -> Py.truthy v = true ->
  exists link, user_link = JStr link /\ PyStr.contains "/users/" link = true /\
               v = JStr (after_users link).
Proof.
  unfold link_user_id. intros Hl Ht.
  destruct (Py.truthy user_link) eqn:Eu.
  - rinv Hl. destruct a.
    + destruct user_link; cbn in E, Hl; try discriminate.
      injection E as E. injection Hl as <-. exists s. auto.
    + injection Hl as <-. discriminate.
  - injection Hl as <-. discriminate.
Qed.

Lemma startswith_00u_nonempty s :
  PyStr.startswith "00u" s = true -> nonempty_str (JStr s) = true.
Proof. destruct s; [ discriminate | reflexivity ]. Qed.

Lemma set_add_elements x S S' :
  Py.set_add x S = Ok S' ->
  Py.hashable x = true /\ forall y, In y S' -> In y S \/ y = x.
Proof.
  unfold Py.set_add. destruct (Py.hashable x); [ | discriminate ].
  intros E. injection E as <-. split; [ reflexivity | ].
  intros y. destruct (Py.set_mem x S); [ auto | ].
  rewrite in_app_iff. cbn. intuition.
Qed.

(** What one item can add to the set. *)
Lemma add_item_elements S item S' :
  add_item S item = Ok S' ->
  forall y, In y S' ->
    In y S \/ (item_user_id item = Ok y /\ Py.truthy y = true /\ Py.hashable y = true).
Proof.
  unfold add_item. intros Ha. rinv Ha.
  destruct (Py.truthy a) eqn:Ta.
  - apply set_add_elements in Ha. destruct Ha as [Hh Hel].
    intros y Hy. destruct (Hel y Hy) as [ | ->]; auto.
  - injection Ha as <-. auto.
Qed.

Lemma add_items_invariant (P : json -> Prop) (Q : json -> Prop) items :
  (forall item y, Q item -> item_user_id item = Ok y -> Py.truthy y = true ->
                  Py.hashable y = true -> P y) ->
  forall S S', Forall Q items -> Forall P S -> add_items S items = Ok S' -> Forall P S'.
Proof.
  intros Hstep. induction items as [ | item rest IH]; intros S S' HQ HP Ha; cbn in Ha.
  - injection Ha as <-. exact HP.
  - rinv Ha. inversion HQ as [ | ? ? Hq Hqs]; subst.
    apply (IH a S' Hqs); [ | exact Ha ].
    apply Forall_forall. intros y Hy.
    destruct (add_item_elements _ _ _ E y Hy) as [Hin | [Hi [Ht Hh]]].
    + rewrite Forall_forall in HP. auto.
    + eapply Hstep; eauto.
Qed.

Lemma collect_loop_invariant (P : json -> Prop) (Q : json -> Prop) (R : Response -> Prop) :
  (forall item y, Q item -> item_user_id item = Ok y -> Py.truthy y = true ->
                  Py.hashable y = true -> P y) ->
  (forall resp data items, R resp -> body resp = Some data -> Py.iter data = Ok items ->
                           Forall Q items) ->
  forall fuel url S w S' w',
    Forall R (pending w) -> Forall P S ->
    collect_loop fuel url S w = (Ok S', w') -> Forall P S'.
Proof.
  intros Hstep Hpage. induction fuel as [ | fuel IH]; intros url S w S' w' HR HP Hc;
    cbn [collect_loop] in Hc; destruct url as [u | ];
    try (injection Hc as <- <-; exact HP);
    destruct (truthy_url (Some u)); try (injection Hc as <- <-; exact HP);
    try discriminate.
  destruct (_get u w) as [[resp | e] w1] eqn:Hg; [ | discriminate ].
  destruct (negb (status_code resp =? 200)); [ discriminate | ].
  destruct (add_page S resp) as [S1 | e] eqn:Hp; [ | discriminate ].
  apply _get_consumes in Hg. destruct Hg as [retries [Epend _]].
  rewrite Epend in HR. apply Forall_app in HR. destruct HR as [_ HR].
  inversion HR; subst.
  eapply IH; [ eassumption | | exact Hc ].
  unfold add_page in Hp. rinv Hp. unfold json_of in E.
  destruct (body resp) as [data | ] eqn:Eb; [ | discriminate ]. injection E as <-.
  apply (add_items_invariant P Q a0 Hstep S S1);
    [ eapply Hpage; eassumption | exact HP | exact Hp ].
Qed.

End Items.

(** The three strategies in the order the script tries them. *)
Lemma item_user_id_strategies item :
  item_user_id item =
  (lv <- link_strategy item ;;
   if Py.truthy lv then Ok lv
   else ev <- embedded_user_id item ;;
        if Py.truthy ev then Ok ev
        else own <- Py.get item "id" ;;
             Ok (if looks_like_user_id own then own else ev))%res.
Proof.
  unfold item_user_id, link_strategy.
  destruct (user_link_of item) as [ul | e]; cbn [rbind]; [ | reflexivity ].
  destruct (link_user_id ul) as [lv | e]; cbn [rbind]; [ | reflexivity ].
  destruct (Py.truthy lv) eqn:Tl; cbn [negb rbind].
  - rewrite Tl. reflexivity.
  - destruct (embedded_user_id item) as [ev | e]; cbn [rbind]; [ | reflexivity ].
    destruct (Py.truthy ev) eqn:Te; cbn [negb]; [ reflexivity | ].
    unfold self_user_id. destruct (Py.get item "id") as [own | e]; cbn [rbind]; [ | reflexivity ].
    destruct own; cbn [looks_like_user_id]; try reflexivity.
    destruct (PyStr.startswith "00u" s); reflexivity.
Qed.

Lemma link_strategy_link item link :
  user_link_of item = Ok (JStr link) ->
  PyStr.contains "/users/" link = true ->
  link_strategy item = Ok (JStr (after_users link)).
Proof.
  intros Hl Hc. unfold link_strategy. rewrite Hl. cbn [rbind].
  unfold link_user_id. destruct (Py.truthy (JStr link)) eqn:Tl.
  - cbn. rewrite Hc. reflexivity.
  - cbn in Tl. destruct link; [ discriminate Hc | discriminate Tl ].
Qed.

Lemma nonempty_str_truthy s :
  s <> EmptyString -> Py.truthy (JStr s) = true.
Proof.
  intros Hs. cbn. destruct (String.eqb s EmptyString) eqn:E; [ | reflexivity ].
  apply String.eqb_eq in E. contradiction.
Qed.

(** C3, amended.  The identifier of a membership item is found by three
    strategies tried in a fixed order: the link, the embedded user, the
    item's own id.  When the link contains [/users/] and the text after
    it is not empty, the identifier is that text, whatever the embedded
    user and the item's id are; a strategy is consulted only when those
    before it gave nothing; and when all three give nothing the item adds
    nothing to the set. *)
Theorem item_resolution_priority :
  (forall item link,
      user_link_of item = Ok (JStr link) ->
      PyStr.contains "/users/" link = true ->
      after_users link <> EmptyString ->
      item_user_id item = Ok (JStr (after_users link))) /\
  (forall item lv,
      link_strategy item = Ok lv -> Py.truthy lv = true ->
      item_user_id item = Ok lv) /\
  (forall item lv ev,
      link_strategy item = Ok lv -> Py.truthy lv = false ->
      embedded_user_id item = Ok ev -> Py.truthy ev = true ->
      item_user_id item = Ok ev) /\
  (forall item lv ev own,
      link_strategy item = Ok lv -> Py.truthy lv = false ->
      embedded_user_id item = Ok ev -> Py.truthy ev = false ->
      Py.get item "id" = Ok own ->
      item_user_id item = Ok (if looks_like_user_id own then own else ev)) /\
  (forall item v user_ids,
      item_user_id item = Ok v -> Py.truthy v = false ->
      add_item user_ids item = Ok user_ids).
Proof.
  repeat split.
  - intros item link Hl Hc Hne. rewrite item_user_id_strategies.
    rewrite (link_strategy_link _ _ Hl Hc). cbn [rbind].
    rewrite (nonempty_str_truthy _ Hne). reflexivity.
  - intros item lv Hl Ht. rewrite item_user_id_strategies, Hl. cbn [rbind].
    rewrite Ht. reflexivity.
  - intros item lv ev Hl Ht He Hte. rewrite item_user_id_strategies, Hl. cbn [rbind].
    rewrite Ht, He. cbn [rbind]. rewrite Hte. reflexivity.
  - intros item lv ev own Hl Ht He Hte Ho. rewrite item_user_id_strategies, Hl. cbn [rbind].
    rewrite Ht, He. cbn [rbind]. rewrite Hte, Ho. reflexivity.
  - intros item v S Hi Ht. unfold add_item. rewrite Hi. cbn [rbind]. rewrite Ht. reflexivity.
Qed.

(** C3 as stated fails: for a link that ends with [/users/] the text
    after it is empty, and the identifier is the embedded one. *)
Lemma link_rule_fails_on_empty_segment :
  ~ (forall item link,
        user_link_of item = Ok (JStr link) ->
        PyStr.contains "/users/" link = true ->
        item_user_id item = Ok (JStr (after_users link))).
Proof.
  intros Hclaim.
  specialize (Hclaim empty_segment_item "https://x.okta.com/api/v1/users/"
                eq_refl eq_refl).
  vm_compute in Hclaim. discriminate Hclaim.
Qed.

(** The strategies on sample items: a link, a link that goes on after
    the id, an empty segment with an embedded user, an item with its own
    id only, and an item that gives nothing. *)
Lemma item_resolution_priority_witness :
  item_user_id (Sample.member "https://x.okta.com/api/v1/users/00u2") = Ok (JStr "00u2")
  /\ item_user_id (Sample.member "https://x.okta.com/api/v1/users/00u2/x") = Ok (JStr "00u2/x")
  /\ item_user_id empty_segment_item = Ok (JStr "00uEMB")
  /\ item_user_id (JDict [("id", JStr "00uSELF")]) = Ok (JStr "00uSELF")
  /\ add_item [JStr "00u1"] (JDict [("id", JStr "0ua1")]) = Ok [JStr "00u1"].
Proof.
  destruct item_resolution_priority as (Hlink & Hfirst & Hsecond & Hthird & Hnone).
  split; [ | split; [ | split; [ | split ] ] ].
  - apply (Hlink _ "https://x.okta.com/api/v1/users/00u2");
      [ reflexivity | reflexivity | discriminate ].
  - apply (Hfirst _ (JStr "00u2/x")); reflexivity.
  - apply (Hsecond _ (JStr EmptyString) (JStr "00uEMB")); reflexivity.
  - apply (Hthird _ JNull JNull (JStr "00uSELF")); reflexivity.
  - apply (Hnone _ JNull); reflexivity.
Defined.

Lemma after_link_nonempty v :
  Py.truthy v = true -> Py.is_str v = true -> nonempty_str v = true.
Proof. destruct v; cbn; congruence. Qed.

(** An identifier is a non-empty string unless it is the id of an
    embedded user the script consulted. *)
Lemma item_user_id_source item y :
  item_user_id item = Ok y -> Py.truthy y = true ->
  nonempty_str y = true \/
  (consults_embedded item = true /\ embedded_user_id item = Ok y).
Proof.
  rewrite item_user_id_strategies. unfold consults_embedded.
  destruct (link_strategy item) as [lv | e] eqn:El; cbn [rbind]; [ | discriminate ].
  destruct (Py.truthy lv) eqn:Tl.
  - intros E _. injection E as <-. left.
    unfold link_strategy in El.
    destruct (user_link_of item) as [ul | e]; cbn [rbind] in El; [ | discriminate El ].
    destruct (link_user_id_str _ _ El Tl) as [link [_ [_ ->]]].
    apply after_link_nonempty; [ exact Tl | reflexivity ].
  - destruct (embedded_user_id item) as [ev | e]; cbn [rbind]; [ | discriminate ].
    destruct (Py.truthy ev) eqn:Te.
    + intros E _. injection E as <-. right. split; reflexivity.
    + destruct (Py.get item "id") as [own | e]; cbn [rbind]; [ | discriminate ].
      destruct (looks_like_user_id own) eqn:Lo.
      * intros E _. injection E as <-. left.
        destruct own; try discriminate Lo. apply startswith_00u_nonempty. exact Lo.
      * intros E Ty. injection E as <-. congruence.
Qed.

Lemma add_items_sources items :
  forall S S',
    add_items S items = Ok S' ->
    forall y, In y S' ->
      In y S \/
      exists item,
        In item items /\ item_user_id item = Ok y /\
        Py.truthy y = true /\ Py.hashable y = true.
Proof.
  induction items as [ | item rest IH]; intros S S' Ha y Hy; cbn [add_items] in Ha.
  - injection Ha as <-. left. exact Hy.
  - destruct (add_item S item) as [S1 | e] eqn:E1; cbn [rbind] in Ha; [ | discriminate ].
    destruct (IH _ _ Ha y Hy) as [Hin | (it & Hin & Hit)].
    + destruct (add_item_elements _ _ _ E1 y Hin) as [Hs | Hnew]; [ left; exact Hs | ].
      right. exists item. cbn [In]. auto.
    + right. exists it. cbn [In]. auto.
Qed.

Lemma members_of_retries retries :
  Forall (fun r => status_code r = 429) retries -> flat_map members_of retries = [].
Proof.
  induction 1 as [ | r retries Hr _ IH]; cbn [flat_map]; [ reflexivity | ].
  rewrite IH. unfold members_of. rewrite Hr. reflexivity.
Qed.

Lemma add_page_members S resp :
  status_code resp = 200 ->
  forall S', add_page S resp = Ok S' -> add_items S (members_of resp) = Ok S'.
Proof.
  intros E200 S' Hp. unfold add_page, json_of in Hp. unfold members_of. rewrite E200.
  cbn [Z.eqb Pos.eqb].
  destruct (body resp) as [data | ]; cbn [rbind] in Hp; [ | discriminate ].
  destruct (Py.iter data) as [items | e]; cbn [rbind] in Hp; [ exact Hp | discriminate ].
Qed.

Section CrossReference.
Context `{Builtins}.

Lemma collected_sound cfg id w S w' :
  collect_bob_user_ids cfg id w = (Ok S, w') ->
  Forall (fun x => Py.truthy x = true /\ Py.hashable x = true) S.
Proof.
  unfold collect_bob_user_ids. intros Hc.
  eapply (collect_loop_invariant _ (fun _ => True) (fun _ => True)); try exact Hc.
  - intros item y _ Hi Ht Hh. auto.
  - intros. apply Forall_forall. auto.
  - apply Forall_forall. auto.
  - constructor.
Qed.

(** The set a traversal returns is the set after the items of the pages
    it took from the backend. *)
Lemma collect_loop_consumes fuel :
  forall url S w S' w',
    collect_loop fuel url S w = (Ok S', w') ->
    exists consumed,
      pending w = (consumed ++ pending w')%list /\
      add_items S (flat_map members_of consumed) = Ok S'.
Proof.
  induction fuel as [ | fuel IH]; intros url S w S' w' Hc;
    cbn [collect_loop] in Hc; destruct url as [u | ];
    try (injection Hc as <- <-; exists []; split; reflexivity);
    destruct (truthy_url (Some u));
    try (injection Hc as <- <-; exists []; split; reflexivity);
    try discriminate.
  destruct (_get u w) as [[resp | e] w1] eqn:Hg; [ | discriminate ].
  destruct (status_code resp =? 200) eqn:E200; cbn [negb] in Hc; [ | discriminate ].
  destruct (add_page S resp) as [S1 | e] eqn:Hp; [ | discriminate ].
  apply Z.eqb_eq in E200.
  destruct (IH _ _ _ _ _ Hc) as (consumed & Hpend & Hadd).
  apply _get_consumes in Hg. destruct Hg as (retries & Epend & Hall & _).
  exists (retries ++ resp :: consumed)%list. split.
  - rewrite Epend, Hpend, <- app_assoc. reflexivity.
  - rewrite flat_map_app, (members_of_retries _ Hall). cbn [app flat_map].
    rewrite add_items_app, (add_page_members _ _ E200 _ Hp). exact Hadd.
Qed.

(** C10, amended.  Every element of the cross-reference set is a truthy
    hashable value, and it is a non-empty string unless it is the id of
    an embedded user that the script consulted (the link of the item gave
    nothing) in a page it took from the backend; so the set holds
    non-empty strings only, provided the embedded users the script
    consults have ids that are strings (or falsy): the embedded-object
    fallback takes the id as it is.  An extraction that gives the empty
    string adds nothing, and when the link and the embedded user give
    nothing the item's own id is added exactly when it is a string that
    starts with [00u]. *)
Theorem cross_reference_elements :
  (forall cfg id w S w',
      collect_bob_user_ids cfg id w = (Ok S, w') ->
      exists consumed,
        pending w = (consumed ++ pending w')%list /\
        Forall (fun x => Py.truthy x = true /\ Py.hashable x = true) S /\
        Forall (fun x =>
                  nonempty_str x = true \/
                  exists item,
                    In item (flat_map members_of consumed) /\
                    consults_embedded item = true /\
                    embedded_user_id item = Ok x) S /\
        (forallb page_typed consumed = true ->
         Forall (fun x => nonempty_str x = true) S)) /\
  (forall item user_ids,
      item_user_id item = Ok (JStr EmptyString) ->
      add_item user_ids item = Ok user_ids) /\
  (forall item lv ev own user_ids,
      link_strategy item = Ok lv -> Py.truthy lv = false ->
      embedded_user_id item = Ok ev -> Py.truthy ev = false ->
      Py.get item "id" = Ok own ->
      add_item user_ids item =
        if looks_like_user_id own then Py.set_add own user_ids else Ok user_ids).
Proof.
  split; [ | split ].
  - intros cfg id w S w' Hc.
    pose proof (collected_sound _ _ _ _ _ Hc) as Hsound.
    unfold collect_bob_user_ids in Hc.
    destruct (collect_loop_consumes _ _ _ _ _ _ Hc) as (consumed & Hpend & Hadd).
    exists consumed. split; [ exact Hpend | ]. split; [ exact Hsound | ].
    assert (Hsrc : Forall (fun x =>
                     nonempty_str x = true \/
                     exists item,
                       In item (flat_map members_of consumed) /\
                       consults_embedded item = true /\
                       embedded_user_id item = Ok x) S).
    { apply Forall_forall. intros y Hy.
      destruct (add_items_sources _ _ _ Hadd y Hy) as [[] | (item & Hin & Hi & Ht & _)].
      destruct (item_user_id_source item y Hi Ht) as [Hs | [Hce He]]; [ left; exact Hs | ].
      right. exists item. auto. }
    split; [ exact Hsrc | ].
    intros Hty. rewrite Forall_forall in Hsrc, Hsound. apply Forall_forall. intros y Hy.
    destruct (Hsrc y Hy) as [Hs | (item & Hin & Hce & He)]; [ exact Hs | ].
    apply in_flat_map in Hin. destruct Hin as (resp & Hresp & Hitem).
    rewrite forallb_forall in Hty. specialize (Hty resp Hresp).
    unfold page_typed in Hty. rewrite forallb_forall in Hty. specialize (Hty item Hitem).
    unfold embedded_id_typed in Hty. rewrite Hce, He in Hty. cbn [negb orb] in Hty.
    destruct (Hsound y Hy) as [Ht _]. rewrite Ht in Hty. cbn [negb orb] in Hty.
    apply after_link_nonempty; assumption.
  - intros item S Hi. unfold add_item. rewrite Hi. reflexivity.
  - intros item lv ev own S Hl Tl He Te Ho. unfold add_item.
    rewrite item_user_id_strategies, Hl. cbn [rbind]. rewrite Tl, He. cbn [rbind].
    rewrite Te, Ho. cbn [rbind].
    destruct (looks_like_user_id own) eqn:El.
    + destruct own; try discriminate El. cbn in El.
      rewrite (startswith_00u_nonempty _ El : Py.truthy (JStr s) = true). reflexivity.
    + rewrite Te. reflexivity.
Qed.

End CrossReference.

(** The set of a run that takes one page and leaves another: the page
    holds an item whose link gives the id, so that its embedded user, with
    a number for id, is not consulted; the response left pending embeds a
    number that would have been taken.  Then items that add nothing,
    their own id, or nothing again. *)
Lemma cross_reference_elements_witness :
  Forall (fun x => nonempty_str x = true) [JStr "00u2"]
  /\ add_item [JStr "00u1"]
       (JDict [("_embedded", JDict [("user", JDict [("id", JStr EmptyString)])])])
     = Ok [JStr "00u1"]
  /\ add_item [JStr "00u1"] (JDict [("id", JStr "00uSELF")]) = Ok [JStr "00u1"; JStr "00uSELF"]
  /\ add_item [JStr "00u1"] (JDict [("id", JStr "0ua1")]) = Ok [JStr "00u1"].
Proof.
  destruct (@cross_reference_elements ascii_builtins) as (Hset & Hempty & Hself).
  split; [ | split; [ | split ] ].
  - destruct (Hset Sample.cfg (JStr "0oa1")
                (Sample.world 0 [Sample.page None (JList [linked_numeric_embedded]);
                                 Sample.page None (JList [numeric_embedded_id])])
                [JStr "00u2"]
                (answered "https://x.okta.com/api/v1/apps/0oa1/users?limit=200"
                   [Sample.page None (JList [numeric_embedded_id])]
                   (Sample.world 0 [Sample.page None (JList [linked_numeric_embedded]);
                                    Sample.page None (JList [numeric_embedded_id])]))
                eq_refl)
      as (consumed & Hpend & _ & _ & Htyped).
    apply Htyped.
    change (([Sample.page None (JList [linked_numeric_embedded])]
             ++ [Sample.page None (JList [numeric_embedded_id])])%list
            = (consumed ++ [Sample.page None (JList [numeric_embedded_id])])%list) in Hpend.
    apply app_inv_tail in Hpend. subst consumed. reflexivity.
  - apply Hempty. reflexivity.
  - apply (Hself _ JNull JNull (JStr "00uSELF")); reflexivity.
  - apply (Hself _ JNull JNull (JStr "0ua1")); reflexivity.
Defined.

(** C10 as stated fails: an embedded user whose id is the number 7 puts
    7 in the set. *)
Lemma cross_reference_holds_a_number :
  let script := [Sample.page None (JList [numeric_embedded_id])] in
  fst (collect_bob_user_ids (Sample.by_id "0oa1") (JStr "0oa1") (Sample.world 0 script))
    = Ok [JInt 7]
  /\ nonempty_str (JInt 7) = false.
Proof. split; reflexivity. Qed.

(** ** Records without id *)

Lemma or_dict v :
  falsy_or_dict v = true -> exists kv, Py.or_ v (JDict []) = JDict kv.
Proof.
  unfold falsy_or_dict, Py.or_. destruct (Py.truthy v); cbn.
  - destruct v; try discriminate. eauto.
  - eauto.
Qed.


Section MissingId.
Context `{Builtins}.

Lemma provider_of_shape kv :
  absent_or (fun c =>
     negb (Py.truthy c)
     || match c with
        | JDict ckv => absent_or falsy_or_dict (Py.lookup "provider" ckv)
        | _ => false
        end) (Py.lookup "credentials" kv) = true ->
  exists pkv, provider_of (JDict kv) = Ok (JDict pkv).
Proof.
  unfold provider_of. cbn [Py.get_default rbind].
  destruct (Py.lookup "credentials" kv) as [c | ]; cbn [absent_or].
  - intros Hc. apply orb_true_iff in Hc.
    assert (Hor : Py.or_ c (JDict []) = JDict []
                  \/ exists ckv, Py.or_ c (JDict []) = JDict ckv /\
                       absent_or falsy_or_dict (Py.lookup "provider" ckv) = true).
    { unfold Py.or_. destruct (Py.truthy c) eqn:Tc.
      - destruct Hc as [Hc | Hc]; [ discriminate Hc | ].
        destruct c; try discriminate Hc. right. eauto.
      - left. reflexivity. }
    destruct Hor as [-> | [ckv [-> Hp]]].
    + cbn. eauto.
    + cbn [Py.get_default rbind].
      destruct (Py.lookup "provider" ckv) as [p | ]; cbn [absent_or] in Hp.
      * destruct (or_dict _ Hp) as [pkv ->]. eauto.
      * cbn. eauto.
  - intros _. cbn. eauto.
Qed.

Lemma transform_row_total S user :
  record_shape user = true ->
  exists row, transform_row S user = Ok row.
Proof.
  destruct user as [ | | | | | kv]; try discriminate. cbn [record_shape].
  rewrite !andb_true_iff. intros [[Hid Hprof] Hcred].
  destruct (provider_of_shape kv Hcred) as [pkv Hp].
  unfold transform_row. cbn [Py.get Py.get_default rbind]. rewrite Hp. cbn [Py.get_default rbind].
  assert (Hh : Py.hashable match Py.lookup "id" kv with Some v => v | None => JNull end = true).
  { destruct (Py.lookup "id" kv); [ exact Hid | reflexivity ]. }
  unfold Py.set_contains. rewrite Hh. cbn [rbind].
  assert (Hd : exists fkv, Py.or_ match Py.lookup "profile" kv with Some v => v | None => JDict [] end
                             (JDict []) = JDict fkv).
  { destruct (Py.lookup "profile" kv); [ apply or_dict; exact Hprof | cbn; eauto ]. }
  destruct Hd as [fkv ->]. cbn [Py.get_default rbind]. eauto.
Qed.

Lemma transform_total S users :
  forallb record_shape users = true ->
  exists rows, transform S users = Ok rows.
Proof.
  induction users as [ | u us IH]; cbn [forallb transform]; [ eauto | ].
  rewrite andb_true_iff. intros [Hu Hus].
  destruct (transform_row_total S u Hu) as [row ->].
  destruct (IH Hus) as [rows ->]. cbn. eauto.
Qed.



End MissingId.


(** ** The report of a run *)

Lemma eq_str_true v s : Py.eq_str v s = true <-> v = JStr s.
Proof.
  destruct v; cbn; split; intros E; try discriminate.
  - apply String.eqb_eq in E. congruence.
  - injection E as ->. apply String.eqb_refl.
Qed.

Lemma eq_str_false v s : Py.eq_str v s = false <-> v <> JStr s.
Proof.
  rewrite <- eq_str_true. destruct (Py.eq_str v s); split; congruence.
Qed.

Section Report.
Context `{Builtins}.

Lemma classified S user row :
  transform_row S user = Ok row -> Classified S user row.
Proof.
  intros Ht. destruct (transform_row_classified S user row Ht) as [Hg [Hi Hm]].
  split; [ exact Hg | split; [ exact Hi | split; [ exact Hm | ] ] ].
  intros s Es. rewrite <- set_mem_str, <- Es. exact Hi.
Qed.

(** The provider descriptor is the object at [credentials.provider], and
    the empty object when there is none. *)
Lemma provider_of_nested kv ckv pkv :
  Py.lookup "credentials" kv = Some (JDict ckv) ->
  Py.lookup "provider" ckv = Some (JDict pkv) ->
  provider_of (JDict kv) = Ok (JDict pkv).
Proof.
  intros Hc Hp. unfold provider_of. cbn [Py.get_default rbind]. rewrite Hc.
  assert (Tc : Py.truthy (JDict ckv) = true) by (destruct ckv; [ discriminate Hp | reflexivity ]).
  assert (Hor : Py.or_ (JDict ckv) (JDict []) = JDict ckv)
    by (unfold Py.or_; rewrite Tc; reflexivity).
  rewrite Hor. cbn [Py.get_default rbind]. rewrite Hp.
  unfold Py.or_. destruct pkv; reflexivity.
Qed.

Lemma provider_of_absent kv :
  Py.lookup "credentials" kv = None ->
  provider_of (JDict kv) = Ok (JDict []).
Proof.
  intros Hc. unfold provider_of. cbn [Py.get_default rbind]. rewrite Hc. reflexivity.
Qed.

(** On a record that gets a row, [provider_of] gives the object at
    ["credentials"], ["provider"]. *)
Lemma provider_of_descriptor kv pkv :
  provider_of (JDict kv) = Ok (JDict pkv) -> pkv = provider_descriptor kv.
Proof.
  unfold provider_of, provider_descriptor. cbn [Py.get_default rbind].
  destruct (Py.lookup "credentials" kv) as [c | ].
  - assert (Hor : Py.or_ c (JDict []) = if Py.truthy c then c else JDict []) by reflexivity.
    rewrite Hor. clear Hor. destruct (Py.truthy c) eqn:Tc.
    + destruct c as [ | | | | | ckv]; cbn [Py.get_default rbind];
        try (intros E; discriminate E).
      destruct (Py.lookup "provider" ckv) as [p | ].
      * unfold Py.or_. destruct (Py.truthy p) eqn:Tp.
        -- intros E. injection E as ->. reflexivity.
        -- intros E. injection E as <-.
           destruct p as [ | | | | | [ | ] ]; try reflexivity; discriminate Tp.
      * cbn. intros E. injection E as <-. reflexivity.
    + cbn [Py.get_default Py.lookup rbind]. cbn. intros E. injection E as <-.
      destruct c as [ | | | | | [ | ] ]; try reflexivity. discriminate Tc.
  - cbn. intros E. injection E as <-. reflexivity.
Qed.

Lemma status_rule S user row :
  transform_row S user = Ok row -> StatusRule S user row.
Proof.
  unfold transform_row. intros H0. rinv H0.
  unfold Py.set_contains in E4. destruct (Py.hashable a) eqn:Hh; [ | discriminate ].
  injection E4 as <-. injection H0 as <-.
  destruct a1 as [ | | | | | provider]; try discriminate E2.
  destruct user as [ | | | | | kv]; try discriminate E.
  pose proof (provider_of_descriptor kv provider E1) as Hp. subst provider.
  cbn in E. injection E as <-.
  exists kv. split; [ reflexivity | ]. split; [ reflexivity | ]. split; [ exact E1 | ].
  split; [ intros s ->; apply set_mem_str | ].
  cbn in E2, E3 |- *. injection E2 as <-. injection E3 as <-.
  fold (record_id kv). fold (provider_name kv).
  unfold provider_status_of.
  destruct (Py.set_mem (record_id kv) S); split; intros Hm; try discriminate Hm; [ reflexivity | ].
  assert (Hfmt : forall ty,
             ty = JStr "FEDERATION" \/ ty = JStr "IMPORT" ->
             (if Py.eq_str ty "OKTA" then JStr "Manual (OKTA)"
              else if Py.eq_str ty "FEDERATION" || Py.eq_str ty "IMPORT"
                   then JStr ("Provisioned (" ++ fmt (provider_name kv) ++ ")")
                   else provider_name kv)
             = JStr ("Provisioned (" ++ fmt (provider_name kv) ++ ")")).
  { intros ty [-> | ->]; reflexivity. }
  destruct (Py.lookup "type" (provider_descriptor kv)) as [ty | ].
  - split; [ | split ].
    + intros Et. injection Et as ->. reflexivity.
    + intros Et.
      assert (Hty : ty = JStr "FEDERATION" \/ ty = JStr "IMPORT")
        by (destruct Et as [Et | Et]; injection Et as ->; auto).
      rewrite (Hfmt ty Hty).
      split; [ reflexivity | ]. split; [ | split; [ | split ] ].
      * intros name ->. reflexivity.
      * intros ->. reflexivity.
      * intros n ->. reflexivity.
      * intros b ->. destruct b; reflexivity.
    + intros N1 N2 N3.
      assert (E1' : Py.eq_str ty "OKTA" = false) by (apply eq_str_false; congruence).
      assert (E2' : Py.eq_str ty "FEDERATION" = false) by (apply eq_str_false; congruence).
      assert (E3' : Py.eq_str ty "IMPORT" = false) by (apply eq_str_false; congruence).
      rewrite E1', E2', E3'. reflexivity.
  - split; [ | split ]; try discriminate.
    + intros [Et | Et]; discriminate Et.
    + intros _ _ _. reflexivity.
Qed.

(** The rows depend on the set through membership only: the order in
    which a Python set keeps its elements does not matter. *)
Lemma transform_row_ext S S' user :
  (forall x, Py.set_mem x S' = Py.set_mem x S) ->
  transform_row S' user = transform_row S user.
Proof.
  intros Hm. unfold transform_row, Py.set_contains.
  destruct (Py.get user "id") as [uid | e]; cbn [rbind]; [ | reflexivity ].
  rewrite (Hm uid). reflexivity.
Qed.

Lemma transform_ext S S' users :
  (forall x, Py.set_mem x S' = Py.set_mem x S) ->
  transform S' users = transform S users.
Proof.
  intros Hm. induction users as [ | u us IH]; cbn [transform]; [ reflexivity | ].
  rewrite (transform_row_ext S S' u Hm), IH. reflexivity.
Qed.

(** A run that succeeds went through the four stages. *)
Lemma main_stages cfg w rows w' :
  main cfg w = (Ok rows, w') ->
  exists users S,
    Fetched cfg w users S /\
    transform S users = Ok rows /\
    report w' = Some rows.
Proof.
  unfold main, bind. intros Hm.
  destruct (resolve_bob_app_id cfg w) as [[id | e] w1] eqn:E1; [ | discriminate ].
  destruct (collect_okta_users cfg w1) as [[users | e] w2] eqn:E2; [ | discriminate ].
  destruct (collect_bob_user_ids cfg id w2) as [[S | e] w3] eqn:E3; [ | discriminate ].
  unfold lift in Hm. destruct (transform S users) as [rs | e] eqn:E4; [ | discriminate ].
  unfold to_excel, ret in Hm. destruct (excel_error rs); [ discriminate | ].
  injection Hm as <- <-. cbn.
  exists users, S. split; [ | split; [ exact E4 | reflexivity ] ].
  exists id, w1, w2, w3. auto.
Qed.

Lemma main_rows cfg w rows w' :
  main cfg w = (Ok rows, w') ->
  exists users S,
    Fetched cfg w users S /\
    Forall2 (fun user row => transform_row S user = Ok row) users rows /\
    report w' = Some rows.
Proof.
  intros Hm. destruct (main_stages _ _ _ _ Hm) as [users [S [Hf [Ht Hr]]]].
  exists users, S. split; [ exact Hf | split; [ apply transform_rows; exact Ht | exact Hr ] ].
Qed.

(** C1.  In a run that produces its report, the rows match the users the
    User Collector fetched one for one, and the Origin of a user's row is
    "Imported (bob)" if and only if the user's id is in the set the
    Cross-Reference Collector returned; otherwise it is "Manual (OKTA)".
    Membership is Python's [in]; for an id that is a string it is the
    presence of that string among the elements. *)
Theorem origin_iff_cross_referenced cfg w rows w' :
  main cfg w = (Ok rows, w') ->
  exists users ids,
    Fetched cfg w users ids /\ Forall2 (Classified ids) users rows.
Proof.
  intros Hm. destruct (main_rows _ _ _ _ Hm) as [users [S [Hf [Hr _]]]].
  exists users, S. split; [ exact Hf | ].
  revert Hr. apply Forall2_impl. intros u r. apply classified.
Qed.

(** C2.  In a run that produces its report, the rows match the users
    fetched one for one, and the Configuration Status of a user's row is
    "Imported (bob)" when the user's id is in the cross-reference set;
    otherwise it is the status the provider reports, the provider being
    the object at ["credentials"], ["provider"] of the record:
    "Manual (OKTA)" for the type "OKTA", "Provisioned (<name>)" for the
    types "FEDERATION" and "IMPORT", and the provider name itself for any
    other type, the name being "UNKNOWN" when the provider has none. *)
Theorem configuration_status_rule cfg w rows w' :
  main cfg w = (Ok rows, w') ->
  exists users ids,
    Fetched cfg w users ids /\ Forall2 (StatusRule ids) users rows.
Proof.
  intros Hm. destruct (main_rows _ _ _ _ Hm) as [users [S [Hf [Hr _]]]].
  exists users, S. split; [ exact Hf | ].
  revert Hr. apply Forall2_impl. intros u r. apply status_rule.
Qed.

End Report.

(** A run over two pages of users and one page of members. *)
Lemma origin_iff_cross_referenced_witness :
  exists rows w',
    main Sample.cfg (Sample.world 100 Sample.script) = (Ok rows, w') /\
    exists users ids,
      Fetched Sample.cfg (Sample.world 100 Sample.script) users ids /\
      Forall2 (Classified ids) users rows.
Proof.
  eexists. eexists. split.
  - vm_compute. reflexivity.
  - eapply origin_iff_cross_referenced. vm_compute. reflexivity.
Defined.

(** The same run, for the configuration status: a user of Okta itself,
    a member of the application, and a federated user. *)
Lemma configuration_status_rule_witness :
  exists rows w',
    main Sample.cfg (Sample.world 100 Sample.script) = (Ok rows, w') /\
    map okta_configuration_status rows
    = [JStr "Manual (OKTA)"; JStr "Imported (bob)"; JStr "Provisioned (FEDERATION)"] /\
    exists users ids,
      Fetched Sample.cfg (Sample.world 100 Sample.script) users ids /\
      Forall2 (StatusRule ids) users rows.
Proof.
  eexists. eexists. split; [ | split ].
  - vm_compute. reflexivity.
  - reflexivity.
  - eapply configuration_status_rule. vm_compute. reflexivity.
Defined.

(** ** The application resolver *)

Lemma str_app_assoc (a b c : string) : (a ++ b) ++ c = a ++ b ++ c.
Proof. induction a as [ | x a IH]; cbn; [ reflexivity | now rewrite IH ]. Qed.

Lemma str_app_nil_r (a : string) : a ++ EmptyString = a.
Proof. induction a as [ | x a IH]; cbn; [ reflexivity | now rewrite IH ]. Qed.

Section Resolver.
Context `{Builtins}.

Lemma labelled_lower app :
  labelled app = true ->
  (l <- Py.get_default app "label" (JStr EmptyString) ;; lower l)%res
  = Ok (str_lower (label_of app)).
Proof.
  destruct app as [ | | | | | kv]; try discriminate. cbn.
  destruct (Py.lookup "label" kv) as [[ | | | | | ] | ]; try discriminate; reflexivity.
Qed.

Lemma bob_match_find apps :
  forallb labelled apps = true ->
  bob_match apps =
    match find bob_label apps with
    | Some app => (id <- Py.getitem app "id" ;; Ok (Some id))%res
    | None => Ok None
    end.
Proof.
  induction apps as [ | app rest IH]; cbn [forallb bob_match find]; [ reflexivity | ].
  rewrite andb_true_iff. intros [Ha Hr].
  pose proof (labelled_lower app Ha) as Hl.
  destruct (Py.get_default app "label" (JStr EmptyString)) as [l | e]; cbn [rbind] in Hl |- *;
    [ | discriminate Hl ].
  rewrite Hl. cbn [rbind]. unfold bob_label at 1.
  destruct (PyStr.contains "bob" (str_lower (label_of app))); [ reflexivity | ].
  apply IH. exact Hr.
Qed.

Lemma unlabelled_raises app :
  labelled app = false ->
  (l <- Py.get_default app "label" (JStr EmptyString) ;; lower l)%res = Raise AttributeError.
Proof.
  destruct app as [ | | | | | kv]; try reflexivity. cbn.
  destruct (Py.lookup "label" kv) as [[ | | | | | ] | ]; try discriminate; reflexivity.
Qed.

(** An inspected application without a usable label stops the search. *)
Lemma exact_match_unlabelled label apps :
  forallb labelled (inspected label apps) = false ->
  exact_match label apps = Raise AttributeError.
Proof.
  induction apps as [ | app rest IH]; cbn [inspected exact_match forallb]; [ discriminate | ].
  destruct (labelled app) eqn:La; cbn [andb].
  - destruct (same_label label app) eqn:Sa; cbn [forallb]; rewrite La; cbn [andb];
      [ discriminate | ].
    intros Hr. pose proof (labelled_lower app La) as Hl.
    destruct (Py.get_default app "label" (JStr EmptyString)) as [l | e]; cbn [rbind] in Hl |- *;
      [ | discriminate Hl ].
    rewrite Hl. cbn [rbind]. unfold same_label in Sa. rewrite Sa. apply IH. exact Hr.
  - intros _. pose proof (unlabelled_raises app La) as Hr.
    destruct (Py.get_default app "label" (JStr EmptyString)) as [l | e];
      cbn [rbind] in Hr |- *; [ rewrite Hr; reflexivity | injection Hr as ->; reflexivity ].
Qed.

Lemma exact_match_inspected label apps :
  forallb labelled (inspected label apps) = true ->
  exact_match label apps =
    match find (same_label label) apps with
    | Some app => (id <- Py.getitem app "id" ;; Ok (Some id))%res
    | None => Ok None
    end.
Proof.
  induction apps as [ | app rest IH]; cbn [inspected exact_match find]; [ reflexivity | ].
  destruct (labelled app && same_label label app) eqn:E.
  - intros _. apply andb_true_iff in E. destruct E as [Ha Hs].
    pose proof (labelled_lower app Ha) as Hl.
    destruct (Py.get_default app "label" (JStr EmptyString)) as [l | e]; cbn [rbind] in Hl |- *;
      [ | discriminate Hl ].
    rewrite Hl, Hs. cbn [rbind]. unfold same_label in Hs. rewrite Hs. reflexivity.
  - cbn [forallb]. rewrite andb_true_iff. intros [Ha Hr].
    rewrite Ha in E. cbn [andb] in E.
    pose proof (labelled_lower app Ha) as Hl.
    destruct (Py.get_default app "label" (JStr EmptyString)) as [l | e]; cbn [rbind] in Hl |- *;
      [ | discriminate Hl ].
    rewrite Hl, E. cbn [rbind]. unfold same_label in E. rewrite E.
    apply IH. exact Hr.
Qed.

Lemma inspected_all label apps :
  find (same_label label) apps = None -> inspected label apps = apps.
Proof.
  induction apps as [ | app rest IH]; cbn [inspected find]; [ reflexivity | ].
  destruct (same_label label app); [ discriminate | ].
  rewrite andb_false_r. intros Hf. rewrite (IH Hf). reflexivity.
Qed.

Lemma inspected_labelled label apps :
  forallb labelled apps = true -> forallb labelled (inspected label apps) = true.
Proof.
  induction apps as [ | app rest IH]; cbn [inspected forallb]; [ reflexivity | ].
  rewrite andb_true_iff. intros [Ha Hr].
  destruct (labelled app && same_label label app); cbn [forallb]; rewrite Ha; cbn [andb];
    [ reflexivity | apply IH; exact Hr ].
Qed.

(** C4, amended.  When an application id is supplied the resolver returns
    it and leaves the world as it is: no request is made.  Otherwise,
    given a label, and provided the label of every application the
    resolver inspects is a string or is absent (the applications up to
    the first whose label is the given one up to case, all of them when
    there is none), it returns the id of the first application whose
    label is the given one up to case; failing that, the id of the first
    application whose label contains [bob] up to case; failing both, it
    raises an error that tells the operator to set the id.  The condition
    holds in particular when every application has a string for label;
    when it fails, the resolver raises [AttributeError]. *)
Theorem app_resolver_policy :
  (forall cfg id w,
      setting (BOB_APP_ID cfg) = Some id ->
      resolve_bob_app_id cfg w = (Ok (JStr id), w)) /\
  (forall cfg label w apps w1,
      setting (BOB_APP_ID cfg) = None ->
      setting (BOB_APP_LABEL cfg) = Some label ->
      _get_paginated (search_url cfg label) w = (Ok apps, w1) ->
      forallb labelled (inspected label apps) = true ->
      resolve_bob_app_id cfg w =
        (match find (same_label label) apps with
         | Some app => Py.getitem app "id"
         | None =>
             match find bob_label apps with
             | Some app => Py.getitem app "id"
             | None => Raise (not_found_error label)
             end
         end, w1)) /\
  (forall cfg label w apps w1,
      setting (BOB_APP_ID cfg) = None ->
      setting (BOB_APP_LABEL cfg) = Some label ->
      _get_paginated (search_url cfg label) w = (Ok apps, w1) ->
      forallb labelled (inspected label apps) = false ->
      resolve_bob_app_id cfg w = (Raise AttributeError, w1)) /\
  (forall label apps,
      forallb labelled apps = true -> forallb labelled (inspected label apps) = true) /\
  (forall label,
      exists msg, not_found_error label = ValueError msg /\
                  PyStr.Occurs "Set BOB_APP_ID to the exact application ID." msg).
Proof.
  split; [ | split; [ | split; [ | split ] ] ].
  - intros cfg id w Hid. unfold resolve_bob_app_id. rewrite Hid. reflexivity.
  - intros cfg label w apps w1 Hid Hl Hg Hs. unfold resolve_bob_app_id.
    rewrite Hid, Hl. unfold bind, lift. fold (search_url cfg label). rewrite Hg.
    unfold pick_app. rewrite (exact_match_inspected label apps Hs).
    destruct (find (same_label label) apps) as [app | ] eqn:Ef.
    + destruct (Py.getitem app "id"); reflexivity.
    + cbn [rbind]. rewrite (inspected_all label apps Ef) in Hs.
      rewrite (bob_match_find apps Hs).
      destruct (find bob_label apps) as [app | ]; [ | reflexivity ].
      destruct (Py.getitem app "id"); reflexivity.
  - intros cfg label w apps w1 Hid Hl Hg Hs. unfold resolve_bob_app_id.
    rewrite Hid, Hl. unfold bind, lift. fold (search_url cfg label). rewrite Hg.
    unfold pick_app. rewrite (exact_match_unlabelled label apps Hs). reflexivity.
  - apply inspected_labelled.
  - intros label. eexists. split; [ reflexivity | ].
    exists ("Could not find a bob app by label '" ++ label ++ "'. "), EmptyString.
    rewrite str_app_nil_r, !str_app_assoc. reflexivity.
Qed.

End Resolver.

(** The resolver with an id, with an exact match that comes second, with
    an exact match before an application without a usable label, with a
    substring match, and without match. *)
Lemma app_resolver_policy_witness :
  resolve_bob_app_id (Sample.by_id "0oa9") (Sample.world 0 Sample.script)
    = (Ok (JStr "0oa9"), Sample.world 0 Sample.script)
  /\ fst (resolve_bob_app_id (Sample.by_label "HiBob")
            (Sample.world 0 [Sample.page None
               (JList [Sample.app "hibob-test" "0oa2"; Sample.app "HIBOB" "0oa1"])]))
     = Ok (JStr "0oa1")
  /\ fst (resolve_bob_app_id (Sample.by_label "HiBob")
            (Sample.world 0 [Sample.page None
               (JList [Sample.app "HiBob" "0oa1"; null_label_app])]))
     = Ok (JStr "0oa1")
  /\ fst (resolve_bob_app_id (Sample.by_label "Bob")
            (Sample.world 0 [Sample.page None
               (JList [Sample.app "Payroll" "0oa4"; Sample.app "MyBobApp" "0oa3"])]))
     = Ok (JStr "0oa3")
  /\ fst (resolve_bob_app_id (Sample.by_label "Bob")
            (Sample.world 0 [Sample.page None (JList [Sample.app "Payroll" "0oa4"])]))
     = Raise (not_found_error "Bob").
Proof.
  destruct (@app_resolver_policy ascii_builtins) as (Hid & Hlabel & _).
  split; [ | split; [ | split; [ | split ] ] ].
  - apply Hid. reflexivity.
  - rewrite (Hlabel (Sample.by_label "HiBob") "HiBob" _
               [Sample.app "hibob-test" "0oa2"; Sample.app "HIBOB" "0oa1"]
               (snd (_get_paginated (search_url (Sample.by_label "HiBob") "HiBob")
                       (Sample.world 0 [Sample.page None
                          (JList [Sample.app "hibob-test" "0oa2"; Sample.app "HIBOB" "0oa1"])]))));
      reflexivity.
  - rewrite (Hlabel (Sample.by_label "HiBob") "HiBob" _
               [Sample.app "HiBob" "0oa1"; null_label_app]
               (snd (_get_paginated (search_url (Sample.by_label "HiBob") "HiBob")
                       (Sample.world 0 [Sample.page None
                          (JList [Sample.app "HiBob" "0oa1"; null_label_app])]))));
      reflexivity.
  - rewrite (Hlabel (Sample.by_label "Bob") "Bob" _
               [Sample.app "Payroll" "0oa4"; Sample.app "MyBobApp" "0oa3"]
               (snd (_get_paginated (search_url (Sample.by_label "Bob") "Bob")
                       (Sample.world 0 [Sample.page None
                          (JList [Sample.app "Payroll" "0oa4"; Sample.app "MyBobApp" "0oa3"])]))));
      reflexivity.
  - rewrite (Hlabel (Sample.by_label "Bob") "Bob" _
               [Sample.app "Payroll" "0oa4"]
               (snd (_get_paginated (search_url (Sample.by_label "Bob") "Bob")
                       (Sample.world 0 [Sample.page None
                          (JList [Sample.app "Payroll" "0oa4"])]))));
      reflexivity.
Defined.

(** C4 as stated fails: an application whose label is [null] comes before
    the application whose label is the given one, and the resolver raises
    [AttributeError] instead of returning the id of the latter. *)
Lemma resolver_fails_on_null_label :
  let apps := [null_label_app; Sample.app "HiBob" "0oa1"] in
  let out := resolve_bob_app_id (Sample.by_label "HiBob")
               (Sample.world 0 [Sample.page None (JList apps)]) in
  find (same_label "HiBob") apps = Some (Sample.app "HiBob" "0oa1") /\
  fst out = Raise AttributeError /\
  fst out <> Ok (JStr "0oa1") /\
  (forall label, fst out <> Raise (not_found_error label)).
Proof.
  cbn zeta. split; [ reflexivity | ]. split; [ reflexivity | ]. split.
  - intros E. discriminate E.
  - intros label E. discriminate E.
Qed.

(** ** Pagination *)

Section Pagination.
Context `{Builtins}.

Lemma sleep_seconds_clock now1 now2 resp s :
  sleep_seconds now1 resp = Ok s -> exists s', sleep_seconds now2 resp = Ok s'.
Proof.
  unfold sleep_seconds.
  destruct (headers_get "x-rate-limit-reset" (headers resp)) as [r | ]; [ | eauto ].
  destruct (truthy_header (Some r) && PyStr.isdigit r); [ | eauto ].
  destruct (PyStr.to_int r); [ eauto | discriminate ].
Qed.

Lemma retry_ok_sleeps now resp :
  retry_ok resp = true ->
  status_code resp = 429 /\ exists s, sleep_seconds now resp = Ok s.
Proof.
  unfold retry_ok. rewrite andb_true_iff, Z.eqb_eq. intros [E Hs]. split; [ exact E | ].
  destruct (sleep_seconds 0 resp) as [s | e] eqn:Es; [ | discriminate ].
  eapply sleep_seconds_clock; eauto.
Qed.

(** [_get] passes the rate-limit responses and returns the response that
    follows them. *)
Lemma _get_from_retries url retries resp rest :
  forallb retry_ok retries = true ->
  status_code resp <> 429 ->
  forall w, exists w1,
    _get_from url (retries ++ resp :: rest) w = (Ok resp, w1) /\
    pending w1 = rest /\
    requested w1 = (requested w ++ repeat url (Datatypes.S (List.length retries)))%list /\
    report w1 = report w.
Proof.
  intros Hr Hs. induction retries as [ | r retries IH]; intros w.
  - cbn [app _get_from]. apply Z.eqb_neq in Hs. rewrite Hs.
    eexists. repeat split.
  - cbn [forallb] in Hr. apply andb_true_iff in Hr. destruct Hr as [Hr Hrs].
    cbn [app _get_from].
    destruct (retry_ok_sleeps (clock (answered url (retries ++ resp :: rest) w)) r Hr) as [E429 [s Es]].
    rewrite E429. cbn [Z.eqb Pos.eqb]. rewrite (_sleep_for_rate_limit_429 _ _ E429), Es.
    destruct (IH Hrs (sleep s (answered url (retries ++ resp :: rest)%list w))) as [w1 [Hg [Hp [Hq Hrep]]]].
    exists w1. split; [ exact Hg | ]. split; [ exact Hp | ]. split; [ | exact Hrep ].
    rewrite Hq. cbn. rewrite <- app_assoc. reflexivity.
Qed.

Lemma accumulate_page_items items resp data :
  body resp = Some data -> accumulate items data = (items ++ page_items resp)%list.
Proof.
  intros Hb. unfold page_items. rewrite Hb. destruct data; reflexivity.
Qed.

Lemma loop_halts fuel url items w :
  truthy_url url = false -> _get_paginated_loop fuel url items w = (Ok items, w).
Proof.
  intros Ht. destruct fuel, url as [u | ]; cbn [_get_paginated_loop];
    try rewrite Ht; reflexivity.
Qed.

Lemma truthy_url_nonempty u : u <> EmptyString -> truthy_url (Some u) = true.
Proof.
  intros Hu. cbn. destruct (String.eqb u EmptyString) eqn:E; [ | reflexivity ].
  apply String.eqb_eq in E. contradiction.
Qed.

Lemma loop_one_page fuel url items w retries resp rest :
  url <> EmptyString ->
  forallb retry_ok retries = true ->
  is_page resp = true ->
  pending w = (retries ++ resp :: rest)%list ->
  exists w1,
    _get_paginated_loop (Datatypes.S fuel) (Some url) items w
    = _get_paginated_loop fuel (next_url resp) (items ++ page_items resp)%list w1 /\
    pending w1 = rest /\
    requested w1 = (requested w ++ repeat url (Datatypes.S (List.length retries)))%list /\
    report w1 = report w.
Proof.
  intros Hu Hr Hp Hw. unfold is_page in Hp. apply andb_true_iff in Hp.
  destruct Hp as [E200 Hb]. pose proof E200 as E200'. apply Z.eqb_eq in E200'.
  assert (Hne : status_code resp <> 429) by (rewrite E200'; discriminate).
  destruct (_get_from_retries url retries resp rest Hr Hne w) as [w1 [Hg Hrest]].
  exists w1. split; [ | exact Hrest ].
  cbn [_get_paginated_loop]. rewrite (truthy_url_nonempty _ Hu).
  unfold _get. rewrite Hw, Hg, E200. cbn [negb].
  unfold json_of. unfold has_body in Hb. destruct (body resp) as [data | ] eqn:Eb; [ | discriminate ].
  rewrite (accumulate_page_items items resp data Eb). reflexivity.
Qed.

Lemma loop_traverses blocks :
  forall last rest fuel url items w,
    url <> EmptyString ->
    forallb (block_ok true) blocks = true ->
    block_ok false last = true ->
    pending w = (exchange (blocks ++ [last]) ++ rest)%list ->
    (List.length (pending w) < fuel)%nat ->
    exists w',
      _get_paginated_loop fuel (Some url) items w
      = (Ok (items ++ flat_map page_items (pages (blocks ++ [last])))%list, w') /\
      pending w' = rest /\
      requested w' = (requested w ++ urls_requested url (blocks ++ [last]))%list /\
      report w' = report w.
Proof.
  induction blocks as [ | b blocks IH]; intros last rest fuel url items w Hu Hbs Hl Hw Hf.
  - destruct fuel as [ | fuel]; [ lia | ].
    unfold block_ok in Hl. rewrite !andb_true_iff in Hl. destruct Hl as [[Hr Hp] Hc].
    apply eqb_prop in Hc.
    cbn in Hw. rewrite <- !app_assoc in Hw. cbn in Hw.
    destruct (loop_one_page fuel url items w _ _ _ Hu Hr Hp Hw) as [w1 [Hloop [Hp1 [Hq1 Hr1]]]].
    exists w1. rewrite Hloop, (loop_halts _ _ _ _ Hc). cbn [app pages map flat_map urls_requested].
    rewrite app_nil_r. repeat split; auto.
    rewrite Hq1. unfold continues in Hc.
    destruct (next_url (snd last)); cbn [urls_requested]; rewrite app_nil_r; reflexivity.
  - destruct fuel as [ | fuel]; [ lia | ].
    cbn [forallb] in Hbs. apply andb_true_iff in Hbs. destruct Hbs as [Hb Hbs].
    unfold block_ok in Hb. rewrite !andb_true_iff in Hb. destruct Hb as [[Hr Hp] Hc].
    apply eqb_prop in Hc.
    cbn in Hw. rewrite <- !app_assoc in Hw. cbn in Hw.
    destruct (loop_one_page fuel url items w _ _ _ Hu Hr Hp Hw) as [w1 [Hloop [Hp1 [Hq1 Hr1]]]].
    unfold continues in Hc. destruct (next_url (snd b)) as [u | ] eqn:En; [ | discriminate Hc ].
    assert (Hu' : u <> EmptyString) by (intros ->; discriminate Hc).
    assert (Hf' : (List.length (pending w1) < fuel)%nat).
    { rewrite Hw in Hf. rewrite Hp1. rewrite !length_app in Hf. cbn in Hf.
      rewrite !length_app in Hf. rewrite !length_app. lia. }
    destruct (IH last rest fuel u (items ++ page_items (snd b))%list w1 Hu' Hbs Hl) as
      [w' [Hloop' [Hp' [Hq' Hr']]]]; [ exact Hp1 | exact Hf' | ].
    exists w'. rewrite Hloop, Hloop'. cbn [app pages map flat_map urls_requested].
    rewrite En, Hq', Hq1, <- !app_assoc. repeat split; auto. congruence.
Qed.

Lemma first_next_none parts :
  first_next parts = None <-> existsb (PyStr.contains rel_next) parts = false.
Proof.
  induction parts as [ | p parts IH]; cbn [first_next existsb]; [ tauto | ].
  destruct (PyStr.contains rel_next p); cbn [orb]; [ split; discriminate | exact IH ].
Qed.

Lemma next_url_none resp :
  next_url resp = None <-> has_next_segment resp = false.
Proof.
  unfold next_url, has_next_segment. destruct (link_header resp) as [l | ]; [ | tauto ].
  destruct (truthy_header (Some l)) eqn:Tl.
  - apply first_next_none.
  - cbn in Tl. apply negb_false_iff, String.eqb_eq in Tl. subst l.
    split; intros _; reflexivity.
Qed.

(** C5, amended.  A paginated fetch returns the items of every page, in
    page order: the elements of a body that is a sequence, the body itself
    otherwise.  It passes every page whose continuation is not empty,
    requesting that continuation, and halts at the first page without
    one, leaving the later responses untouched.  A page is without
    continuation exactly when its link header has no segment marked
    [rel="next"], or when the first such segment has nothing between [<]
    and [>]. *)
Theorem pagination_accumulates_in_order :
  (forall blocks last rest url w,
      url <> EmptyString ->
      forallb (block_ok true) blocks = true ->
      block_ok false last = true ->
      pending w = (exchange (blocks ++ [last]) ++ rest)%list ->
      exists w',
        _get_paginated url w
        = (Ok (flat_map page_items (pages (blocks ++ [last]))), w') /\
        pending w' = rest /\
        requested w' = (requested w ++ urls_requested url (blocks ++ [last]))%list) /\
  (forall resp,
      continues resp = false <->
      has_next_segment resp = false \/ next_url resp = Some EmptyString).
Proof.
  split.
  - intros blocks last rest url w Hu Hbs Hl Hw.
    destruct (loop_traverses blocks last rest (Datatypes.S (List.length (pending w))) url [] w
                Hu Hbs Hl Hw) as [w' [Hloop [Hp [Hq _]]]]; [ lia | ].
    exists w'. repeat split; auto.
  - intros resp. rewrite <- next_url_none. unfold continues.
    destruct (next_url resp) as [u | ]; cbn.
    + rewrite negb_false_iff, String.eqb_eq. split.
      * intros ->. right. reflexivity.
      * intros [E | E]; [ discriminate E | congruence ].
    + split; auto.
Qed.

End Pagination.

(** Two pages of users, the second after a rate-limit response; the page
    of members that follows is left to the next traversal. *)
Lemma pagination_accumulates_in_order_witness :
  exists w',
    _get_paginated "https://x.okta.com/api/v1/users?limit=200" (Sample.world 100 Sample.script)
    = (Ok [Sample.user "00u1" "OKTA"; Sample.user "00u2" "IMPORT";
           Sample.user "00u3" "FEDERATION"], w') /\
    pending w' = [Sample.page None (JList [Sample.member "https://x.okta.com/api/v1/users/00u2"])] /\
    requested w' = [ "https://x.okta.com/api/v1/users?limit=200";
                     "https://x.okta.com/api/v1/users?after=1";
                     "https://x.okta.com/api/v1/users?after=1" ].
Proof.
  destruct (proj1 (@pagination_accumulates_in_order ascii_builtins)
              [([], Sample.page (Some (Sample.next_to "https://x.okta.com/api/v1/users?after=1"))
                      (JList [Sample.user "00u1" "OKTA"]))]
              ([Sample.too_many (Some "105")],
               Sample.page None (JList [Sample.user "00u2" "IMPORT"; Sample.user "00u3" "FEDERATION"]))
              [Sample.page None (JList [Sample.member "https://x.okta.com/api/v1/users/00u2"])]
              "https://x.okta.com/api/v1/users?limit=200"
              (Sample.world 100 Sample.script))
    as [w' Hw']; [ discriminate | reflexivity | reflexivity | reflexivity | ].
  exists w'. exact Hw'.
Defined.

(** C5 as stated fails: the link header [<>; rel="next"] has a segment
    marked next, and the traversal halts after that page. *)
Lemma halts_despite_next_marker :
  let first := Sample.page (Some ("<>; " ++ rel_next)) (JList [JStr "a"]) in
  let second := Sample.page None (JList [JStr "b"]) in
  let out := _get_paginated "https://x.okta.com/api/v1/users?limit=200"
               (Sample.world 0 [first; second]) in
  has_next_segment first = true /\
  fst out = Ok [JStr "a"] /\
  pending (snd out) = [second] /\
  requested (snd out) = ["https://x.okta.com/api/v1/users?limit=200"].
Proof. vm_compute. repeat split; reflexivity. Qed.

(** ** Rate limits *)

Section RateLimit.
Context `{Builtins}.

Lemma headers_get_first name v rest :
  headers_get name ((name, v) :: rest) = Some v.
Proof. cbn. rewrite String.eqb_refl. reflexivity. Qed.

(** The sleep on a 429 response: 6 seconds when the reset header spells
    the clock plus 5, which is at least 5 and less than 7; 2 seconds when
    the header is absent or fails [isdigit]; never less than 2; and after
    the sleep the same request is made again. *)
Lemma rate_limit_sleep :
  (forall now resp r,
      headers_get "x-rate-limit-reset" (headers resp) = Some r ->
      PyStr.isdigit r = true ->
      PyStr.to_int r = Some (now + 5) ->
      sleep_seconds now resp = Ok 6) /\
  (forall now resp,
      headers_get "x-rate-limit-reset" (headers resp) = None ->
      sleep_seconds now resp = Ok 2) /\
  (forall now resp r,
      headers_get "x-rate-limit-reset" (headers resp) = Some r ->
      PyStr.isdigit r = false ->
      sleep_seconds now resp = Ok 2) /\
  (forall now resp s, sleep_seconds now resp = Ok s -> 2 <= s) /\
  (forall url resp rest w s,
      status_code resp = 429 ->
      sleep_seconds (clock w) resp = Ok s ->
      pending w = resp :: rest ->
      _get url w = _get url (sleep s (answered url rest w))).
Proof.
  repeat split.
  - intros now resp r Hh Hd Hi. unfold sleep_seconds. rewrite Hh, Hd, Hi.
    assert (Ht : truthy_header (Some r) = true).
    { destruct r; [ discriminate Hd | reflexivity ]. }
    rewrite Ht. cbn [andb]. f_equal. lia.
  - intros now resp Hh. unfold sleep_seconds. rewrite Hh. reflexivity.
  - intros now resp r Hh Hd. unfold sleep_seconds. rewrite Hh, Hd, andb_false_r. reflexivity.
  - intros now resp s. unfold sleep_seconds.
    destruct (headers_get _ _) as [r | ]; [ | intros E; injection E as <-; lia ].
    destruct (truthy_header (Some r) && PyStr.isdigit r); [ | intros E; injection E as <-; lia ].
    destruct (PyStr.to_int r); [ | discriminate ]. intros E; injection E as <-; lia.
  - intros url resp rest w s E429 Hs Hw. unfold _get at 1. rewrite Hw. cbn [_get_from].
    rewrite E429. cbn [Z.eqb Pos.eqb]. rewrite (_sleep_for_rate_limit_429 _ _ E429).
    cbn [answered clock]. rewrite Hs. reflexivity.
Qed.

(** C6, where the script departs from it.  A 429 response whose reset
    header is the superscript digit [²] is not a number of seconds, yet
    the script does not sleep 2 seconds and retry: the header passes
    [isdigit], [int] refuses it, and the request raises [ValueError]
    without any sleep. *)
Theorem superscript_reset_raises now url rest :
  let w := {| clock := now; pending := superscript_reset :: rest;
              requested := []; slept := []; report := None |} in
  PyStr.isdigit superscript_two = true /\
  PyStr.to_int superscript_two = None /\
  fst (_get url w)
    = Raise (ValueError ("invalid literal for int() with base 10: '" ++ superscript_two ++ "'")) /\
  slept (snd (_get url w)) = [] /\
  requested (snd (_get url w)) = [url].
Proof.
  cbn zeta. unfold _get. cbn [pending _get_from superscript_reset status_code Z.eqb Pos.eqb].
  rewrite (_sleep_for_rate_limit_429 superscript_reset _ eq_refl).
  unfold sleep_seconds. cbn [headers superscript_reset]. rewrite headers_get_first.
  repeat split.
Qed.

End RateLimit.

(** ** Errors *)

Lemma occurs_here sub p q : PyStr.Occurs sub (p ++ sub ++ q).
Proof. exists p, q. reflexivity. Qed.

Lemma occurs_right sub p s : PyStr.Occurs sub s -> PyStr.Occurs sub (p ++ s).
Proof.
  intros [a [b ->]]. exists (p ++ a), b. rewrite str_app_assoc. reflexivity.
Qed.

Lemma occurs_end sub : PyStr.Occurs sub sub.
Proof. exists EmptyString, EmptyString. cbn. rewrite str_app_nil_r. reflexivity. Qed.

Section Errors.
Context `{Builtins}.

Lemma api_error_message url resp :
  exists msg,
    api_error url resp = Exception msg /\
    PyStr.Occurs url msg /\
    PyStr.Occurs (PyStr.of_int (status_code resp)) msg /\
    PyStr.Occurs (text resp) msg.
Proof.
  eexists. split; [ reflexivity | ]. repeat split.
  - apply occurs_here.
  - do 3 apply occurs_right. exact (occurs_here _ EmptyString _).
  - do 5 apply occurs_right. apply occurs_end.
Qed.

Lemma keeps_bind {A B} (m : M A) (k : A -> M B) :
  KeepsReport m -> (forall a, KeepsReport (k a)) -> KeepsReport (bind m k).
Proof.
  intros Hm Hk w. unfold bind. specialize (Hm w).
  destruct (m w) as [[a | e] w1]; cbn in Hm |- *; [ | exact Hm ].
  rewrite (Hk a w1). exact Hm.
Qed.

Lemma keeps_lift {A} (r : result A) : KeepsReport (lift r).
Proof. intros w. reflexivity. Qed.

Lemma keeps_get_from url script :
  forall w, report (snd (_get_from url script w)) = report w.
Proof.
  induction script as [ | r rest IH]; intros w; cbn [_get_from]; [ reflexivity | ].
  destruct (status_code r =? 429) eqn:E; [ | reflexivity ].
  apply Z.eqb_eq in E. rewrite (_sleep_for_rate_limit_429 _ _ E).
  destruct (sleep_seconds _ r); [ | reflexivity ].
  rewrite IH. reflexivity.
Qed.

Lemma keeps_get url : KeepsReport (_get url).
Proof. intros w. apply keeps_get_from. Qed.

Lemma keeps_paginated_loop fuel :
  forall url items, KeepsReport (_get_paginated_loop fuel url items).
Proof.
  induction fuel as [ | fuel IH]; intros url items w; cbn [_get_paginated_loop];
    destruct url as [u | ]; try reflexivity;
    destruct (truthy_url (Some u)); try reflexivity.
  pose proof (keeps_get u w) as Hg.
  destruct (_get u w) as [[resp | e] w1]; cbn in Hg; [ | exact Hg ].
  destruct (negb (status_code resp =? 200)); [ exact Hg | ].
  destruct (json_of resp); [ | exact Hg ].
  rewrite IH. exact Hg.
Qed.

Lemma keeps_collect_loop fuel :
  forall url s, KeepsReport (collect_loop fuel url s).
Proof.
  induction fuel as [ | fuel IH]; intros url s w; cbn [collect_loop];
    destruct url as [u | ]; try reflexivity;
    destruct (truthy_url (Some u)); try reflexivity.
  pose proof (keeps_get u w) as Hg.
  destruct (_get u w) as [[resp | e] w1]; cbn in Hg; [ | exact Hg ].
  destruct (negb (status_code resp =? 200)); [ exact Hg | ].
  destruct (add_page s resp); [ | exact Hg ].
  rewrite IH. exact Hg.
Qed.

Lemma keeps_paginated url : KeepsReport (_get_paginated url).
Proof. intros w. apply keeps_paginated_loop. Qed.

Lemma keeps_resolve cfg : KeepsReport (resolve_bob_app_id cfg).
Proof.
  unfold resolve_bob_app_id. destruct (setting (BOB_APP_ID cfg)); [ intros w; reflexivity | ].
  destruct (setting (BOB_APP_LABEL cfg)); [ | intros w; reflexivity ].
  apply keeps_bind; [ apply keeps_paginated | intros; apply keeps_lift ].
Qed.

Lemma keeps_collect cfg id : KeepsReport (collect_bob_user_ids cfg id).
Proof. intros w. apply keeps_collect_loop. Qed.

Lemma url_with_path a b : b <> EmptyString -> a ++ b <> EmptyString.
Proof.
  intros Hb E. destruct a; cbn in E; [ contradiction | discriminate E ].
Qed.

(** An error response ends [_get_paginated]'s loop, on whatever page it
    comes. *)
Lemma loop_fails blocks :
  forall retries bad rest fuel url items w,
    url <> EmptyString ->
    forallb (block_ok true) blocks = true ->
    forallb retry_ok retries = true ->
    status_code bad <> 200 ->
    status_code bad <> 429 ->
    pending w = (exchange blocks ++ retries ++ bad :: rest)%list ->
    (List.length (pending w) < fuel)%nat ->
    exists w',
      _get_paginated_loop fuel (Some url) items w
      = (Raise (api_error (page_url url blocks) bad), w') /\
      pending w' = rest /\
      requested w'
      = (requested w ++ urls_requested url blocks
         ++ repeat (page_url url blocks) (Datatypes.S (List.length retries)))%list /\
      report w' = report w.
Proof.
  induction blocks as [ | b blocks IH];
    intros retries bad rest fuel url items w Hu Hbs Hr H200 H429 Hw Hf.
  - destruct fuel as [ | fuel]; [ lia | ]. cbn [exchange flat_map app] in Hw.
    destruct (_get_from_retries url retries bad rest Hr H429 w) as (w1 & Hg & Hp & Hq & Hrep).
    exists w1. cbn [_get_paginated_loop page_url urls_requested app].
    rewrite (truthy_url_nonempty _ Hu). unfold _get. rewrite Hw, Hg.
    apply Z.eqb_neq in H200. rewrite H200. cbn [negb]. repeat split; auto.
  - destruct fuel as [ | fuel]; [ lia | ].
    cbn [forallb] in Hbs. apply andb_true_iff in Hbs. destruct Hbs as [Hb Hbs].
    unfold block_ok in Hb. rewrite !andb_true_iff in Hb. destruct Hb as [[Hrb Hp] Hc].
    apply eqb_prop in Hc.
    cbn [exchange flat_map] in Hw. rewrite <- !app_assoc in Hw. cbn [app] in Hw.
    destruct (loop_one_page fuel url items w _ _ _ Hu Hrb Hp Hw) as [w1 [Hloop [Hp1 [Hq1 Hr1]]]].
    unfold continues in Hc. destruct (next_url (snd b)) as [u | ] eqn:En; [ | discriminate Hc ].
    assert (Hu' : u <> EmptyString) by (intros ->; discriminate Hc).
    assert (Hf' : (List.length (pending w1) < fuel)%nat).
    { rewrite Hw in Hf. rewrite Hp1. rewrite !length_app in Hf. cbn in Hf. lia. }
    destruct (IH retries bad rest fuel u (items ++ page_items (snd b))%list w1
                Hu' Hbs Hr H200 H429 Hp1 Hf') as (w' & Hloop' & Hp' & Hq' & Hr').
    exists w'. rewrite Hloop, Hloop'. cbn [page_url urls_requested]. rewrite En.
    split; [ reflexivity | ]. split; [ exact Hp' | ]. split; [ | congruence ].
    rewrite Hq', Hq1, <- !app_assoc. reflexivity.
Qed.

Lemma collect_one_page fuel url s s1 w retries resp rest :
  url <> EmptyString ->
  forallb retry_ok retries = true ->
  is_page resp = true ->
  add_page s resp = Ok s1 ->
  pending w = (retries ++ resp :: rest)%list ->
  exists w1,
    collect_loop (Datatypes.S fuel) (Some url) s w
    = collect_loop fuel (next_url resp) s1 w1 /\
    pending w1 = rest /\
    requested w1 = (requested w ++ repeat url (Datatypes.S (List.length retries)))%list /\
    report w1 = report w.
Proof.
  intros Hu Hr Hp Ha Hw. unfold is_page in Hp. apply andb_true_iff in Hp.
  destruct Hp as [E200 Hb]. pose proof E200 as E200'. apply Z.eqb_eq in E200'.
  assert (Hne : status_code resp <> 429) by (rewrite E200'; discriminate).
  destruct (_get_from_retries url retries resp rest Hr Hne w) as [w1 [Hg Hrest]].
  exists w1. split; [ | exact Hrest ].
  cbn [collect_loop]. rewrite (truthy_url_nonempty _ Hu).
  unfold _get. rewrite Hw, Hg, E200. cbn [negb]. rewrite Ha. reflexivity.
Qed.

(** The same for the loop of [collect_bob_user_ids], when the pages
    before the error response are pages of members. *)
Lemma collect_loop_fails blocks :
  forall retries bad rest fuel url s s' w,
    url <> EmptyString ->
    forallb (block_ok true) blocks = true ->
    add_pages s (pages blocks) = Ok s' ->
    forallb retry_ok retries = true ->
    status_code bad <> 200 ->
    status_code bad <> 429 ->
    pending w = (exchange blocks ++ retries ++ bad :: rest)%list ->
    (List.length (pending w) < fuel)%nat ->
    exists w',
      collect_loop fuel (Some url) s w
      = (Raise (api_error (page_url url blocks) bad), w') /\
      pending w' = rest /\
      requested w'
      = (requested w ++ urls_requested url blocks
         ++ repeat (page_url url blocks) (Datatypes.S (List.length retries)))%list /\
      report w' = report w.
Proof.
  induction blocks as [ | b blocks IH];
    intros retries bad rest fuel url s s' w Hu Hbs Ha Hr H200 H429 Hw Hf.
  - destruct fuel as [ | fuel]; [ lia | ]. cbn [exchange flat_map app] in Hw.
    destruct (_get_from_retries url retries bad rest Hr H429 w) as (w1 & Hg & Hp & Hq & Hrep).
    exists w1. cbn [collect_loop page_url urls_requested app].
    rewrite (truthy_url_nonempty _ Hu). unfold _get. rewrite Hw, Hg.
    apply Z.eqb_neq in H200. rewrite H200. cbn [negb]. repeat split; auto.
  - destruct fuel as [ | fuel]; [ lia | ].
    cbn [forallb] in Hbs. apply andb_true_iff in Hbs. destruct Hbs as [Hb Hbs].
    unfold block_ok in Hb. rewrite !andb_true_iff in Hb. destruct Hb as [[Hrb Hp] Hc].
    apply eqb_prop in Hc.
    cbn [pages map add_pages] in Ha.
    destruct (add_page s (snd b)) as [s1 | e] eqn:E1; cbn [rbind] in Ha; [ | discriminate Ha ].
    cbn [exchange flat_map] in Hw. rewrite <- !app_assoc in Hw. cbn [app] in Hw.
    destruct (collect_one_page fuel url s s1 w _ _ _ Hu Hrb Hp E1 Hw)
      as [w1 [Hloop [Hp1 [Hq1 Hr1]]]].
    unfold continues in Hc. destruct (next_url (snd b)) as [u | ] eqn:En; [ | discriminate Hc ].
    assert (Hu' : u <> EmptyString) by (intros ->; discriminate Hc).
    assert (Hf' : (List.length (pending w1) < fuel)%nat).
    { rewrite Hw in Hf. rewrite Hp1. rewrite !length_app in Hf. cbn in Hf. lia. }
    destruct (IH retries bad rest fuel u s1 s' w1
                Hu' Hbs Ha Hr H200 H429 Hp1 Hf') as (w' & Hloop' & Hp' & Hq' & Hr').
    exists w'. rewrite Hloop, Hloop'. cbn [page_url urls_requested]. rewrite En.
    split; [ reflexivity | ]. split; [ exact Hp' | ]. split; [ | congruence ].
    rewrite Hq', Hq1, <- !app_assoc. reflexivity.
Qed.

(** C7.  A response with a status other than 200 and other than 429 is
    fatal, on whatever page of whatever traversal it comes: the traversal
    raises an error whose message contains the URL requested, the status
    code and the text of the response, and nothing catches it, so that
    the run ends with this error, having left the later responses and the
    report file as they were.  This holds for the search of the resolver,
    for the traversal of the users and for the traversal of the members;
    and an error of any of these stages or of the row loop, whatever it
    is, is the error of the run, which leaves the report file untouched:
    the export is not reached. *)
Theorem api_error_is_fatal :
  (forall url resp,
      exists msg,
        api_error url resp = Exception msg /\
        PyStr.Occurs url msg /\
        PyStr.Occurs (PyStr.of_int (status_code resp)) msg /\
        PyStr.Occurs (text resp) msg) /\
  (forall fuel url items w resp w1,
      url <> EmptyString ->
      _get url w = (Ok resp, w1) ->
      status_code resp <> 200 ->
      _get_paginated_loop (Datatypes.S fuel) (Some url) items w
      = (Raise (api_error url resp), w1)) /\
  (forall fuel url ids w resp w1,
      url <> EmptyString ->
      _get url w = (Ok resp, w1) ->
      status_code resp <> 200 ->
      collect_loop (Datatypes.S fuel) (Some url) ids w
      = (Raise (api_error url resp), w1)) /\
  (forall url w blocks retries bad rest,
      url <> EmptyString ->
      forallb (block_ok true) blocks = true ->
      forallb retry_ok retries = true ->
      status_code bad <> 200 ->
      status_code bad <> 429 ->
      pending w = (exchange blocks ++ retries ++ bad :: rest)%list ->
      exists w',
        _get_paginated url w = (Raise (api_error (page_url url blocks) bad), w') /\
        pending w' = rest /\
        requested w'
        = (requested w ++ urls_requested url blocks
           ++ repeat (page_url url blocks) (Datatypes.S (List.length retries)))%list /\
        report w' = report w) /\
  (forall cfg id w blocks ids retries bad rest,
      forallb (block_ok true) blocks = true ->
      add_pages [] (pages blocks) = Ok ids ->
      forallb retry_ok retries = true ->
      status_code bad <> 200 ->
      status_code bad <> 429 ->
      pending w = (exchange blocks ++ retries ++ bad :: rest)%list ->
      exists w',
        collect_bob_user_ids cfg id w
        = (Raise (api_error (page_url (members_url cfg id) blocks) bad), w') /\
        pending w' = rest /\
        requested w'
        = (requested w ++ urls_requested (members_url cfg id) blocks
           ++ repeat (page_url (members_url cfg id) blocks)
                (Datatypes.S (List.length retries)))%list /\
        report w' = report w) /\
  (forall cfg label w blocks retries bad rest,
      setting (BOB_APP_ID cfg) = None ->
      setting (BOB_APP_LABEL cfg) = Some label ->
      forallb (block_ok true) blocks = true ->
      forallb retry_ok retries = true ->
      status_code bad <> 200 ->
      status_code bad <> 429 ->
      pending w = (exchange blocks ++ retries ++ bad :: rest)%list ->
      exists w',
        main cfg w = (Raise (api_error (page_url (search_url cfg label) blocks) bad), w') /\
        pending w' = rest /\
        report w' = report w) /\
  (forall cfg w id w1 blocks retries bad rest,
      resolve_bob_app_id cfg w = (Ok id, w1) ->
      forallb (block_ok true) blocks = true ->
      forallb retry_ok retries = true ->
      status_code bad <> 200 ->
      status_code bad <> 429 ->
      pending w1 = (exchange blocks ++ retries ++ bad :: rest)%list ->
      exists w',
        main cfg w = (Raise (api_error (page_url (users_url cfg) blocks) bad), w') /\
        pending w' = rest /\
        report w' = report w) /\
  (forall cfg w id w1 users w2 blocks ids retries bad rest,
      resolve_bob_app_id cfg w = (Ok id, w1) ->
      collect_okta_users cfg w1 = (Ok users, w2) ->
      forallb (block_ok true) blocks = true ->
      add_pages [] (pages blocks) = Ok ids ->
      forallb retry_ok retries = true ->
      status_code bad <> 200 ->
      status_code bad <> 429 ->
      pending w2 = (exchange blocks ++ retries ++ bad :: rest)%list ->
      exists w',
        main cfg w = (Raise (api_error (page_url (members_url cfg id) blocks) bad), w') /\
        pending w' = rest /\
        report w' = report w) /\
  (forall cfg w e w1,
      resolve_bob_app_id cfg w = (Raise e, w1) ->
      main cfg w = (Raise e, w1) /\ report w1 = report w) /\
  (forall cfg w id w1 e w2,
      resolve_bob_app_id cfg w = (Ok id, w1) ->
      collect_okta_users cfg w1 = (Raise e, w2) ->
      main cfg w = (Raise e, w2) /\ report w2 = report w) /\
  (forall cfg w id w1 users w2 e w3,
      resolve_bob_app_id cfg w = (Ok id, w1) ->
      collect_okta_users cfg w1 = (Ok users, w2) ->
      collect_bob_user_ids cfg id w2 = (Raise e, w3) ->
      main cfg w = (Raise e, w3) /\ report w3 = report w) /\
  (forall cfg w id w1 users w2 ids w3 e,
      resolve_bob_app_id cfg w = (Ok id, w1) ->
      collect_okta_users cfg w1 = (Ok users, w2) ->
      collect_bob_user_ids cfg id w2 = (Ok ids, w3) ->
      transform ids users = Raise e ->
      main cfg w = (Raise e, w3) /\ report w3 = report w).
Proof.
  assert (Hpag : forall url w blocks retries bad rest,
             url <> EmptyString ->
             forallb (block_ok true) blocks = true ->
             forallb retry_ok retries = true ->
             status_code bad <> 200 ->
             status_code bad <> 429 ->
             pending w = (exchange blocks ++ retries ++ bad :: rest)%list ->
             exists w',
               _get_paginated url w = (Raise (api_error (page_url url blocks) bad), w') /\
               pending w' = rest /\
               requested w'
               = (requested w ++ urls_requested url blocks
                  ++ repeat (page_url url blocks) (Datatypes.S (List.length retries)))%list /\
               report w' = report w).
  { intros url w blocks retries bad rest Hu Hbs Hr H200 H429 Hw.
    apply (loop_fails blocks retries bad rest _ url [] w Hu Hbs Hr H200 H429 Hw). lia. }
  assert (Hcol : forall cfg id w blocks ids retries bad rest,
             forallb (block_ok true) blocks = true ->
             add_pages [] (pages blocks) = Ok ids ->
             forallb retry_ok retries = true ->
             status_code bad <> 200 ->
             status_code bad <> 429 ->
             pending w = (exchange blocks ++ retries ++ bad :: rest)%list ->
             exists w',
               collect_bob_user_ids cfg id w
               = (Raise (api_error (page_url (members_url cfg id) blocks) bad), w') /\
               pending w' = rest /\
               requested w'
               = (requested w ++ urls_requested (members_url cfg id) blocks
                  ++ repeat (page_url (members_url cfg id) blocks)
                       (Datatypes.S (List.length retries)))%list /\
               report w' = report w).
  { intros cfg id w blocks ids retries bad rest Hbs Ha Hr H200 H429 Hw.
    assert (Hu : members_url cfg id <> EmptyString).
    { unfold members_url. apply url_with_path. discriminate. }
    unfold collect_bob_user_ids. fold (members_url cfg id).
    apply (collect_loop_fails blocks retries bad rest _ (members_url cfg id) [] ids w
             Hu Hbs Ha Hr H200 H429 Hw). lia. }
  assert (Hres : forall cfg w e w1,
             resolve_bob_app_id cfg w = (Raise e, w1) ->
             main cfg w = (Raise e, w1) /\ report w1 = report w).
  { intros cfg w e w1 Hr. split; [ unfold main, bind; rewrite Hr; reflexivity | ].
    pose proof (keeps_resolve cfg w) as K. rewrite Hr in K. exact K. }
  assert (Huse : forall cfg w id w1 e w2,
             resolve_bob_app_id cfg w = (Ok id, w1) ->
             collect_okta_users cfg w1 = (Raise e, w2) ->
             main cfg w = (Raise e, w2) /\ report w2 = report w).
  { intros cfg w id w1 e w2 Hr Hu. split; [ unfold main, bind; rewrite Hr, Hu; reflexivity | ].
    pose proof (keeps_resolve cfg w) as K1. rewrite Hr in K1.
    pose proof (keeps_paginated (users_url cfg) w1) as K2.
    change (_get_paginated (users_url cfg) w1) with (collect_okta_users cfg w1) in K2.
    rewrite Hu in K2. cbn [snd] in K1, K2. congruence. }
  assert (Hmem : forall cfg w id w1 users w2 e w3,
             resolve_bob_app_id cfg w = (Ok id, w1) ->
             collect_okta_users cfg w1 = (Ok users, w2) ->
             collect_bob_user_ids cfg id w2 = (Raise e, w3) ->
             main cfg w = (Raise e, w3) /\ report w3 = report w).
  { intros cfg w id w1 users w2 e w3 Hr Hu Hc.
    split; [ unfold main, bind; rewrite Hr, Hu, Hc; reflexivity | ].
    pose proof (keeps_resolve cfg w) as K1. rewrite Hr in K1.
    pose proof (keeps_paginated (users_url cfg) w1) as K2.
    change (_get_paginated (users_url cfg) w1) with (collect_okta_users cfg w1) in K2.
    rewrite Hu in K2.
    pose proof (keeps_collect cfg id w2) as K3. rewrite Hc in K3.
    cbn [snd] in K1, K2, K3. congruence. }
  repeat apply conj.
  - apply api_error_message.
  - intros fuel url items w resp w1 Hu Hg Hs. cbn [_get_paginated_loop].
    rewrite (truthy_url_nonempty _ Hu), Hg. apply Z.eqb_neq in Hs. rewrite Hs. reflexivity.
  - intros fuel url ids w resp w1 Hu Hg Hs. cbn [collect_loop].
    rewrite (truthy_url_nonempty _ Hu), Hg. apply Z.eqb_neq in Hs. rewrite Hs. reflexivity.
  - exact Hpag.
  - exact Hcol.
  - intros cfg label w blocks retries bad rest Hid Hl Hbs Hr H200 H429 Hw.
    assert (Hu : search_url cfg label <> EmptyString).
    { unfold search_url. apply url_with_path. discriminate. }
    destruct (Hpag _ w blocks retries bad rest Hu Hbs Hr H200 H429 Hw)
      as (w' & Hg & Hp & _ & Hrep).
    exists w'. split; [ | split; [ exact Hp | exact Hrep ] ].
    apply Hres. unfold resolve_bob_app_id. rewrite Hid, Hl.
    unfold bind. fold (search_url cfg label). rewrite Hg. reflexivity.
  - intros cfg w id w1 blocks retries bad rest Hres1 Hbs Hr H200 H429 Hw.
    assert (Hu : users_url cfg <> EmptyString).
    { unfold users_url. apply url_with_path. discriminate. }
    destruct (Hpag _ w1 blocks retries bad rest Hu Hbs Hr H200 H429 Hw)
      as (w' & Hg & Hp & _ & Hrep).
    exists w'. destruct (Huse cfg w id w1 _ w' Hres1 Hg) as [Hm Hk].
    split; [ exact Hm | split; [ exact Hp | exact Hk ] ].
  - intros cfg w id w1 users w2 blocks ids retries bad rest Hres1 Hus Hbs Ha Hr H200 H429 Hw.
    destruct (Hcol cfg id w2 blocks ids retries bad rest Hbs Ha Hr H200 H429 Hw)
      as (w' & Hg & Hp & _ & Hrep).
    exists w'. destruct (Hmem cfg w id w1 users w2 _ w' Hres1 Hus Hg) as [Hm Hk].
    split; [ exact Hm | split; [ exact Hp | exact Hk ] ].
  - exact Hres.
  - exact Huse.
  - exact Hmem.
  - intros cfg w id w1 users w2 ids w3 e Hr Hu Hc Ht.
    split; [ unfold main, bind, lift; rewrite Hr, Hu, Hc, Ht; reflexivity | ].
    pose proof (keeps_resolve cfg w) as K1. rewrite Hr in K1.
    pose proof (keeps_paginated (users_url cfg) w1) as K2.
    change (_get_paginated (users_url cfg) w1) with (collect_okta_users cfg w1) in K2.
    rewrite Hu in K2.
    pose proof (keeps_collect cfg id w2) as K3. rewrite Hc in K3.
    cbn [snd] in K1, K2, K3. congruence.
Qed.

End Errors.

(** A run whose second page of users is a 500, with the report of an
    earlier run; a run whose second page of members, after a rate-limit
    response, is a 403; and a run whose search for the application is
    refused. *)
Lemma api_error_is_fatal_witness :
  (exists w',
      main Sample.cfg (Sample.later_world 100 Sample.failing_script)
      = (Raise (Exception "GET https://x.okta.com/api/v1/users?after=1 -> 500 boom"), w') /\
      pending w'
      = [Sample.page None (JList [Sample.member "https://x.okta.com/api/v1/users/00u2"])] /\
      report w' = Some [])
  /\ (exists w',
         main Sample.cfg (Sample.world 100 failing_members_script)
         = (Raise (Exception
                     "GET https://x.okta.com/api/v1/apps/0oa1/users?after=1 -> 403 forbidden"),
            w') /\
         pending w' = [Sample.page None (JList [])] /\
         report w' = None)
  /\ (exists w',
         main (Sample.by_label "HiBob") (Sample.world 100 [Sample.failure 401 "no token"])
         = (Raise (Exception
                     "GET https://x.okta.com/api/v1/apps?q=HiBob&limit=200 -> 401 no token"),
            w') /\
         pending w' = [] /\
         report w' = None).
Proof.
  destruct (@api_error_is_fatal ascii_builtins)
    as (_ & _ & _ & _ & _ & Hsearch & Husers & Hmembers & _).
  split; [ | split ].
  - exact (Husers Sample.cfg (Sample.later_world 100 Sample.failing_script)
             (JStr "0oa1") (Sample.later_world 100 Sample.failing_script)
             [([], Sample.page (Some (Sample.next_to "https://x.okta.com/api/v1/users?after=1"))
                     (JList [Sample.user "00u1" "OKTA"]))]
             [] (Sample.failure 500 "boom")
             [Sample.page None (JList [Sample.member "https://x.okta.com/api/v1/users/00u2"])]
             eq_refl eq_refl eq_refl ltac:(discriminate) ltac:(discriminate) eq_refl).
  - exact (Hmembers Sample.cfg (Sample.world 100 failing_members_script)
             (JStr "0oa1") (Sample.world 100 failing_members_script)
             [Sample.user "00u1" "OKTA"]
             (snd (collect_okta_users Sample.cfg (Sample.world 100 failing_members_script)))
             [([], Sample.page
                     (Some (Sample.next_to "https://x.okta.com/api/v1/apps/0oa1/users?after=1"))
                     (JList [Sample.member "https://x.okta.com/api/v1/users/00u1"]))]
             [JStr "00u1"]
             [Sample.too_many None] (Sample.failure 403 "forbidden")
             [Sample.page None (JList [])]
             eq_refl eq_refl eq_refl eq_refl eq_refl
             ltac:(discriminate) ltac:(discriminate) eq_refl).
  - exact (Hsearch (Sample.by_label "HiBob") "HiBob"
             (Sample.world 100 [Sample.failure 401 "no token"])
             [] [] (Sample.failure 401 "no token") []
             eq_refl eq_refl eq_refl eq_refl ltac:(discriminate) ltac:(discriminate) eq_refl).
Defined.

(** ** Reproducibility *)

Section Determinism.
Context `{Builtins}.

Lemma stable_bind {A B} (m : M A) (k : A -> M B) :
  Stable m -> (forall a, Stable (k a)) -> Stable (bind m k).
Proof.
  intros Hm Hk w1 w2 Hp. unfold bind. destruct (Hm w1 w2 Hp) as [Hr Hq].
  destruct (m w1) as [r1 v1], (m w2) as [r2 v2]. cbn in Hr, Hq. subst r2.
  destruct r1 as [a | e]; [ apply Hk; exact Hq | ]. split; [ reflexivity | exact Hq ].
Qed.

Lemma stable_lift {A} (r : result A) : Stable (lift r).
Proof. intros w1 w2 Hp. split; [ reflexivity | exact Hp ]. Qed.

Lemma stable_ret {A} (a : A) : Stable (ret a).
Proof. intros w1 w2 Hp. split; [ reflexivity | exact Hp ]. Qed.

Lemma stable_raise {A} (e : exn) : Stable (@raise A e).
Proof. intros w1 w2 Hp. split; [ reflexivity | exact Hp ]. Qed.

Lemma sleep_seconds_raise now1 now2 resp e :
  sleep_seconds now1 resp = Raise e -> sleep_seconds now2 resp = Raise e.
Proof.
  unfold sleep_seconds.
  destruct (headers_get "x-rate-limit-reset" (headers resp)) as [r | ]; [ | discriminate ].
  destruct (truthy_header (Some r) && PyStr.isdigit r); [ | discriminate ].
  destruct (PyStr.to_int r); [ discriminate | auto ].
Qed.

Lemma stable_get_from url script :
  forall w1 w2,
    fst (_get_from url script w1) = fst (_get_from url script w2) /\
    pending (snd (_get_from url script w1)) = pending (snd (_get_from url script w2)).
Proof.
  induction script as [ | r rest IH]; intros w1 w2; cbn [_get_from]; [ split; reflexivity | ].
  destruct (status_code r =? 429) eqn:E; [ | split; reflexivity ].
  apply Z.eqb_eq in E. rewrite !(_sleep_for_rate_limit_429 _ _ E).
  destruct (sleep_seconds (clock (answered url rest w1)) r) as [s1 | e] eqn:E1.
  - destruct (sleep_seconds_clock _ (clock (answered url rest w2)) _ _ E1) as [s2 ->].
    apply IH.
  - rewrite (sleep_seconds_raise _ (clock (answered url rest w2)) _ _ E1).
    split; reflexivity.
Qed.

Lemma stable_get url : Stable (_get url).
Proof. intros w1 w2 Hp. unfold _get. rewrite Hp. apply stable_get_from. Qed.

Lemma stable_paginated_loop fuel :
  forall url items, Stable (_get_paginated_loop fuel url items).
Proof.
  induction fuel as [ | fuel IH]; intros url items w1 w2 Hp; cbn [_get_paginated_loop];
    destruct url as [u | ]; try (split; [ reflexivity | exact Hp ]);
    destruct (truthy_url (Some u)); try (split; [ reflexivity | exact Hp ]).
  destruct (stable_get u w1 w2 Hp) as [Hr Hq].
  destruct (_get u w1) as [r1 v1], (_get u w2) as [r2 v2]. cbn in Hr, Hq. subst r2.
  destruct r1 as [resp | e]; [ | split; [ reflexivity | exact Hq ] ].
  destruct (negb (status_code resp =? 200)); [ split; [ reflexivity | exact Hq ] | ].
  destruct (json_of resp); [ | split; [ reflexivity | exact Hq ] ].
  apply IH. exact Hq.
Qed.

Lemma stable_collect_loop fuel :
  forall url s, Stable (collect_loop fuel url s).
Proof.
  induction fuel as [ | fuel IH]; intros url s w1 w2 Hp; cbn [collect_loop];
    destruct url as [u | ]; try (split; [ reflexivity | exact Hp ]);
    destruct (truthy_url (Some u)); try (split; [ reflexivity | exact Hp ]).
  destruct (stable_get u w1 w2 Hp) as [Hr Hq].
  destruct (_get u w1) as [r1 v1], (_get u w2) as [r2 v2]. cbn in Hr, Hq. subst r2.
  destruct r1 as [resp | e]; [ | split; [ reflexivity | exact Hq ] ].
  destruct (negb (status_code resp =? 200)); [ split; [ reflexivity | exact Hq ] | ].
  destruct (add_page s resp); [ | split; [ reflexivity | exact Hq ] ].
  apply IH. exact Hq.
Qed.

Lemma stable_paginated url : Stable (_get_paginated url).
Proof.
  intros w1 w2 Hp. unfold _get_paginated. rewrite Hp. apply stable_paginated_loop. exact Hp.
Qed.

Lemma stable_collect cfg id : Stable (collect_bob_user_ids cfg id).
Proof.
  intros w1 w2 Hp. unfold collect_bob_user_ids. rewrite Hp. apply stable_collect_loop. exact Hp.
Qed.

Lemma stable_resolve cfg : Stable (resolve_bob_app_id cfg).
Proof.
  unfold resolve_bob_app_id. destruct (setting (BOB_APP_ID cfg)); [ apply stable_ret | ].
  destruct (setting (BOB_APP_LABEL cfg)); [ | apply stable_raise ].
  apply stable_bind; [ apply stable_paginated | intros; apply stable_lift ].
Qed.

Lemma stable_to_excel rows : Stable (to_excel rows).
Proof.
  intros w1 w2 Hp. unfold to_excel.
  destruct (excel_error rows); split; try reflexivity; exact Hp.
Qed.

Lemma stable_main cfg : Stable (main cfg).
Proof.
  unfold main.
  apply stable_bind; [ apply stable_resolve | intros id ].
  apply stable_bind; [ apply stable_paginated | intros users ].
  apply stable_bind; [ apply stable_collect | intros S ].
  apply stable_bind; [ apply stable_lift | intros rows ].
  apply stable_bind; [ apply stable_to_excel | intros _ ].
  apply stable_ret.
Qed.

(** C8.  Two runs against backends that give the same responses end the
    same way, whatever the clock, the earlier requests and sleeps, and the
    earlier report are: the same error, or the same rows in the same
    order, and in that case both write exactly these rows.  The rows are
    a function of the users fetched and of the cross-reference set, which
    counts through membership only. *)
Theorem rows_are_reproducible cfg w1 w2 :
  pending w1 = pending w2 ->
  fst (main cfg w1) = fst (main cfg w2) /\
  (forall rows,
      fst (main cfg w1) = Ok rows ->
      report (snd (main cfg w1)) = Some rows /\
      report (snd (main cfg w2)) = Some rows /\
      exists users ids,
        Fetched cfg w1 users ids /\
        forall ids',
          (forall x, Py.set_mem x ids' = Py.set_mem x ids) ->
          transform ids' users = Ok rows).
Proof.
  intros Hp. destruct (stable_main cfg w1 w2 Hp) as [Hr _]. split; [ exact Hr | ].
  intros rows H1. assert (H2 : fst (main cfg w2) = Ok rows) by congruence.
  split; [ | split ].
  - destruct (main cfg w1) as [r v] eqn:E. cbn in H1 |- *. subst r.
    destruct (main_stages _ _ _ _ E) as [_ [_ [_ [_ Hrep]]]]. exact Hrep.
  - destruct (main cfg w2) as [r v] eqn:E. cbn in H2 |- *. subst r.
    destruct (main_stages _ _ _ _ E) as [_ [_ [_ [_ Hrep]]]]. exact Hrep.
  - destruct (main cfg w1) as [r v] eqn:E. cbn in H1. subst r.
    destruct (main_stages _ _ _ _ E) as [users [S [Hf [Ht _]]]].
    exists users, S. split; [ exact Hf | ].
    intros S' Hm. rewrite (transform_ext S S' users Hm). exact Ht.
Qed.

End Determinism.

(** A first run, and a run a day later that finds the report of an
    earlier one. *)
Lemma rows_are_reproducible_witness :
  fst (main Sample.cfg (Sample.world 100 Sample.script))
  = fst (main Sample.cfg (Sample.later_world 86400 Sample.script)) /\
  (forall rows,
      fst (main Sample.cfg (Sample.world 100 Sample.script)) = Ok rows ->
      report (snd (main Sample.cfg (Sample.world 100 Sample.script))) = Some rows /\
      report (snd (main Sample.cfg (Sample.later_world 86400 Sample.script))) = Some rows /\
      exists users ids,
        Fetched Sample.cfg (Sample.world 100 Sample.script) users ids /\
        forall ids',
          (forall x, Py.set_mem x ids' = Py.set_mem x ids) ->
          transform ids' users = Ok rows).
Proof.
  apply rows_are_reproducible. reflexivity.
Defined.

(** ** The scenarios of the specification *)

Example resolver_exact_wins :
  fst (resolve_bob_app_id (Sample.by_label "HiBob")
         (Sample.world 0 [Sample.page None
            (JList [Sample.app "HiBob" "0oa1"; Sample.app "hibob-test" "0oa2"])]))
  = Ok (JStr "0oa1").
Proof. reflexivity. Qed.

Example resolver_substring_fallback :
  fst (resolve_bob_app_id (Sample.by_label "Bob")
         (Sample.world 0 [Sample.page None (JList [Sample.app "MyBobApp" "0oa3"])]))
  = Ok (JStr "0oa3").
Proof. reflexivity. Qed.

Example resolver_request :
  requested (snd (resolve_bob_app_id (Sample.by_label "Hi Bob")
         (Sample.world 0 [Sample.page None (JList [Sample.app "hi bob" "0oa1"])])))
  = ["https://x.okta.com/api/v1/apps?q=Hi%20Bob&limit=200"].
Proof. reflexivity. Qed.

Example row_manual :
  option_map (fun r => (origin r, okta_configuration_status r))
    (match transform_row [JStr "00u456"] (Sample.user "00u123" "OKTA") with
     | Ok r => Some r | Raise _ => None end)
  = Some ("Manual (OKTA)", JStr "Manual (OKTA)").
Proof. reflexivity. Qed.

Example row_imported :
  option_map (fun r => (origin r, okta_configuration_status r))
    (match transform_row [JStr "00u456"] (Sample.user "00u456" "FEDERATION") with
     | Ok r => Some r | Raise _ => None end)
  = Some ("Imported (bob)", JStr "Imported (bob)").
Proof. reflexivity. Qed.

Example run_two_pages :
  let script :=
    [ Sample.page (Some (Sample.next_to "https://x.okta.com/api/v1/users?after=1"))
        (JList [Sample.user "00u1" "OKTA"]);
      Sample.too_many (Some "105");
      Sample.page None (JList [Sample.user "00u2" "IMPORT"]);
      Sample.page None (JList [Sample.member "https://x.okta.com/api/v1/users/00u2"]) ] in
  let out := main (Sample.by_id "0oa1") (Sample.world 100 script) in
  (match fst out with
   | Ok rows => Some (map (fun r => (user_id r, origin r, okta_configuration_status r)) rows)
   | Raise _ => None
   end,
   requested (snd out), slept (snd out))
  = (Some [ (JStr "00u1", "Manual (OKTA)", JStr "Manual (OKTA)");
            (JStr "00u2", "Imported (bob)", JStr "Imported (bob)") ],
     [ "https://x.okta.com/api/v1/users?limit=200";
       "https://x.okta.com/api/v1/users?after=1";
       "https://x.okta.com/api/v1/users?after=1";
       "https://x.okta.com/api/v1/apps/0oa1/users?limit=200" ],
     [6]).
Proof. vm_compute. reflexivity. Qed.

(** * Further properties *)

(** ** The settings *)

Lemma rstrip_no_trailing c s : endswith_char c (rstrip c s) = false.
Proof.
  induction s as [ | d s IH]; cbn [rstrip]; [ reflexivity | ].
  destruct (rstrip c s) as [ | e r] eqn:E.
  - destruct (Ascii.eqb d c) eqn:Ed; cbn; [ reflexivity | exact Ed ].
  - cbn [endswith_char]. exact IH.
Qed.

Lemma rstrip_fixed c s : endswith_char c s = false -> rstrip c s = s.
Proof.
  induction s as [ | d s IH]; cbn [rstrip endswith_char]; [ reflexivity | ].
  destruct s as [ | e s'].
  - cbn. intros ->. reflexivity.
  - intros Hs. rewrite (IH Hs). reflexivity.
Qed.

Lemma startswith_split p s :
  PyStr.startswith p s = true -> exists rest, s = p ++ rest.
Proof.
  unfold PyStr.startswith. revert s.
  induction p as [ | a p IH]; intros s Hp; [ exists s; reflexivity | ].
  destruct s as [ | b s]; cbn [String.prefix] in Hp; [ discriminate | ].
  destruct (ascii_dec a b) as [-> | ]; [ | discriminate ].
  destruct (IH s Hp) as [rest ->]. exists rest. reflexivity.
Qed.

Lemma startswith_app p rest : PyStr.startswith p (p ++ rest) = true.
Proof.
  unfold PyStr.startswith. induction p as [ | a p IH]; cbn [append String.prefix].
  - destruct rest; reflexivity.
  - destruct (ascii_dec a a) as [ _ | N]; [ exact IH | contradiction ].
Qed.

Lemma endswith_char_app c a s :
  s <> EmptyString -> endswith_char c (a ++ s) = endswith_char c s.
Proof.
  intros Hs. induction a as [ | d a IH]; cbn [append]; [ reflexivity | ].
  cbn [endswith_char]. destruct (a ++ s) eqn:E; [ | exact IH ].
  destruct a; [ cbn in E; contradiction | discriminate E ].
Qed.

Section SettingsFacts.
Variable str_strip : string -> string.
Context `{Builtins}.

Lemma with_scheme_shape d :
  d <> EmptyString -> endswith_char "/" d = false ->
  endswith_char "/" (with_scheme d) = false /\
  exists scheme rest,
    with_scheme d = scheme ++ rest /\
    (scheme = "http://" \/ scheme = "https://") /\
    rest <> EmptyString.
Proof.
  intros Hd He. unfold with_scheme.
  destruct (PyStr.startswith "http://" d) eqn:E1; cbn [negb andb].
  - split; [ exact He | ]. destruct (startswith_split _ _ E1) as [host ->].
    exists "http://", host. repeat split; auto.
    intros ->. discriminate He.
  - destruct (PyStr.startswith "https://" d) eqn:E2; cbn [negb].
    + split; [ exact He | ]. destruct (startswith_split _ _ E2) as [host ->].
      exists "https://", host. repeat split; auto.
      intros ->. discriminate He.
    + split; [ rewrite endswith_char_app; auto | ].
      exists "https://", d. repeat split; auto.
Qed.

Lemma with_scheme_fixed d :
  PyStr.startswith "http://" d = true \/ PyStr.startswith "https://" d = true ->
  with_scheme d = d.
Proof.
  unfold with_scheme. intros [-> | ->]; cbn; [ reflexivity | ].
  destruct (PyStr.startswith "http://" d); reflexivity.
Qed.

Lemma truthy_header_nonempty s :
  truthy_header (Some s) = true <-> s <> EmptyString.
Proof.
  cbn. rewrite negb_true_iff. split.
  - intros E ->. discriminate E.
  - intros Hs. destruct (String.eqb s EmptyString) eqn:E; [ | reflexivity ].
    apply String.eqb_eq in E. contradiction.
Qed.

(** X1.  When the setup succeeds, the domain of the run is [http://] or
    [https://] followed by at least one more character, and it does not
    end with a slash; normalising it again gives the same settings,
    provided [strip] leaves it as it is.  (What follows the scheme is the
    text of the setting: nothing checks that it names a host.) *)
Theorem normalised_domain env cfg :
  load_settings str_strip env = Ok cfg ->
  endswith_char "/" (OKTA_DOMAIN cfg) = false /\
  (exists scheme rest,
      OKTA_DOMAIN cfg = scheme ++ rest /\
      (scheme = "http://" \/ scheme = "https://") /\
      rest <> EmptyString) /\
  (forall env',
      env' "OKTA_DOMAIN" = Some (OKTA_DOMAIN cfg) ->
      str_strip (OKTA_DOMAIN cfg) = OKTA_DOMAIN cfg ->
      env' "OKTA_API_TOKEN" = env "OKTA_API_TOKEN" ->
      env' "BOB_APP_ID" = env "BOB_APP_ID" ->
      env' "BOB_APP_LABEL" = env "BOB_APP_LABEL" ->
      load_settings str_strip env' = Ok cfg).
Proof.
  unfold load_settings. intros Hl.
  destruct (truthy_header (Some (stripped_domain str_strip env))) eqn:Td;
    cbn [negb orb] in Hl; [ | discriminate ].
  destruct (truthy_header (env "OKTA_API_TOKEN")) eqn:Tt; cbn [negb] in Hl; [ | discriminate ].
  injection Hl as <-. cbn [OKTA_DOMAIN].
  apply truthy_header_nonempty in Td.
  assert (He : endswith_char "/" (stripped_domain str_strip env) = false)
    by apply rstrip_no_trailing.
  destruct (with_scheme_shape _ Td He) as [Hend Hshape].
  split; [ exact Hend | split; [ exact Hshape | ] ].
  intros env' Hd Hs Ht Hi Hb.
  unfold stripped_domain at 1 2 3. rewrite Hd, Hs, (rstrip_fixed _ _ Hend), Ht, Hi, Hb, Tt.
  destruct Hshape as [scheme [host [E [Hsch Hh]]]].
  assert (Tn : truthy_header (Some (with_scheme (stripped_domain str_strip env))) = true).
  { apply truthy_header_nonempty. rewrite E. destruct Hsch as [-> | ->]; discriminate. }
  rewrite Tn. cbn [negb orb]. rewrite with_scheme_fixed; [ reflexivity | ].
  rewrite E. destruct Hsch as [-> | ->]; [ left | right ]; apply startswith_app.
Qed.

(** X2.  A run whose domain is empty once [strip] and the removal of the
    trailing slashes have been applied to it (a domain that is unset or
    empty in particular, [strip] leaving the empty string as it is), or
    whose token is unset or empty, and a run that has both but neither the
    application id nor its label, raise [ValueError] and leave the world
    as it is: no request is made, nothing is slept, no report is
    written. *)
Theorem settings_errors_come_first env w :
  (stripped_domain str_strip env = EmptyString \/
   truthy_header (env "OKTA_API_TOKEN") = false ->
   script str_strip env w = (Raise missing_settings_error, w)) /\
  (env "OKTA_DOMAIN" = None \/ env "OKTA_DOMAIN" = Some EmptyString ->
   str_strip EmptyString = EmptyString ->
   script str_strip env w = (Raise missing_settings_error, w)) /\
  (stripped_domain str_strip env <> EmptyString ->
   truthy_header (env "OKTA_API_TOKEN") = true ->
   setting (env "BOB_APP_ID") = None ->
   setting (env "BOB_APP_LABEL") = None ->
   script str_strip env w = (Raise no_label_error, w)).
Proof.
  assert (Hmissing : stripped_domain str_strip env = EmptyString \/
                     truthy_header (env "OKTA_API_TOKEN") = false ->
                     script str_strip env w = (Raise missing_settings_error, w)).
  { intros Hm. unfold script, bind, lift, load_settings.
    destruct Hm as [-> | ->]; [ reflexivity | ].
    rewrite orb_true_r. reflexivity. }
  split; [ exact Hmissing | split ].
  - intros Hd Hs. apply Hmissing. left. unfold stripped_domain.
    destruct Hd as [-> | ->]; rewrite Hs; reflexivity.
  - intros Hd Ht Hi Hl. unfold script, bind, lift, load_settings.
    apply truthy_header_nonempty in Hd. rewrite Hd, Ht. cbn [negb orb].
    unfold main, bind, resolve_bob_app_id. cbn [BOB_APP_ID BOB_APP_LABEL].
    rewrite Hi, Hl. reflexivity.
Qed.

End SettingsFacts.

Lemma normalised_domain_witness :
  endswith_char "/" "https://acme.okta.com" = false /\
  (exists scheme rest,
      "https://acme.okta.com" = scheme ++ rest /\
      (scheme = "http://" \/ scheme = "https://") /\
      rest <> EmptyString) /\
  (forall env',
      env' "OKTA_DOMAIN" = Some "https://acme.okta.com" ->
      "https://acme.okta.com" = "https://acme.okta.com" ->
      env' "OKTA_API_TOKEN" = sample_env "OKTA_API_TOKEN" ->
      env' "BOB_APP_ID" = sample_env "BOB_APP_ID" ->
      env' "BOB_APP_LABEL" = sample_env "BOB_APP_LABEL" ->
      load_settings (fun s => s) env'
      = Ok {| OKTA_DOMAIN := "https://acme.okta.com";
              BOB_APP_ID := Some "0oa1"; BOB_APP_LABEL := None |}).
Proof.
  apply (normalised_domain (fun s => s) sample_env
           {| OKTA_DOMAIN := "https://acme.okta.com";
              BOB_APP_ID := Some "0oa1"; BOB_APP_LABEL := None |}).
  reflexivity.
Defined.

Lemma settings_errors_come_first_witness :
  script (fun s => s) sample_env_without_token (Sample.world 0 Sample.script)
  = (Raise missing_settings_error, Sample.world 0 Sample.script)
  /\ script (fun s => s) (fun _ => None) (Sample.world 0 Sample.script)
     = (Raise missing_settings_error, Sample.world 0 Sample.script)
  /\ script (fun s => s) sample_env_without_app (Sample.world 0 Sample.script)
     = (Raise no_label_error, Sample.world 0 Sample.script).
Proof.
  destruct (settings_errors_come_first (fun s => s) sample_env_without_token
              (Sample.world 0 Sample.script)) as (Hmissing & _ & _).
  destruct (settings_errors_come_first (fun s => s) (fun _ => None)
              (Sample.world 0 Sample.script)) as (_ & Hunset & _).
  destruct (settings_errors_come_first (fun s => s) sample_env_without_app
              (Sample.world 0 Sample.script)) as (_ & _ & Hlabel).
  split; [ | split ].
  - apply Hmissing. right. reflexivity.
  - apply Hunset; [ left; reflexivity | reflexivity ].
  - apply Hlabel; [ discriminate | reflexivity | reflexivity | reflexivity ].
Defined.

(** ** Sleeping and retrying *)

Lemma decimal_char_isdigit c d :
  PyStr.decimal_char c = Some d -> PyStr.isdigit_char c = true /\ 0 <= d <= 9.
Proof.
  unfold PyStr.decimal_char, PyStr.isdigit_char.
  destruct ((48 <=? Z.of_nat (nat_of_ascii c)) && (Z.of_nat (nat_of_ascii c) <=? 57)) eqn:E;
    [ | discriminate ].
  intros Hd. injection Hd as <-. split; [ reflexivity | ].
  apply andb_true_iff in E. destruct E as [E1 E2].
  apply Z.leb_le in E1. apply Z.leb_le in E2. lia.
Qed.

Lemma decimal_go_nonneg s :
  forall acc n, 0 <= acc -> PyStr.decimal_go acc s = Some n -> 0 <= n.
Proof.
  induction s as [ | c s IH]; cbn [PyStr.decimal_go]; intros acc n Ha Hn.
  - injection Hn as <-. exact Ha.
  - destruct (PyStr.decimal_char c) as [d | ] eqn:Ed; [ | discriminate ].
    destruct (decimal_char_isdigit _ _ Ed) as [_ Hd].
    apply (IH (10 * acc + d) n); [ lia | exact Hn ].
Qed.

Lemma to_int_nonneg r n : PyStr.to_int r = Some n -> 0 <= n.
Proof.
  unfold PyStr.to_int. destruct r as [ | c r]; [ discriminate | ].
  destruct (PyStr.int_max_str_digits <? PyStr.leading_digits (String c r)); [ discriminate | ].
  apply decimal_go_nonneg. lia.
Qed.

Lemma decimal_all_isdigit s :
  forallb (fun c => match PyStr.decimal_char c with Some _ => true | None => false end)
    (list_ascii_of_string s) = true ->
  forallb PyStr.isdigit_char (list_ascii_of_string s) = true.
Proof.
  induction s as [ | c s IH]; cbn [list_ascii_of_string forallb]; [ reflexivity | ].
  intros Hs. apply andb_true_iff in Hs. destruct Hs as [Hc Hs].
  destruct (PyStr.decimal_char c) as [d | ] eqn:Ed; [ | discriminate ].
  destruct (decimal_char_isdigit _ _ Ed) as [-> _]. cbn. apply IH. exact Hs.
Qed.

Lemma decimal_string_isdigit r :
  decimal_string r = true -> PyStr.isdigit r = true.
Proof.
  unfold decimal_string, PyStr.isdigit, PyStr.all_chars.
  intros Hr. apply andb_true_iff in Hr. destruct Hr as [Hne Hall].
  rewrite Hne, (decimal_all_isdigit _ Hall). reflexivity.
Qed.

Section Sleeping.
Context `{Builtins}.

(** X3.  Whenever [_sleep_for_rate_limit] returns on a 429 response whose
    reset header is a string of decimal digits, it returns [True], it has
    slept once, for the reset time minus the clock plus one second and
    never less than 2 seconds, and the clock is past the reset time. *)
Theorem sleep_ends_after_reset resp r w b w' :
  status_code resp = 429 ->
  headers_get "x-rate-limit-reset" (headers resp) = Some r ->
  decimal_string r = true ->
  _sleep_for_rate_limit resp w = (Ok b, w') ->
  exists reset,
    PyStr.to_int r = Some reset /\
    0 <= reset /\
    b = true /\
    w' = sleep (Z.max (reset - clock w + 1) 2) w /\
    reset < clock w' /\
    clock w + 2 <= clock w' /\
    slept w' = (slept w ++ [Z.max (reset - clock w + 1) 2])%list.
Proof.
  intros E429 Hh Hr Hs. pose proof (decimal_string_isdigit r Hr) as Hd.
  assert (Ht : truthy_header (Some r) = true) by (destruct r; [ discriminate Hr | reflexivity ]).
  rewrite (_sleep_for_rate_limit_429 _ _ E429) in Hs. unfold sleep_seconds in Hs.
  rewrite Hh, Hd, Ht in Hs. cbn [andb] in Hs.
  destruct (PyStr.to_int r) as [reset | ] eqn:Hi; [ | discriminate Hs ].
  injection Hs as <- <-. exists reset.
  pose proof (to_int_nonneg r reset Hi) as Hn.
  cbn [sleep clock slept]. repeat split; auto; lia.
Qed.

Lemma sleep_seconds_min now resp s : sleep_seconds now resp = Ok s -> 2 <= s.
Proof.
  unfold sleep_seconds.
  destruct (headers_get _ _) as [r | ]; [ | intros E; injection E as <-; lia ].
  destruct (truthy_header (Some r) && PyStr.isdigit r); [ | intros E; injection E as <-; lia ].
  destruct (PyStr.to_int r); [ | discriminate ]. intros E; injection E as <-; lia.
Qed.

(** What [_get] does to the world when it returns a response. *)
Lemma _get_from_account url script :
  forall w resp w1,
    _get_from url script w = (Ok resp, w1) ->
    exists retries sleeps,
      script = (retries ++ resp :: pending w1)%list /\
      forallb retry_ok retries = true /\
      status_code resp <> 429 /\
      requested w1 = (requested w ++ repeat url (Datatypes.S (List.length retries)))%list /\
      slept w1 = (slept w ++ sleeps)%list /\
      List.length sleeps = List.length retries /\
      Forall (fun s => 2 <= s) sleeps /\
      clock w1 = clock w + fold_right Z.add 0 sleeps /\
      report w1 = report w.
Proof.
  induction script as [ | r rest IH]; intros w resp w1 Hg; cbn [_get_from] in Hg.
  - discriminate.
  - destruct (status_code r =? 429) eqn:E.
    + pose proof E as E'. apply Z.eqb_eq in E'.
      rewrite (_sleep_for_rate_limit_429 _ _ E') in Hg.
      destruct (sleep_seconds (clock (answered url rest w)) r) as [s | e] eqn:Es;
        [ | discriminate ].
      apply IH in Hg.
      destruct Hg as (retries & sleeps & Hs & Hr & Hne & Hq & Hsl & Hlen & Hall & Hc & Hrep).
      exists (r :: retries), (s :: sleeps). cbn [app List.length forallb fold_right].
      rewrite <- Hs. repeat split; auto.
      * apply andb_true_iff. split; [ | exact Hr ].
        unfold retry_ok. rewrite E. cbn [andb].
        destruct (sleep_seconds_clock _ 0 _ _ Es) as [s0 ->]. reflexivity.
      * rewrite Hq. cbn. rewrite <- app_assoc. reflexivity.
      * rewrite Hsl. cbn. rewrite <- app_assoc. reflexivity.
      * constructor; [ | exact Hall ].
        eapply sleep_seconds_min. exact Es.
      * rewrite Hc. cbn. lia.
    + injection Hg as <- <-. exists [], []. cbn. apply Z.eqb_neq in E.
      rewrite app_nil_r. repeat split; auto. lia.
Qed.

(** X4.  When [_get] returns a response, that response is not a 429; the
    responses before it were all 429; the same URL was requested once for
    each of them and once more; it slept once for each of them, never
    less than 2 seconds, and the clock moved by the sum of the sleeps. *)
Theorem get_retries_until_answer url w resp w1 :
  _get url w = (Ok resp, w1) ->
  exists retries sleeps,
    pending w = (retries ++ resp :: pending w1)%list /\
    Forall (fun r => status_code r = 429) retries /\
    status_code resp <> 429 /\
    requested w1 = (requested w ++ repeat url (Datatypes.S (List.length retries)))%list /\
    slept w1 = (slept w ++ sleeps)%list /\
    List.length sleeps = List.length retries /\
    Forall (fun s => 2 <= s) sleeps /\
    clock w1 = clock w + fold_right Z.add 0 sleeps.
Proof.
  intros Hg. apply _get_from_account in Hg.
  destruct Hg as (retries & sleeps & Hs & Hr & Hne & Hq & Hsl & Hlen & Hall & Hc & _).
  exists retries, sleeps. repeat split; auto.
  apply Forall_forall. intros r Hin. rewrite forallb_forall in Hr.
  specialize (Hr r Hin). unfold retry_ok in Hr. apply andb_true_iff in Hr.
  destruct Hr as [Hr _]. apply Z.eqb_eq in Hr. exact Hr.
Qed.

End Sleeping.

(** ** One request for each response *)

Section Accounting.
Context `{Builtins}.

Lemma orderly_bind {A B} (m : M A) (k : A -> M B) :
  Orderly m -> (forall a, Orderly (k a)) -> Orderly (bind m k).
Proof.
  intros Hm Hk w b w' Hb. unfold bind in Hb.
  destruct (m w) as [[a | e] w1] eqn:E; [ | discriminate ].
  destruct (Hm _ _ _ E) as (c1 & Hp1 & Hq1 & Hc1).
  destruct (Hk a _ _ _ Hb) as (c2 & Hp2 & Hq2 & Hc2).
  exists (c1 ++ c2)%list. rewrite Hp1, Hp2, Hq2, Hq1, length_app, <- app_assoc.
  repeat split; lia.
Qed.

Lemma orderly_lift {A} (r : result A) : Orderly (lift r).
Proof.
  intros w a w' Hl. unfold lift in Hl. injection Hl as _ <-.
  exists []. cbn. repeat split; lia.
Qed.

Lemma orderly_ret {A} (a : A) : Orderly (ret a).
Proof.
  intros w b w' Hl. unfold ret in Hl. injection Hl as _ <-.
  exists []. cbn. repeat split; lia.
Qed.

Lemma orderly_to_excel rows : Orderly (to_excel rows).
Proof.
  intros w b w' Hl. unfold to_excel in Hl.
  destruct (excel_error rows); [ discriminate Hl | ]. injection Hl as _ <-.
  exists []. cbn. repeat split; lia.
Qed.

Lemma sum_of_sleeps sleeps :
  Forall (fun s => 2 <= s) sleeps -> 0 <= fold_right Z.add 0 sleeps.
Proof. induction 1; cbn; lia. Qed.

Lemma orderly_get url : Orderly (_get url).
Proof.
  intros w resp w1 Hg. unfold _get in Hg. apply _get_from_account in Hg.
  destruct Hg as (retries & sleeps & Hs & _ & _ & Hq & _ & _ & Hall & Hc & _).
  exists (retries ++ [resp])%list. rewrite <- app_assoc. cbn [app].
  split; [ exact Hs | ]. split.
  - rewrite Hq, !length_app, repeat_length. cbn. lia.
  - pose proof (sum_of_sleeps _ Hall). lia.
Qed.

Lemma orderly_paginated_loop fuel :
  forall url items, Orderly (_get_paginated_loop fuel url items).
Proof.
  induction fuel as [ | fuel IH]; intros url items w a w' Hl; cbn [_get_paginated_loop] in Hl;
    destruct url as [u | ]; try (apply (orderly_ret items w a w' Hl));
    destruct (truthy_url (Some u)); try (apply (orderly_ret items w a w' Hl));
    try discriminate.
  destruct (_get u w) as [[resp | e] w1] eqn:Hg; [ | discriminate ].
  destruct (negb (status_code resp =? 200)); [ discriminate | ].
  destruct (json_of resp) as [data | e]; [ | discriminate ].
  destruct (orderly_get u _ _ _ Hg) as (c1 & Hp1 & Hq1 & Hc1).
  destruct (IH _ _ _ _ _ Hl) as (c2 & Hp2 & Hq2 & Hc2).
  exists (c1 ++ c2)%list. rewrite Hp1, Hp2, Hq2, Hq1, length_app, <- app_assoc.
  repeat split; lia.
Qed.

Lemma orderly_collect_loop fuel :
  forall url s, Orderly (collect_loop fuel url s).
Proof.
  induction fuel as [ | fuel IH]; intros url s w a w' Hl; cbn [collect_loop] in Hl;
    destruct url as [u | ]; try (apply (orderly_ret s w a w' Hl));
    destruct (truthy_url (Some u)); try (apply (orderly_ret s w a w' Hl));
    try discriminate.
  destruct (_get u w) as [[resp | e] w1] eqn:Hg; [ | discriminate ].
  destruct (negb (status_code resp =? 200)); [ discriminate | ].
  destruct (add_page s resp) as [s1 | e]; [ | discriminate ].
  destruct (orderly_get u _ _ _ Hg) as (c1 & Hp1 & Hq1 & Hc1).
  destruct (IH _ _ _ _ _ Hl) as (c2 & Hp2 & Hq2 & Hc2).
  exists (c1 ++ c2)%list. rewrite Hp1, Hp2, Hq2, Hq1, length_app, <- app_assoc.
  repeat split; lia.
Qed.

Lemma orderly_paginated url : Orderly (_get_paginated url).
Proof. intros w a w' Hl. eapply orderly_paginated_loop. exact Hl. Qed.

Lemma orderly_resolve cfg : Orderly (resolve_bob_app_id cfg).
Proof.
  unfold resolve_bob_app_id. destruct (setting (BOB_APP_ID cfg)); [ apply orderly_ret | ].
  destruct (setting (BOB_APP_LABEL cfg)); [ | intros w a w' Hr; discriminate Hr ].
  apply orderly_bind; [ apply orderly_paginated | intros; apply orderly_lift ].
Qed.

Lemma orderly_collect cfg id : Orderly (collect_bob_user_ids cfg id).
Proof. intros w a w' Hl. eapply orderly_collect_loop. exact Hl. Qed.

(** X5.  A run that produces its report has used the responses of the
    backend in the order they came, from the first on and none twice; it
    made exactly one request for each response it used, and its clock
    never went back. *)
Theorem one_request_per_response cfg w rows w' :
  main cfg w = (Ok rows, w') ->
  exists consumed,
    pending w = (consumed ++ pending w')%list /\
    List.length (requested w') = (List.length (requested w) + List.length consumed)%nat /\
    clock w <= clock w'.
Proof.
  revert w rows w'. change (Orderly (main cfg)). unfold main.
  apply orderly_bind; [ apply orderly_resolve | intros id ].
  apply orderly_bind; [ apply orderly_paginated | intros users ].
  apply orderly_bind; [ apply orderly_collect | intros S ].
  apply orderly_bind; [ apply orderly_lift | intros rows ].
  apply orderly_bind; [ apply orderly_to_excel | intros _ ].
  apply orderly_ret.
Qed.

End Accounting.

Lemma one_request_per_response_witness :
  exists consumed,
    pending (Sample.world 100 Sample.script)
    = (consumed ++ pending (snd (main Sample.cfg (Sample.world 100 Sample.script))))%list /\
    List.length (requested (snd (main Sample.cfg (Sample.world 100 Sample.script))))
    = (List.length (requested (Sample.world 100 Sample.script)) + List.length consumed)%nat /\
    clock (Sample.world 100 Sample.script)
    <= clock (snd (main Sample.cfg (Sample.world 100 Sample.script))).
Proof.
  apply (one_request_per_response Sample.cfg (Sample.world 100 Sample.script)
           (match fst (main Sample.cfg (Sample.world 100 Sample.script)) with
            | Ok rows => rows
            | Raise _ => []
            end)).
  vm_compute. reflexivity.
Defined.

Lemma sleep_ends_after_reset_witness :
  exists reset,
    PyStr.to_int "105" = Some reset /\
    0 <= reset /\
    true = true /\
    sleep 6 (Sample.world 100 []) = sleep (Z.max (reset - 100 + 1) 2) (Sample.world 100 []) /\
    reset < clock (sleep 6 (Sample.world 100 [])) /\
    100 + 2 <= clock (sleep 6 (Sample.world 100 [])) /\
    slept (sleep 6 (Sample.world 100 [])) = ([] ++ [Z.max (reset - 100 + 1) 2])%list.
Proof.
  exact (@sleep_ends_after_reset ascii_builtins (Sample.too_many (Some "105")) "105"
           (Sample.world 100 []) true (sleep 6 (Sample.world 100 []))
           eq_refl eq_refl eq_refl eq_refl).
Defined.

Lemma get_retries_until_answer_witness :
  exists retries sleeps,
    [Sample.too_many (Some "105"); Sample.too_many None; Sample.failure 404 "gone"]
    = (retries ++ Sample.failure 404 "gone" :: [])%list /\
    Forall (fun r => status_code r = 429) retries /\
    status_code (Sample.failure 404 "gone") <> 429 /\
    requested (snd (_get "https://x.okta.com/a"
                      (Sample.world 100 [Sample.too_many (Some "105"); Sample.too_many None;
                                         Sample.failure 404 "gone"])))
    = ([] ++ repeat "https://x.okta.com/a" (Datatypes.S (List.length retries)))%list /\
    slept (snd (_get "https://x.okta.com/a"
                  (Sample.world 100 [Sample.too_many (Some "105"); Sample.too_many None;
                                     Sample.failure 404 "gone"])))
    = ([] ++ sleeps)%list /\
    List.length sleeps = List.length retries /\
    Forall (fun s => 2 <= s) sleeps /\
    clock (snd (_get "https://x.okta.com/a"
                  (Sample.world 100 [Sample.too_many (Some "105"); Sample.too_many None;
                                     Sample.failure 404 "gone"])))
    = 100 + fold_right Z.add 0 sleeps.
Proof.
  exact (get_retries_until_answer "https://x.okta.com/a"
           (Sample.world 100 [Sample.too_many (Some "105"); Sample.too_many None;
                              Sample.failure 404 "gone"])
           (Sample.failure 404 "gone")
           (snd (_get "https://x.okta.com/a"
                   (Sample.world 100 [Sample.too_many (Some "105"); Sample.too_many None;
                                      Sample.failure 404 "gone"])))
           eq_refl).
Defined.

(** ** Reading the link header *)

Lemma split_go_end sep cur : PyStr.split_go sep O cur EmptyString = [cur].
Proof. reflexivity. Qed.

Lemma split_go_comma cur s :
  PyStr.split_go "," O cur (String "," s) = cur :: PyStr.split_go "," O EmptyString s.
Proof. destruct s; reflexivity. Qed.

Lemma split_go_piece a :
  has_char "," a = false ->
  forall cur s, PyStr.split_go "," O cur (a ++ s) = PyStr.split_go "," O (cur ++ a) s.
Proof.
  unfold has_char. induction a as [ | d a IH]; cbn [list_ascii_of_string existsb append];
    intros Ha cur s.
  - rewrite str_app_nil_r. reflexivity.
  - apply orb_false_iff in Ha. destruct Ha as [Hd Ha].
    cbn [PyStr.split_go String.prefix].
    destruct (ascii_dec "," d) as [E | _].
    + subst d. rewrite Ascii.eqb_refl in Hd. discriminate Hd.
    + rewrite (IH Ha). rewrite str_app_assoc. reflexivity.
Qed.

(** [",".join(parts).split(",")] gives the parts back when none holds a
    comma. *)
Lemma split_comma_join parts :
  parts <> [] ->
  forallb (fun p => negb (has_char "," p)) parts = true ->
  PyStr.split "," (comma_join parts) = parts.
Proof.
  unfold PyStr.split. intros Hne Hall.
  assert (Hgen : forall cur, PyStr.split_go "," O cur (comma_join parts)
                             = match parts with
                               | [] => [cur]
                               | p :: rest => (cur ++ p) :: rest
                               end).
  { clear Hne. induction parts as [ | p rest IH]; intros cur; [ reflexivity | ].
    cbn [forallb] in Hall. apply andb_true_iff in Hall. destruct Hall as [Hp Hrest].
    apply negb_true_iff in Hp. destruct rest as [ | q rest'].
    - cbn [comma_join]. rewrite <- (str_app_nil_r p) at 1.
      rewrite (split_go_piece p Hp). reflexivity.
    - change (comma_join (p :: q :: rest')) with (p ++ String "," (comma_join (q :: rest'))).
      rewrite (split_go_piece p Hp), split_go_comma, (IH Hrest). reflexivity. }
  rewrite Hgen. destruct parts; [ contradiction | reflexivity ].
Qed.

Lemma find_first c a s :
  has_char c a = false ->
  PyStr.find c (a ++ String c s) = Z.of_nat (String.length a).
Proof.
  unfold has_char. induction a as [ | d a IH]; cbn [list_ascii_of_string existsb append];
    intros Ha.
  - cbn [PyStr.find]. rewrite Ascii.eqb_refl. reflexivity.
  - apply orb_false_iff in Ha. destruct Ha as [Hd Ha].
    cbn [PyStr.find String.length]. rewrite Hd, (IH Ha).
    destruct (Z.of_nat (String.length a) <? 0) eqn:E; [ apply Z.ltb_lt in E; lia | lia ].
Qed.

Lemma has_char_app c a b : has_char c (a ++ b) = has_char c a || has_char c b.
Proof.
  unfold has_char. induction a as [ | d a IH]; cbn [append list_ascii_of_string existsb];
    [ reflexivity | ].
  rewrite IH. apply orb_assoc.
Qed.

Lemma str_length_app a b : String.length (a ++ b) = (String.length a + String.length b)%nat.
Proof. induction a as [ | d a IH]; cbn; [ reflexivity | now rewrite IH ]. Qed.

Lemma substring_skip a n s :
  String.substring (String.length a) n (a ++ s) = String.substring 0 n s.
Proof. induction a as [ | d a IH]; cbn; [ reflexivity | exact IH ]. Qed.

Lemma substring_head u s :
  String.substring 0 (String.length u) (u ++ s) = u.
Proof.
  induction u as [ | d u IH]; cbn [String.length append].
  - destruct s; reflexivity.
  - cbn [String.substring]. rewrite IH. reflexivity.
Qed.

(** The slice the script takes gives the target of the segment. *)
Lemma slice_link_segment pre u post :
  has_char "<" pre = false -> has_char ">" pre = false -> has_char ">" u = false ->
  let part := link_segment pre u post in
  PyStr.slice part (PyStr.find "<" part + 1) (PyStr.find ">" part) = u.
Proof.
  intros H1 H2 H3. cbn zeta. unfold link_segment.
  change (pre ++ "<" ++ u ++ ">" ++ post) with (pre ++ String "<" (u ++ ">" ++ post)).
  rewrite (find_first "<" pre _ H1).
  assert (E : pre ++ String "<" (u ++ ">" ++ post)
              = (pre ++ String "<" u) ++ String ">" post).
  { rewrite str_app_assoc. reflexivity. }
  rewrite E at 2.
  rewrite (find_first ">" (pre ++ String "<" u) post).
  2:{ rewrite has_char_app, H2. cbn [orb]. unfold has_char in *.
      cbn [list_ascii_of_string existsb]. rewrite H3. reflexivity. }
  rewrite str_length_app. cbn [String.length].
  unfold PyStr.slice, PyStr.clamp.
  rewrite !str_length_app. cbn [String.length]. rewrite !str_length_app. cbn [String.length].
  set (p := String.length pre). set (n := String.length u). set (q := String.length post).
  destruct (Z.of_nat p + 1 <? 0) eqn:Ea; [ apply Z.ltb_lt in Ea; lia | ].
  destruct (Z.of_nat (p + Datatypes.S n) <? 0) eqn:Eb; [ apply Z.ltb_lt in Eb; lia | ].
  rewrite !Z.min_l by lia.
  destruct (Z.of_nat p + 1 <? Z.of_nat (p + Datatypes.S n)) eqn:Ec.
  - replace (Z.to_nat (Z.of_nat p + 1)) with (String.length (pre ++ "<"))
      by (rewrite str_length_app; cbn; lia).
    replace (Z.to_nat (Z.of_nat (p + Datatypes.S n) - (Z.of_nat p + 1))) with n by lia.
    replace (pre ++ String "<" (u ++ ">" ++ post)) with ((pre ++ "<") ++ u ++ ">" ++ post)
      by (rewrite str_app_assoc; reflexivity).
    rewrite substring_skip. apply substring_head.
  - apply Z.ltb_ge in Ec. assert (n = 0%nat) by lia.
    destruct u; [ reflexivity | cbn in n; lia ].
Qed.

Section LinkHeader.
Context `{Builtins}.

Lemma first_next_skips before part after :
  existsb (PyStr.contains rel_next) before = false ->
  PyStr.contains rel_next part = true ->
  first_next (before ++ part :: after)
  = Some (PyStr.slice part (PyStr.find "<" part + 1) (PyStr.find ">" part)).
Proof.
  intros Hb Hp. induction before as [ | b before IH]; cbn [app first_next].
  - rewrite Hp. reflexivity.
  - cbn [existsb] in Hb. apply orb_false_iff in Hb. destruct Hb as [Hb1 Hb2].
    rewrite Hb1. apply IH. exact Hb2.
Qed.

(** X6.  The continuation the script reads is the target the server
    wrote: when the link header is a list of comma-separated segments,
    none holding a comma, and the first segment marked [rel="next"] is
    [<target>] with parameters after it, blanks before it and no [>] in
    the target, the next request goes to that target. *)
Theorem next_url_reads_target resp before pre target post after :
  link_header resp
  = Some (comma_join (before ++ link_segment pre target post :: after)) ->
  forallb (fun p => negb (has_char "," p))
    (before ++ link_segment pre target post :: after) = true ->
  existsb (PyStr.contains rel_next) before = false ->
  PyStr.contains rel_next (link_segment pre target post) = true ->
  has_char "<" pre = false -> has_char ">" pre = false ->
  has_char ">" target = false ->
  next_url resp = Some target.
Proof.
  intros Hl Hc Hb Hn H1 H2 H3. unfold next_url. rewrite Hl.
  assert (Hs : PyStr.split "," (comma_join (before ++ link_segment pre target post :: after))
               = (before ++ link_segment pre target post :: after)%list).
  { apply split_comma_join; [ | exact Hc ]. destruct before; discriminate. }
  assert (Ht : truthy_header
                 (Some (comma_join (before ++ link_segment pre target post :: after))) = true).
  { cbn [truthy_header]. apply negb_true_iff.
    destruct (String.eqb _ EmptyString) eqn:E; [ | reflexivity ].
    apply String.eqb_eq in E. rewrite E in Hs. cbn in Hs.
    destruct before as [ | b [ | ]]; cbn in Hs; try discriminate Hs.
    injection Hs as Hs. unfold link_segment in Hs. destruct pre; discriminate Hs. }
  rewrite Ht, Hs, (first_next_skips _ _ _ Hb Hn).
  f_equal. apply (slice_link_segment pre target post H1 H2 H3).
Qed.

End LinkHeader.

Lemma next_url_reads_target_witness :
  next_url (Sample.page (Some okta_link_header) (JList []))
  = Some "https://x.okta.com/api/v1/users?after=00u1&limit=200".
Proof.
  apply (next_url_reads_target (Sample.page (Some okta_link_header) (JList []))
           [ link_segment EmptyString "https://x.okta.com/api/v1/users?limit=200"
               ("; rel=" ++ double_quote ++ "self" ++ double_quote) ]
           " " "https://x.okta.com/api/v1/users?after=00u1&limit=200"
           ("; " ++ rel_next) []);
    reflexivity.
Defined.

(** ** Every result of a paginated fetch is a traversal *)

Section Traversals.
Context `{Builtins}.

Lemma loop_is_traversal fuel :
  forall url items0 w items w',
    url <> EmptyString ->
    _get_paginated_loop fuel (Some url) items0 w = (Ok items, w') ->
    exists blocks last,
      pending w = (exchange (blocks ++ [last]) ++ pending w')%list /\
      forallb (block_ok true) blocks = true /\
      block_ok false last = true /\
      items = (items0 ++ flat_map page_items (pages (blocks ++ [last])))%list.
Proof.
  induction fuel as [ | fuel IH]; intros url items0 w items w' Hu Hl;
    cbn [_get_paginated_loop] in Hl; rewrite (truthy_url_nonempty _ Hu) in Hl;
    [ discriminate | ].
  destruct (_get url w) as [[resp | e] w1] eqn:Hg; [ | discriminate ].
  destruct (status_code resp =? 200) eqn:E200; cbn [negb] in Hl; [ | discriminate ].
  unfold json_of in Hl. destruct (body resp) as [data | ] eqn:Eb; [ | discriminate ].
  rewrite (accumulate_page_items items0 resp data Eb) in Hl.
  unfold _get in Hg. apply _get_from_account in Hg.
  destruct Hg as (retries & sleeps & Hs & Hr & _).
  assert (Hpage : is_page resp = true).
  { unfold is_page, has_body. rewrite E200, Eb. reflexivity. }
  destruct (continues resp) eqn:Ec.
  - unfold continues in Ec. destruct (next_url resp) as [u | ] eqn:En; [ | discriminate Ec ].
    assert (Hu' : u <> EmptyString) by (intros ->; discriminate Ec).
    destruct (IH u _ _ _ _ Hu' Hl) as (blocks & last & Hp & Hb & Hlast & Hi).
    exists ((retries, resp) :: blocks), last.
    cbn [app exchange flat_map fst snd pages map forallb].
    split; [ | split; [ | split; [ exact Hlast | ] ] ].
    + rewrite Hs, Hp. unfold exchange. rewrite <- !app_assoc. reflexivity.
    + rewrite Hb, andb_true_r. unfold block_ok. cbn [fst snd].
      rewrite Hr, Hpage. unfold continues. rewrite En, Ec. reflexivity.
    + rewrite Hi, <- app_assoc. reflexivity.
  - rewrite (loop_halts _ _ _ _ Ec) in Hl. injection Hl as <- <-.
    exists [], (retries, resp). cbn [app exchange flat_map fst snd pages map forallb].
    split; [ | split; [ reflexivity | split ] ].
    + rewrite Hs, app_nil_r, <- app_assoc. reflexivity.
    + unfold block_ok. cbn [fst snd]. rewrite Hr, Hpage, Ec. reflexivity.
    + rewrite app_nil_r. reflexivity.
Qed.

(** X7.  Whatever [_get_paginated] returns was fetched: the responses it
    used are pages, each after the rate-limit responses the script slept
    on; every page but the last had a continuation, the last had none;
    and the result is the items of these pages, in order, nothing else. *)
Theorem paginated_result_is_a_traversal url w items w' :
  url <> EmptyString ->
  _get_paginated url w = (Ok items, w') ->
  exists blocks last,
    pending w = (exchange (blocks ++ [last]) ++ pending w')%list /\
    forallb (block_ok true) blocks = true /\
    block_ok false last = true /\
    items = flat_map page_items (pages (blocks ++ [last])).
Proof.
  intros Hu Hg. exact (loop_is_traversal _ _ _ _ _ _ Hu Hg).
Qed.

(** ** The collector folds the items of a paginated fetch *)

Lemma add_page_list s resp xs :
  body resp = Some (JList xs) -> add_page s resp = add_items s xs.
Proof. intros Hb. unfold add_page, json_of. rewrite Hb. reflexivity. Qed.

Lemma collect_loop_folds fuel :
  forall url items0 w items w',
    _get_paginated_loop fuel url items0 w = (Ok items, w') ->
    forallb list_body (pending w) = true ->
    exists new,
      items = (items0 ++ new)%list /\
      forall s0,
        fst (collect_loop fuel url s0 w) = add_items s0 new /\
        (forall s1, add_items s0 new = Ok s1 -> collect_loop fuel url s0 w = (Ok s1, w')).
Proof.
  induction fuel as [ | fuel IH]; intros url items0 w items w' Hl Hb;
    cbn [_get_paginated_loop] in Hl; destruct url as [u | ];
    try (injection Hl as <- <-; exists []; rewrite app_nil_r; split; [ reflexivity | ];
         intros s0; cbn [collect_loop add_items fst]; split;
         [ reflexivity | intros s1 E; injection E as <-; reflexivity ]).
  - destruct (truthy_url (Some u)) eqn:Tu; [ discriminate | ].
    injection Hl as <- <-. exists []. rewrite app_nil_r. split; [ reflexivity | ].
    intros s0. cbn [collect_loop add_items]. rewrite Tu. cbn [fst]. split;
      [ reflexivity | intros s1 E; injection E as <-; reflexivity ].
  - destruct (truthy_url (Some u)) eqn:Tu.
    + destruct (_get u w) as [[resp | e] w1] eqn:Hg; [ | discriminate ].
      destruct (status_code resp =? 200) eqn:E200; cbn [negb] in Hl; [ | discriminate ].
      unfold json_of in Hl. destruct (body resp) as [data | ] eqn:Eb; [ | discriminate ].
      pose proof Hg as Hg'. unfold _get in Hg'. apply _get_from_account in Hg'.
      destruct Hg' as (retries & sleeps & Hs & _).
      rewrite Hs, forallb_app in Hb. apply andb_true_iff in Hb. destruct Hb as [_ Hb].
      cbn [forallb] in Hb. apply andb_true_iff in Hb. destruct Hb as [Hresp Hrest].
      unfold list_body in Hresp. rewrite E200, Eb in Hresp. cbn [negb orb] in Hresp.
      destruct data as [ | | | | xs | ]; try discriminate Hresp.
      cbn [accumulate] in Hl.
      destruct (IH _ _ _ _ _ Hl Hrest) as (new & Hi & Hfold).
      exists (xs ++ new)%list. split; [ rewrite Hi, app_assoc; reflexivity | ].
      intros s0. cbn [collect_loop]. rewrite Tu, Hg, E200. cbn [negb].
      rewrite (add_page_list s0 resp xs Eb), add_items_app.
      destruct (add_items s0 xs) as [s1 | e]; cbn [rbind fst].
      * apply Hfold.
      * split; [ reflexivity | discriminate ].
    + injection Hl as <- <-. exists []. rewrite app_nil_r. split; [ reflexivity | ].
      intros s0. cbn [collect_loop add_items]. rewrite Tu. cbn [fst]. split;
        [ reflexivity | intros s1 E; injection E as <-; reflexivity ].
Qed.

(** X8.  The two traversals of the script agree: when the pages of
    members are JSON arrays, [collect_bob_user_ids] gives what adding, one
    after the other, the items [_get_paginated] returns for the same URL
    and the same backend gives, the same set or the same error, and on a
    set it leaves the backend where [_get_paginated] leaves it. *)
Theorem collector_folds_the_pages cfg bob_app_id w items w' :
  _get_paginated (members_url cfg bob_app_id) w = (Ok items, w') ->
  forallb list_body (pending w) = true ->
  fst (collect_bob_user_ids cfg bob_app_id w) = add_items [] items /\
  (forall ids,
      add_items [] items = Ok ids ->
      collect_bob_user_ids cfg bob_app_id w = (Ok ids, w')).
Proof.
  intros Hg Hb. destruct (collect_loop_folds _ _ _ _ _ _ Hg Hb) as (new & Hi & Hfold).
  cbn [app] in Hi. subst new. apply Hfold.
Qed.

End Traversals.

Lemma paginated_result_is_a_traversal_witness :
  exists blocks last,
    pending (Sample.world 100 Sample.script)
    = (exchange (blocks ++ [last])
       ++ [Sample.page None (JList [Sample.member "https://x.okta.com/api/v1/users/00u2"])])%list /\
    forallb (block_ok true) blocks = true /\
    block_ok false last = true /\
    [Sample.user "00u1" "OKTA"; Sample.user "00u2" "IMPORT"; Sample.user "00u3" "FEDERATION"]
    = flat_map page_items (pages (blocks ++ [last])).
Proof.
  exact (paginated_result_is_a_traversal "https://x.okta.com/api/v1/users?limit=200"
           (Sample.world 100 Sample.script)
           [Sample.user "00u1" "OKTA"; Sample.user "00u2" "IMPORT"; Sample.user "00u3" "FEDERATION"]
           (snd (_get_paginated "https://x.okta.com/api/v1/users?limit=200"
                   (Sample.world 100 Sample.script)))
           ltac:(discriminate) eq_refl).
Defined.

Lemma collector_folds_the_pages_witness :
  fst (collect_bob_user_ids Sample.cfg (JStr "0oa1") (Sample.world 0 members_script))
  = add_items []
      [ Sample.member "https://x.okta.com/api/v1/users/00u2";
        Sample.member "https://x.okta.com/api/v1/users/00u5";
        Sample.member "https://x.okta.com/api/v1/users/00u2" ]
  /\ (forall ids,
         add_items []
           [ Sample.member "https://x.okta.com/api/v1/users/00u2";
             Sample.member "https://x.okta.com/api/v1/users/00u5";
             Sample.member "https://x.okta.com/api/v1/users/00u2" ] = Ok ids ->
         collect_bob_user_ids Sample.cfg (JStr "0oa1") (Sample.world 0 members_script)
         = (Ok ids, snd (_get_paginated (members_url Sample.cfg (JStr "0oa1"))
                           (Sample.world 0 members_script)))).
Proof.
  exact (collector_folds_the_pages Sample.cfg (JStr "0oa1") (Sample.world 0 members_script)
           [ Sample.member "https://x.okta.com/api/v1/users/00u2";
             Sample.member "https://x.okta.com/api/v1/users/00u5";
             Sample.member "https://x.okta.com/api/v1/users/00u2" ]
           (snd (_get_paginated (members_url Sample.cfg (JStr "0oa1"))
                   (Sample.world 0 members_script)))
           eq_refl eq_refl).
Defined.

(** ** What the set holds *)

Lemma eq_atom_sym a b : Py.eq_atom a b = Py.eq_atom b a.
Proof.
  destruct a, b; cbn; try reflexivity; try apply Z.eqb_sym; try apply String.eqb_sym.
Qed.

Lemma eq_atom_trans a b c :
  Py.eq_atom a b = true -> Py.eq_atom b c = true -> Py.eq_atom a c = true.
Proof.
  destruct a, b; cbn; try discriminate; destruct c; cbn; try discriminate; try reflexivity;
    rewrite ?Z.eqb_eq, ?String.eqb_eq; intros; subst; try reflexivity; try congruence.
Qed.

Lemma set_mem_app x (s t : Py.pyset) :
  Py.set_mem x (s ++ t)%list = Py.set_mem x s || Py.set_mem x t.
Proof. unfold Py.set_mem. apply existsb_app. Qed.

Lemma set_mem_eq x y s :
  Py.eq_atom x y = true -> Py.set_mem y s = true -> Py.set_mem x s = true.
Proof.
  unfold Py.set_mem. rewrite !existsb_exists. intros Hxy [z [Hin Hyz]].
  exists z. split; [ exact Hin | eapply eq_atom_trans; eauto ].
Qed.

Lemma set_add_mem y s s' :
  Py.set_add y s = Ok s' ->
  forall x, Py.set_mem x s' = Py.set_mem x s || Py.eq_atom x y.
Proof.
  unfold Py.set_add. destruct (Py.hashable y); [ | discriminate ].
  intros E x. injection E as <-. destruct (Py.set_mem y s) eqn:Hy.
  - destruct (Py.eq_atom x y) eqn:Hxy; [ | rewrite orb_false_r; reflexivity ].
    rewrite (set_mem_eq x y s Hxy Hy). reflexivity.
  - rewrite set_mem_app. unfold Py.set_mem at 2. cbn [existsb]. rewrite orb_false_r.
    reflexivity.
Qed.

Lemma distinct_snoc s y :
  distinct s = true -> Py.set_mem y s = false -> distinct (s ++ [y])%list = true.
Proof.
  induction s as [ | a s IH]; cbn [app distinct]; intros Hd Hy; [ reflexivity | ].
  apply andb_true_iff in Hd. destruct Hd as [Ha Hs].
  unfold Py.set_mem in Hy. cbn [existsb] in Hy. apply orb_false_iff in Hy.
  destruct Hy as [Hya Hys].
  rewrite set_mem_app. apply negb_true_iff in Ha. rewrite Ha.
  unfold Py.set_mem at 1. cbn [existsb orb]. rewrite eq_atom_sym, Hya. cbn.
  apply IH; assumption.
Qed.

Lemma set_add_distinct y s s' :
  Py.set_add y s = Ok s' -> distinct s = true -> distinct s' = true.
Proof.
  unfold Py.set_add. destruct (Py.hashable y); [ | discriminate ].
  intros E Hd. injection E as <-. destruct (Py.set_mem y s) eqn:Hy; [ exact Hd | ].
  apply distinct_snoc; assumption.
Qed.

Lemma add_items_mem items :
  forall ids0 ids,
    add_items ids0 items = Ok ids ->
    forall x,
      Py.set_mem x ids = true <->
      Py.set_mem x ids0 = true \/
      exists item y,
        In item items /\ item_user_id item = Ok y /\ Py.truthy y = true /\
        Py.eq_atom x y = true.
Proof.
  induction items as [ | item rest IH]; intros ids0 ids Ha; cbn [add_items] in Ha.
  - injection Ha as <-. intros x. split; [ auto | ].
    intros [Hx | (item & y & [] & _)]. exact Hx.
  - destruct (add_item ids0 item) as [ids1 | e] eqn:E1; cbn [rbind] in Ha; [ | discriminate ].
    pose proof (IH _ _ Ha) as Hmem. unfold add_item in E1.
    destruct (item_user_id item) as [y | e] eqn:Ey; cbn [rbind] in E1; [ | discriminate ].
    destruct (Py.truthy y) eqn:Ty.
    + intros x. rewrite Hmem, (set_add_mem y ids0 ids1 E1 x). split.
      * intros [Hx | (it & z & Hin & Hz)].
        -- apply orb_true_iff in Hx. destruct Hx as [Hx | Hx]; [ left; exact Hx | ].
           right. exists item, y. cbn [In]. auto.
        -- right. exists it, z. cbn [In]. tauto.
      * intros [Hx | (it & z & [<- | Hin] & Hz & Tz & Hxz)].
        -- left. rewrite Hx. reflexivity.
        -- left. rewrite Ey in Hz. injection Hz as <-. rewrite Hxz. apply orb_true_r.
        -- right. exists it, z. auto.
    + injection E1 as <-. intros x. rewrite Hmem. split.
      * intros [Hx | (it & z & Hin & Hz)]; [ left; exact Hx | ].
        right. exists it, z. cbn [In]. tauto.
      * intros [Hx | (it & z & [<- | Hin] & Hz & Tz & Hxz)].
        -- left. exact Hx.
        -- rewrite Ey in Hz. injection Hz as <-. congruence.
        -- right. exists it, z. auto.
Qed.

Lemma add_items_distinct items :
  forall ids0 ids,
    add_items ids0 items = Ok ids -> distinct ids0 = true -> distinct ids = true.
Proof.
  induction items as [ | item rest IH]; intros ids0 ids Ha Hd; cbn [add_items] in Ha.
  - injection Ha as <-. exact Hd.
  - destruct (add_item ids0 item) as [ids1 | e] eqn:E1; cbn [rbind] in Ha; [ | discriminate ].
    apply (IH _ _ Ha). unfold add_item in E1.
    destruct (item_user_id item) as [y | e]; cbn [rbind] in E1; [ | discriminate ].
    destruct (Py.truthy y).
    + eapply set_add_distinct; eauto.
    + injection E1 as <-. exact Hd.
Qed.

(** X9.  The set after a list of membership items holds what it held
    before and the identifiers the items resolve to, nothing else and
    each once: a value belongs to it exactly when it belonged before or
    equals the (truthy) identifier of one of the items. *)
Theorem set_holds_the_resolved_ids items ids0 ids :
  add_items ids0 items = Ok ids ->
  (forall x,
      Py.set_mem x ids = true <->
      Py.set_mem x ids0 = true \/
      exists item y,
        In item items /\ item_user_id item = Ok y /\ Py.truthy y = true /\
        Py.eq_atom x y = true) /\
  (distinct ids0 = true -> distinct ids = true).
Proof.
  intros Ha. split;
    [ apply (add_items_mem items ids0 ids Ha) | apply (add_items_distinct items ids0 ids Ha) ].
Qed.

(** X10.  A page of members whose body is a JSON object with at least one
    key aborts the collector with [AttributeError] (the loop visits the
    keys, and a string has no [get]), whereas [_get_paginated] takes the
    same body as one item; a body that is [null], a number or a boolean
    aborts it with [TypeError]; an empty array, object or string adds
    nothing. *)
Theorem member_page_must_be_an_array ids resp :
  (forall kv, body resp = Some (JDict kv) -> kv <> [] ->
              add_page ids resp = Raise AttributeError /\
              forall items, accumulate items (JDict kv) = (items ++ [JDict kv])%list) /\
  (forall data, body resp = Some data ->
                data = JNull \/ (exists b, data = JBool b) \/ (exists n, data = JInt n) ->
                add_page ids resp = Raise TypeError) /\
  (forall data, body resp = Some data ->
                data = JList [] \/ data = JDict [] \/ data = JStr EmptyString ->
                add_page ids resp = Ok ids).
Proof.
  unfold add_page, json_of. split; [ | split ].
  - intros kv Hb Hk. rewrite Hb. split; [ | reflexivity ].
    destruct kv as [ | [k v] kv]; [ contradiction | reflexivity ].
  - intros data Hb Hd. rewrite Hb. destruct Hd as [-> | [[b ->] | [n ->]]]; reflexivity.
  - intros data Hb Hd. rewrite Hb. destruct Hd as [-> | [-> | ->]]; reflexivity.
Qed.

Lemma set_holds_the_resolved_ids_witness :
  (forall x,
      Py.set_mem x [JStr "00u2"; JStr "00u5"] = true <->
      Py.set_mem x [] = true \/
      exists item y,
        In item [ Sample.member "https://x.okta.com/api/v1/users/00u2";
                  Sample.member "https://x.okta.com/api/v1/users/00u5";
                  Sample.member "https://x.okta.com/api/v1/users/00u2" ] /\
        item_user_id item = Ok y /\ Py.truthy y = true /\ Py.eq_atom x y = true) /\
  (distinct [] = true -> distinct [JStr "00u2"; JStr "00u5"] = true).
Proof.
  exact (set_holds_the_resolved_ids
           [ Sample.member "https://x.okta.com/api/v1/users/00u2";
             Sample.member "https://x.okta.com/api/v1/users/00u5";
             Sample.member "https://x.okta.com/api/v1/users/00u2" ]
           [] [JStr "00u2"; JStr "00u5"] eq_refl).
Defined.

Lemma member_page_must_be_an_array_witness :
  add_page [JStr "00u1"] (Sample.page None (JDict [("errorCode", JStr "E0000001")]))
  = Raise AttributeError
  /\ add_page [JStr "00u1"] (Sample.page None JNull) = Raise TypeError
  /\ add_page [JStr "00u1"] (Sample.page None (JDict [])) = Ok [JStr "00u1"].
Proof.
  split; [ | split ].
  - apply (proj1 (member_page_must_be_an_array [JStr "00u1"]
                    (Sample.page None (JDict [("errorCode", JStr "E0000001")])))
             [("errorCode", JStr "E0000001")]); [ reflexivity | discriminate ].
  - apply (proj1 (proj2 (member_page_must_be_an_array [JStr "00u1"]
                           (Sample.page None JNull))) JNull); [ reflexivity | left; reflexivity ].
  - apply (proj2 (proj2 (member_page_must_be_an_array [JStr "00u1"]
                           (Sample.page None (JDict [])))) (JDict []));
      [ reflexivity | right; left; reflexivity ].
Defined.

(** ** The resolver reads the applications in order *)

Section Scan.
Context `{Builtins}.

Lemma exact_match_scan label before app after :
  forallb labelled before = true ->
  forallb (fun a => negb (same_label label a)) before = true ->
  exact_match label (before ++ app :: after)
  = if labelled app
    then if same_label label app
         then (id <- Py.getitem app "id" ;; Ok (Some id))%res
         else exact_match label after
    else Raise AttributeError.
Proof.
  induction before as [ | b before IH]; cbn [forallb List.app]; intros Hl Hs.
  - cbn [exact_match]. destruct (labelled app) eqn:La.
    + pose proof (labelled_lower app La) as Hlow.
      destruct (Py.get_default app "label" (JStr EmptyString)) as [l | e];
        cbn [rbind] in Hlow |- *; [ | discriminate Hlow ].
      rewrite Hlow. cbn [rbind]. reflexivity.
    + pose proof (unlabelled_raises app La) as Hr.
      destruct (Py.get_default app "label" (JStr EmptyString)) as [l | e];
        cbn [rbind] in Hr |- *; [ rewrite Hr; reflexivity | injection Hr as ->; reflexivity ].
  - apply andb_true_iff in Hl. destruct Hl as [Lb Hl].
    apply andb_true_iff in Hs. destruct Hs as [Sb Hs]. apply negb_true_iff in Sb.
    cbn [exact_match]. pose proof (labelled_lower b Lb) as Hlow.
    destruct (Py.get_default b "label" (JStr EmptyString)) as [l | e];
      cbn [rbind] in Hlow |- *; [ | discriminate Hlow ].
    rewrite Hlow. cbn [rbind]. unfold same_label in Sb. rewrite Sb. apply IH; assumption.
Qed.

(** X11.  The search for an exact label match reads the applications in
    order and stops at the first match: the applications after it are not
    looked at, whatever they are; and an entry before any match that is
    not an object, or whose label is not a string ([null], say), aborts
    the resolution with [AttributeError], even when a later application
    matches. *)
Theorem exact_match_stops_at_first label before app after :
  forallb labelled before = true ->
  forallb (fun a => negb (same_label label a)) before = true ->
  (labelled app = true -> same_label label app = true ->
   pick_app label (before ++ app :: after) = Py.getitem app "id") /\
  (labelled app = false ->
   pick_app label (before ++ app :: after) = Raise AttributeError).
Proof.
  intros Hl Hs. unfold pick_app. rewrite (exact_match_scan label before app after Hl Hs).
  split.
  - intros La Sa. rewrite La, Sa. destruct (Py.getitem app "id"); reflexivity.
  - intros La. rewrite La. reflexivity.
Qed.

End Scan.

Lemma exact_match_stops_at_first_witness :
  pick_app "HiBob" ([Sample.app "Payroll" "0oa4"]
                     ++ Sample.app "hibob" "0oa1" :: [JNull; Sample.app "HiBob" "0oa7"])
  = Py.getitem (Sample.app "hibob" "0oa1") "id"
  /\ pick_app "HiBob" ([Sample.app "Payroll" "0oa4"]
                        ++ JDict [("id", JStr "0oa5"); ("label", JNull)]
                        :: [Sample.app "HiBob" "0oa7"])
     = Raise AttributeError.
Proof.
  destruct (@exact_match_stops_at_first ascii_builtins "HiBob" [Sample.app "Payroll" "0oa4"]
              (Sample.app "hibob" "0oa1") [JNull; Sample.app "HiBob" "0oa7"])
    as [Hfirst _]; [ reflexivity | reflexivity | ].
  destruct (@exact_match_stops_at_first ascii_builtins "HiBob" [Sample.app "Payroll" "0oa4"]
              (JDict [("id", JStr "0oa5"); ("label", JNull)]) [Sample.app "HiBob" "0oa7"])
    as [_ Hbad]; [ reflexivity | reflexivity | ].
  split; [ apply Hfirst; reflexivity | apply Hbad; reflexivity ].
Defined.

(** ** The cells of a row *)

Lemma get_default_dict d k default v :
  Py.get_default d k default = Ok v -> exists kv, d = JDict kv.
Proof. destruct d; try discriminate. eauto. Qed.

Lemma or_is_dict v kv :
  Py.or_ v (JDict []) = JDict kv ->
  falsy_or_dict v = true /\ kv = match v with JDict p => p | _ => [] end.
Proof.
  unfold Py.or_, falsy_or_dict. destruct (Py.truthy v) eqn:T; cbn [negb orb].
  - intros ->. split; reflexivity.
  - intros E. injection E as <-. split; [ reflexivity | ].
    destruct v as [ | | | | | [ | ]]; try reflexivity. discriminate T.
Qed.

Section Cells.
Context `{Builtins}.

(** X12.  A row repeats the record: User ID is the record's id ([None]
    when it has none), and First Name, Last Name and Email are the
    [firstName], [lastName] and [email] of its profile, the empty string
    for a key the profile lacks and for a record without profile. *)
Theorem row_cells_come_from_the_profile ids user row :
  transform_row ids user = Ok row ->
  exists kv,
    user = JDict kv /\
    user_id row = match Py.lookup "id" kv with Some v => v | None => JNull end /\
    first_name row = profile_cell (profile_of kv) "firstName" /\
    last_name row = profile_cell (profile_of kv) "lastName" /\
    email row = profile_cell (profile_of kv) "email".
Proof.
  unfold transform_row. intros Ht. rinv Ht. injection Ht as <-. cbn.
  destruct user as [ | | | | | kv]; try discriminate E. exists kv.
  cbn in E, E0. injection E as <-. injection E0 as <-.
  destruct (get_default_dict _ _ _ _ E5) as [p Hp]. rewrite Hp in E5, E6, E7.
  cbn in E5, E6, E7. injection E5 as <-. injection E6 as <-. injection E7 as <-.
  assert (Ep : p = profile_of kv).
  { unfold profile_of. destruct (Py.lookup "profile" kv) as [v | ].
    - apply or_is_dict in Hp. destruct Hp as [_ ->]. destruct v; reflexivity.
    - cbn in Hp. injection Hp as <-. reflexivity. }
  subst p. repeat split; reflexivity.
Qed.

(** ** The records the row loop accepts *)

Lemma transform_row_shape ids user row :
  transform_row ids user = Ok row -> record_shape user = true.
Proof.
  unfold transform_row. intros Ht. rinv Ht.
  destruct user as [ | | | | | kv]; try discriminate E.
  cbn in E, E0. injection E as <-. injection E0 as <-.
  unfold Py.set_contains in E4.
  destruct (Py.hashable match Py.lookup "id" kv with Some v => v | None => JNull end) eqn:Hh;
    [ | discriminate ].
  destruct (get_default_dict _ _ _ _ E5) as [p Hp].
  destruct (get_default_dict _ _ _ _ E2) as [c Hc]. subst a1.
  unfold provider_of in E1. cbn [Py.get_default rbind] in E1.
  cbn [record_shape]. rewrite !andb_true_iff. split; [ split | ].
  - destruct (Py.lookup "id" kv); [ exact Hh | reflexivity ].
  - destruct (Py.lookup "profile" kv) as [v | ]; cbn [absent_or]; [ | reflexivity ].
    apply or_is_dict in Hp. tauto.
  - destruct (Py.lookup "credentials" kv) as [v | ]; cbn [absent_or]; [ | reflexivity ].
    destruct (Py.get_default (Py.or_ v (JDict [])) "provider" (JDict [])) as [pv | e] eqn:Eg;
      cbn [rbind] in E1; [ | discriminate E1 ].
    injection E1 as E1. apply or_is_dict in E1. destruct E1 as [Hpv _].
    destruct (get_default_dict _ _ _ _ Eg) as [ckv Hckv].
    apply or_is_dict in Hckv. destruct Hckv as [Hv ->].
    unfold falsy_or_dict in Hv. destruct (Py.truthy v) eqn:Tv; cbn [negb orb] in Hv |- *;
      [ | reflexivity ].
    destruct v as [ | | | | | ckv]; try discriminate Hv.
    unfold Py.or_ in Eg. rewrite Tv in Eg. cbn [Py.get_default] in Eg. injection Eg as <-.
    destruct (Py.lookup "provider" ckv) as [pv | ]; cbn [absent_or]; [ exact Hpv | reflexivity ].
Qed.

(** X13.  The row loop succeeds exactly on the lists of records it
    accepts: objects whose id, if any, is hashable and whose profile,
    credentials and provider, if any, are objects or falsy.  Whether it
    succeeds does not depend on the cross-reference set. *)
Theorem rows_exist_iff_records_are_shaped ids users :
  (exists rows, transform ids users = Ok rows) <-> forallb record_shape users = true.
Proof.
  split; [ | apply transform_total ].
  intros [rows Hr]. apply transform_rows in Hr.
  induction Hr as [ | u r us rs Hur _ IH]; cbn [forallb]; [ reflexivity | ].
  rewrite (transform_row_shape _ _ _ Hur), IH. reflexivity.
Qed.

End Cells.

Lemma row_cells_come_from_the_profile_witness :
  exists kv,
    Sample.anonymous = JDict kv /\
    JNull = match Py.lookup "id" kv with Some v => v | None => JNull end /\
    JStr "Eve" = profile_cell (profile_of kv) "firstName" /\
    JStr EmptyString = profile_cell (profile_of kv) "lastName" /\
    JStr EmptyString = profile_cell (profile_of kv) "email".
Proof.
  exact (row_cells_come_from_the_profile [JStr "00u2"] Sample.anonymous
           {| user_id := JNull; first_name := JStr "Eve"; last_name := JStr EmptyString;
              email := JStr EmptyString; origin := "Manual (OKTA)";
              okta_configuration_status := JStr "UNKNOWN" |} eq_refl).
Defined.

Lemma rows_exist_iff_records_are_shaped_witness :
  (exists rows, transform [JStr "00u2"] [Sample.anonymous; Sample.user "00u2" "OKTA"] = Ok rows)
  /\ forallb record_shape [Sample.anonymous; JStr "not a record"] = false.
Proof.
  split.
  - apply (proj2 (rows_exist_iff_records_are_shaped [JStr "00u2"]
                    [Sample.anonymous; Sample.user "00u2" "OKTA"])).
    reflexivity.
  - destruct (forallb record_shape [Sample.anonymous; JStr "not a record"]) eqn:E;
      [ | reflexivity ].
    destruct (proj2 (rows_exist_iff_records_are_shaped []
                       [Sample.anonymous; JStr "not a record"]) E) as [rows Hr].
    discriminate Hr.
Defined.

(** ** From the link of a member to the id of the user *)

Lemma split_go_passes sep rest a :
  (forall a1 a2, a = a1 ++ a2 -> a2 <> EmptyString ->
                 String.prefix sep (a2 ++ rest) = false) ->
  forall cur, PyStr.split_go sep O cur (a ++ rest) = PyStr.split_go sep O (cur ++ a) rest.
Proof.
  induction a as [ | d a IH]; intros Hno cur; cbn [append].
  - rewrite str_app_nil_r. reflexivity.
  - cbn [PyStr.split_go].
    rewrite (Hno EmptyString (String d a) eq_refl ltac:(discriminate) : String.prefix sep (String d (a ++ rest)) = false).
    rewrite IH.
    + rewrite str_app_assoc. reflexivity.
    + intros a1 a2 Ea Ha. apply (Hno (String d a1) a2); [ rewrite Ea; reflexivity | exact Ha ].
Qed.

Lemma split_go_skips sep s1 :
  forall cur rest,
    PyStr.split_go sep (String.length s1) cur (s1 ++ rest) = PyStr.split_go sep O cur rest.
Proof.
  induction s1 as [ | d s1 IH]; intros cur rest; cbn [String.length append].
  - destruct rest; reflexivity.
  - cbn [PyStr.split_go]. apply IH.
Qed.

Lemma split_go_match c sep cur rest :
  PyStr.split_go (String c sep) O cur (String c sep ++ rest)
  = cur :: PyStr.split_go (String c sep) O EmptyString rest.
Proof.
  cbn [append PyStr.split_go].
  change (String c (sep ++ rest)) with (String c sep ++ rest).
  rewrite (startswith_app (String c sep) rest : String.prefix _ _ = true).
  cbn [String.length Nat.pred]. rewrite split_go_skips. reflexivity.
Qed.

Lemma contains_suffix p a1 a2 :
  String.prefix p a2 = true -> PyStr.contains p (a1 ++ a2) = true.
Proof.
  intros Hp. induction a1 as [ | d a1 IH]; cbn [append].
  - destruct a2; cbn [PyStr.contains]; rewrite Hp; reflexivity.
  - cbn [PyStr.contains]. rewrite IH. destruct (String.prefix p (String d (a1 ++ a2))); reflexivity.
Qed.

Lemma prefix_app_left p a b :
  String.prefix p a = true -> String.prefix p (a ++ b) = true.
Proof.
  revert a. induction p as [ | c p IH]; intros a Hp; [ destruct (a ++ b); reflexivity | ].
  destruct a as [ | d a]; cbn [String.prefix append] in *; [ discriminate | ].
  destruct (ascii_dec c d); [ apply IH; exact Hp | discriminate ].
Qed.

(** No occurrence of [/users/] begins in a text that does not hold
    [/users], whatever follows it after a [/]. *)
Lemma no_match_begins_in_base base rest :
  PyStr.contains "/users" base = false ->
  forall a1 a2, base = a1 ++ a2 -> a2 <> EmptyString ->
                String.prefix "/users/" (a2 ++ String "/" rest) = false.
Proof.
  intros Hc a1 a2 -> Ha.
  destruct (String.prefix "/users/" (a2 ++ String "/" rest)) eqn:Hp; [ exfalso | reflexivity ].
  assert (Hshort : String.prefix "/users" a2 = false).
  { destruct (String.prefix "/users" a2) eqn:E; [ | reflexivity ].
    rewrite (contains_suffix _ a1 a2 E) in Hc. discriminate Hc. }
  destruct a2 as [ | c1 [ | c2 [ | c3 [ | c4 [ | c5 [ | c6 a2]]]]]];
    try contradiction;
    cbn [append String.prefix] in Hp, Hshort;
    repeat match type of Hp with
           | context [ascii_dec ?a ?b] =>
               destruct (ascii_dec a b); [ | discriminate Hp ]
           end;
    subst;
    repeat match type of Hshort with
           | context [ascii_dec ?a ?b] =>
               destruct (ascii_dec a b); [ | congruence ]
           end;
    try discriminate.
  destruct a2; discriminate Hshort.
Qed.

Lemma no_match_in_id sep id :
  PyStr.contains sep id = false ->
  forall a1 a2, id = a1 ++ a2 -> a2 <> EmptyString ->
                String.prefix sep (a2 ++ EmptyString) = false.
Proof.
  intros Hc a1 a2 -> _. rewrite str_app_nil_r.
  destruct (String.prefix sep a2) eqn:E; [ | reflexivity ].
  rewrite (contains_suffix _ a1 a2 E) in Hc. discriminate Hc.
Qed.

Lemma split_users_link base id :
  PyStr.contains "/users" base = false ->
  PyStr.contains "/users/" id = false ->
  PyStr.split "/users/" (base ++ "/users/" ++ id) = [base; id].
Proof.
  intros Hb Hi. unfold PyStr.split.
  rewrite (split_go_passes "/users/" ("/users/" ++ id) base).
  2:{ intros a1 a2 E Ha. exact (no_match_begins_in_base base ("users/" ++ id) Hb a1 a2 E Ha). }
  change (EmptyString ++ base) with base.
  rewrite (split_go_match "/" "users/" base id).
  rewrite <- (str_app_nil_r id) at 1.
  rewrite (split_go_passes "/users/" EmptyString id (no_match_in_id _ _ Hi)).
  reflexivity.
Qed.

Lemma contains_middle p a b : PyStr.contains p (a ++ p ++ b) = true.
Proof. apply contains_suffix. apply startswith_app. Qed.

(** X14.  The id the server put in the link comes back: for a member
    whose link is a base, [/users/] and an id, where the base does not
    hold [/users], and the id is not empty and does not hold [/users/],
    the identifier of the item is that id, whatever else the item
    carries, and the item adds it to the set. *)
Theorem link_gives_back_the_id item base id :
  user_link_of item = Ok (JStr (base ++ "/users/" ++ id)) ->
  PyStr.contains "/users" base = false ->
  PyStr.contains "/users/" id = false ->
  id <> EmptyString ->
  item_user_id item = Ok (JStr id) /\
  forall ids, add_item ids item = Py.set_add (JStr id) ids.
Proof.
  intros Hl Hb Hi Hne.
  assert (Hid : item_user_id item = Ok (JStr id)).
  { rewrite item_user_id_strategies.
    rewrite (link_strategy_link item _ Hl (contains_middle "/users/" base id)).
    unfold after_users. rewrite (split_users_link base id Hb Hi).
    cbn [PyStr.last_piece List.last rbind]. rewrite (nonempty_str_truthy _ Hne). reflexivity. }
  split; [ exact Hid | ].
  intros ids. unfold add_item. rewrite Hid. cbn [rbind].
  rewrite (nonempty_str_truthy _ Hne). reflexivity.
Qed.

Lemma link_gives_back_the_id_witness :
  item_user_id listed_link_member = Ok (JStr "00u7?expand=x") /\
  forall ids, add_item ids listed_link_member = Py.set_add (JStr "00u7?expand=x") ids.
Proof.
  apply (link_gives_back_the_id listed_link_member "https://x.okta.com/api/v1" "00u7?expand=x");
    [ reflexivity | reflexivity | reflexivity | discriminate ].
Defined.

(** ** From the members to the origin of a row *)

Section MembersToRows.
Context `{Builtins}.

Lemma collect_loop_unfolds fuel :
  forall url s0 w s w',
    collect_loop fuel url s0 w = (Ok s, w') ->
    forallb list_body (pending w) = true ->
    exists new,
      add_items s0 new = Ok s /\
      forall items0, _get_paginated_loop fuel url items0 w = (Ok (items0 ++ new)%list, w').
Proof.
  induction fuel as [ | fuel IH]; intros url s0 w s w' Hl Hb;
    cbn [collect_loop] in Hl; destruct url as [u | ];
    try (injection Hl as <- <-; exists []; split; [ reflexivity | ];
         intros items0; rewrite app_nil_r; reflexivity).
  - destruct (truthy_url (Some u)) eqn:Tu; [ discriminate | ].
    injection Hl as <- <-. exists []. split; [ reflexivity | ].
    intros items0. rewrite app_nil_r. cbn [_get_paginated_loop]. rewrite Tu. reflexivity.
  - destruct (truthy_url (Some u)) eqn:Tu.
    + destruct (_get u w) as [[resp | e] w1] eqn:Hg; [ | discriminate ].
      destruct (status_code resp =? 200) eqn:E200; cbn [negb] in Hl; [ | discriminate ].
      destruct (add_page s0 resp) as [s1 | e] eqn:Ep; [ | discriminate ].
      pose proof Hg as Hg'. unfold _get in Hg'. apply _get_from_account in Hg'.
      destruct Hg' as (retries & sleeps & Hs & _).
      rewrite Hs, forallb_app in Hb. apply andb_true_iff in Hb. destruct Hb as [_ Hb].
      cbn [forallb] in Hb. apply andb_true_iff in Hb. destruct Hb as [Hresp Hrest].
      unfold list_body in Hresp. rewrite E200 in Hresp. cbn [negb orb] in Hresp.
      destruct (body resp) as [[ | | | | xs | ] | ] eqn:Eb; try discriminate Hresp.
      rewrite (add_page_list s0 resp xs Eb) in Ep.
      destruct (IH _ _ _ _ _ Hl Hrest) as (new & Ha & Hloop).
      exists (xs ++ new)%list. split.
      * rewrite add_items_app, Ep. exact Ha.
      * intros items0. cbn [_get_paginated_loop]. rewrite Tu, Hg, E200. cbn [negb].
        unfold json_of. rewrite Eb. cbn [accumulate]. rewrite Hloop, app_assoc. reflexivity.
    + injection Hl as <- <-. exists []. split; [ reflexivity | ].
      intros items0. rewrite app_nil_r. cbn [_get_paginated_loop]. rewrite Tu. reflexivity.
Qed.

(** X15.  When the pages of members are JSON arrays, a user's row says
    "Imported (bob)" exactly when one of the membership items fetched by
    the traversal of the application's users resolves to an identifier
    equal to the user's id. *)
Theorem imported_iff_a_member_resolves cfg bob_app_id w ids w' :
  collect_bob_user_ids cfg bob_app_id w = (Ok ids, w') ->
  forallb list_body (pending w) = true ->
  exists items,
    _get_paginated (members_url cfg bob_app_id) w = (Ok items, w') /\
    forall user row,
      transform_row ids user = Ok row ->
      (origin row = "Imported (bob)" <->
       exists item y,
         In item items /\ item_user_id item = Ok y /\ Py.truthy y = true /\
         Py.eq_atom (user_id row) y = true).
Proof.
  intros Hc Hb. destruct (collect_loop_unfolds _ _ _ _ _ _ Hc Hb) as (items & Ha & Hloop).
  exists items. split; [ apply (Hloop []) | ].
  intros user row Ht. destruct (transform_row_classified ids user row Ht) as [_ [Ho _]].
  rewrite Ho, (add_items_mem items [] ids Ha (user_id row)).
  split; [ intros [Hx | Hx]; [ discriminate Hx | exact Hx ] | auto ].
Qed.

End MembersToRows.

Lemma imported_iff_a_member_resolves_witness :
  exists items,
    _get_paginated (members_url Sample.cfg (JStr "0oa1")) (Sample.world 0 members_script)
    = (Ok items, snd (collect_bob_user_ids Sample.cfg (JStr "0oa1")
                        (Sample.world 0 members_script))) /\
    forall user row,
      transform_row [JStr "00u2"; JStr "00u5"] user = Ok row ->
      (origin row = "Imported (bob)" <->
       exists item y,
         In item items /\ item_user_id item = Ok y /\ Py.truthy y = true /\
         Py.eq_atom (user_id row) y = true).
Proof.
  exact (imported_iff_a_member_resolves Sample.cfg (JStr "0oa1")
           (Sample.world 0 members_script) [JStr "00u2"; JStr "00u5"]
           (snd (collect_bob_user_ids Sample.cfg (JStr "0oa1") (Sample.world 0 members_script)))
           eq_refl eq_refl).
Defined.
